(** * The admin back-office of the church website: a shallow embedding

    The repository is a React front end over a managed backend.  Two
    generations of the backend integration are in the sources: the pages
    and hooks that call the relational backend (tables, constraints and
    row-level-security policies of the SQL migrations), and the users
    module that calls a document store (collections keyed by user id).

    The embedding follows the code: every handler is a computation over a
    world made of the backend store, the signed-in session, the clock, and
    what the handler leaves behind (notifications, component state, the
    remote calls it issued).  A remote call can fail before it reaches the
    store; the handlers branch on that, so the world carries, for the calls
    to come, whether each one gets through. *)

From Stdlib Require Import ZArith Ascii String List Lia Bool.
From stdpp Require Import base option list strings pretty gmap sorting.

Local Open Scope string_scope.
Local Open Scope Z_scope.
Local Open Scope list_scope.

(** ** Asynchronous, fallible code: state and exceptions *)

Module Js.

(** A thrown value.  The handlers show [error.message] when the value is
    an [Error] instance and a fixed text otherwise. *)
Record JsError := mkError { instanceof_Error : bool; message : string }.

Definition errMessage (error : JsError) (fallback : string) : string :=
  if instanceof_Error error then message error else fallback.

Inductive Result (A : Type) : Type :=
| Ok (a : A)
| Throw (e : JsError).
Arguments Ok {A} a.
Arguments Throw {A} e.

Section Monad.
Context {S : Type}.

Definition M (A : Type) : Type := S -> Result A * S.

Definition ret {A} (a : A) : M A := fun s => (Ok a, s).

Definition bind {A B} (c : M A) (k : A -> M B) : M B :=
  fun s => match c s with
           | (Ok a, s1) => k a s1
           | (Throw e, s1) => (Throw e, s1)
           end.

Definition throw {A} (e : JsError) : M A := fun s => (Throw e, s).

(** [try { body } catch (error) { handler error }] *)
Definition try_catch {A} (body : M A) (handler : JsError -> M A) : M A :=
  fun s => match body s with
           | (Ok a, s1) => (Ok a, s1)
           | (Throw e, s1) => handler e s1
           end.

(** [try { body } finally { cleanup }]: the cleanup runs on both exits
    and the body's completion is kept unless the cleanup throws. *)
Definition try_finally {A} (body : M A) (cleanup : M unit) : M A :=
  fun s => match body s with
           | (r, s1) => match cleanup s1 with
                        | (Ok _, s2) => (r, s2)
                        | (Throw e, s2) => (Throw e, s2)
                        end
           end.

Definition get : M S := fun s => (Ok s, s).
Definition modify (f : S -> S) : M unit := fun s => (Ok tt, f s).

(** [if (error) throw error;] on the [error] field of a reply *)
Definition throw_if (error : option JsError) : M unit :=
  match error with
  | Some e => throw e
  | None => ret tt
  end.
End Monad.

Arguments M : clear implicits.

End Js.

Import Js.

Notation "x <- c ;; k" := (bind c (fun x => k))
  (at level 100, c at next level, right associativity).
Notation "c ;;; k" := (bind c (fun _ => k))
  (at level 100, right associativity).

(** ** The public gallery page: the lightbox *)

Module GalleryPage.

Record GalleryImage := mkImage {
  id : string;
  image_url : string;
  caption : option string
}.

Inductive Direction := prev | next.

(** [navigateLightbox] reads the component state [lightboxIndex]
    ([number | null]) and the query data [albumImages] (undefined until
    loaded) and sets [lightboxIndex]; the result is the state after the
    call. *)
Definition navigateLightbox (direction : Direction)
    (lightboxIndex : option Z) (albumImages : option (list GalleryImage))
  : option Z :=
  match lightboxIndex, albumImages with
  | Some i, Some images =>
      let len := Z.of_nat (length images) in
      match direction with
      | prev => Some (if 0 <? i then i - 1 else len - 1)
      | next => Some (if i <? len - 1 then i + 1 else 0)
      end
  | _, _ => lightboxIndex
  end.

End GalleryPage.

(** ** The relational backend

    Tables, constraints and policies are those of the SQL migrations and
    of the generated table types.  Time stamps are numbers (milliseconds);
    identifiers are the uuid strings the client sees. *)

Module Supabase.

Definition uuid := string.
Definition timestamptz := Z.

(** [Enums.app_role] of the generated types. *)
Inductive app_role := admin | moderator | user.

(** [status text CHECK (status IN ('pending', 'approved', 'rejected'))] *)
Inductive request_status := pending | approved | rejected.

#[global] Instance app_role_eq_dec : EqDecision app_role.
Proof. solve_decision. Defined.
#[global] Instance request_status_eq_dec : EqDecision request_status.
Proof. solve_decision. Defined.

(** [auth.users], as far as the application refers to it. *)
Record auth_users_row := mkAuthUser {
  au_id : uuid;
  au_email : string
}.

Record user_roles_row := mkUserRole {
  ur_id : uuid;
  ur_user_id : uuid;
  ur_role : app_role;
  ur_created_at : timestamptz
}.

Record admin_requests_row := mkAdminRequest {
  ar_id : uuid;
  ar_user_id : uuid;
  ar_email : string;
  ar_status : request_status;
  ar_reviewed_by : option uuid;
  ar_created_at : timestamptz;
  ar_reviewed_at : option timestamptz
}.

Record gallery_albums_row := mkAlbum {
  ga_id : uuid;
  ga_title : string;
  ga_description : option string;
  ga_cover_image_url : option string;
  ga_is_active : option bool;
  ga_display_order : option Z;
  ga_created_at : timestamptz;
  ga_updated_at : timestamptz
}.

Record gallery_images_row := mkGalleryImage {
  gi_id : uuid;
  gi_album_id : uuid;
  gi_image_url : string;
  gi_caption : option string;
  gi_display_order : option Z;
  gi_created_at : timestamptz
}.

(** The store: each table is the list of its rows, oldest insertion
    first. *)
Record Db := mkDb {
  auth_users : list auth_users_row;
  user_roles : list user_roles_row;
  admin_requests : list admin_requests_row;
  gallery_albums : list gallery_albums_row;
  gallery_images : list gallery_images_row
}.

Definition with_auth_users (f : list auth_users_row -> list auth_users_row)
    (d : Db) : Db :=
  mkDb (f (auth_users d)) (user_roles d) (admin_requests d)
       (gallery_albums d) (gallery_images d).
Definition with_user_roles (f : list user_roles_row -> list user_roles_row)
    (d : Db) : Db :=
  mkDb (auth_users d) (f (user_roles d)) (admin_requests d)
       (gallery_albums d) (gallery_images d).
Definition with_admin_requests
    (f : list admin_requests_row -> list admin_requests_row) (d : Db) : Db :=
  mkDb (auth_users d) (user_roles d) (f (admin_requests d))
       (gallery_albums d) (gallery_images d).
Definition with_gallery_albums
    (f : list gallery_albums_row -> list gallery_albums_row) (d : Db) : Db :=
  mkDb (auth_users d) (user_roles d) (admin_requests d)
       (f (gallery_albums d)) (gallery_images d).
Definition with_gallery_images
    (f : list gallery_images_row -> list gallery_images_row) (d : Db) : Db :=
  mkDb (auth_users d) (user_roles d) (admin_requests d)
       (gallery_albums d) (f (gallery_images d)).

(** Remote calls, as the client issues them. *)
Inductive Call :=
| auth_signUp (email : string)
| insert_into_user_roles (user_id : uuid) (role : app_role)
| insert_into_admin_requests (user_id : uuid) (email : string)
    (status : request_status)
| update_admin_requests_eq_id (status : request_status)
    (reviewed_at : timestamptz) (reviewed_by : option uuid) (id : uuid)
| select_admin_requests_eq_status (status : request_status)
| invoke_delete_user (userId : uuid)
| insert_into_gallery_albums (title : string) (description : option string)
| delete_from_gallery_albums_eq_id (id : uuid)
| update_gallery_albums_is_active_eq_id (is_active : bool) (id : uuid)
| update_gallery_albums_cover_eq_id (cover_image_url : string) (id : uuid)
| insert_into_gallery_images (album_id : uuid) (image_url : string)
| delete_from_gallery_images_eq_id (id : uuid)
| storage_upload (path : string)
| storage_remove (path : string).

(** [toast.success], [toast.error] of the admin and sign-up pages, and
    the [toast({ title, description, variant })] of the gallery page. *)
Inductive Toast :=
| toast_success (text : string)
| toast_error (text : string)
| toast_titled (title : string) (description : option string)
    (destructive : bool).

(** Reads the handlers start without awaiting them. *)
Inductive Refresh :=
| refetchPending
| fetchAdmins
| invalidateQueries (queryKey : list (option string)).

Record World := mkWorld {
  db : Db;
  session : option uuid;          (* [user?.id] of useAuth, [auth.uid()] *)
  clock : timestamptz;            (* [new Date()], [now()] *)
  outages : list bool;            (* for the coming calls: [true] = lost *)
  entropy : list string;          (* what the random generators return *)
  calls : list Call;              (* remote calls issued, oldest first *)
  toasts : list Toast;            (* notifications shown, oldest first *)
  processingId : option string;   (* component state of the Admins page *)
  refreshes : list Refresh        (* reads started, oldest first *)
}.

Definition with_db (f : Db -> Db) (w : World) : World :=
  mkWorld (f (db w)) (session w) (clock w) (outages w) (entropy w) (calls w)
          (toasts w) (processingId w) (refreshes w).
Definition with_session (s : option uuid) (w : World) : World :=
  mkWorld (db w) s (clock w) (outages w) (entropy w) (calls w)
          (toasts w) (processingId w) (refreshes w).
Definition with_clock (c : timestamptz) (w : World) : World :=
  mkWorld (db w) (session w) c (outages w) (entropy w) (calls w)
          (toasts w) (processingId w) (refreshes w).
Definition with_outages (o : list bool) (w : World) : World :=
  mkWorld (db w) (session w) (clock w) o (entropy w) (calls w)
          (toasts w) (processingId w) (refreshes w).
Definition with_entropy (e : list string) (w : World) : World :=
  mkWorld (db w) (session w) (clock w) (outages w) e (calls w)
          (toasts w) (processingId w) (refreshes w).
Definition with_calls (c : list Call) (w : World) : World :=
  mkWorld (db w) (session w) (clock w) (outages w) (entropy w) c
          (toasts w) (processingId w) (refreshes w).
Definition with_toasts (t : list Toast) (w : World) : World :=
  mkWorld (db w) (session w) (clock w) (outages w) (entropy w) (calls w)
          t (processingId w) (refreshes w).
Definition with_processingId (p : option string) (w : World) : World :=
  mkWorld (db w) (session w) (clock w) (outages w) (entropy w) (calls w)
          (toasts w) p (refreshes w).
Definition with_refreshes (r : list Refresh) (w : World) : World :=
  mkWorld (db w) (session w) (clock w) (outages w) (entropy w) (calls w)
          (toasts w) (processingId w) r.

(** *** The client side of a call *)

Definition toast (t : Toast) : M World unit :=
  modify (fun w => with_toasts (toasts w ++ [t]) w).

Definition setProcessingId (p : option string) : M World unit :=
  modify (with_processingId p).

Definition start (r : Refresh) : M World unit :=
  modify (fun w => with_refreshes (refreshes w ++ [r]) w).

Definition useAuth_user : M World (option uuid) :=
  fun w => (Ok (session w), w).

Definition new_Date : M World timestamptz :=
  fun w => (Ok (clock w), w).

(** Sending a call records it and tells whether it reaches the backend. *)
Definition send (c : Call) : M World bool :=
  fun w => (Ok (negb (hd false (outages w))),
            with_outages (tl (outages w)) (with_calls (calls w ++ [c]) w)).

(** [gen_random_uuid()], [Math.random()] *)
Definition random : M World string :=
  fun w => (Ok (hd "" (entropy w)), with_entropy (tl (entropy w)) w).

(** The [error] of a reply of the table client is a plain object
    [{ message, details, hint, code }], for a call that did not get through
    as for a row that was refused: it is no [Error] instance.  The errors of
    the functions client and of the storage client are instances of classes
    that extend [Error]. *)
Definition FetchError : JsError := mkError false "TypeError: Failed to fetch".
Definition PostgrestError (text : string) : JsError := mkError false text.
Definition FunctionsError (text : string) : JsError := mkError true text.
Definition StorageError (text : string) : JsError := mkError true text.
Definition new_Error (text : string) : JsError := mkError true text.

(** *** The backend side: policies and constraints *)

(** Modelled from the spec: the SQL function [has_role], which the
    policies call and the generated types declare ([_user_id], [_role],
    returns boolean), is created by a migration that is not part of the
    sources.  Role assignments are the rows of [user_roles], so the function
    is the existence of such a row; [auth.uid()] is NULL without a session
    and then no role is held. *)
Definition has_role (d : Db) (_user_id : option uuid) (_role : app_role)
  : bool :=
  match _user_id with
  | Some u =>
      bool_decide (Exists (fun r => ur_user_id r = u /\ ur_role r = _role)
                          (user_roles d))
  | None => false
  end.

Definition is_admin (w : World) : bool := has_role (db w) (session w) admin.

(** Modelled from the spec: the table [user_roles] is created by a
    migration that is not part of the sources; its columns are those of the
    generated types, and the spec's data model gives it a uniqueness
    constraint on the pair of user and role.  Its policies are unknown and
    left out. *)
Definition from_user_roles_insert (user_id : uuid) (role : app_role)
  : M World (option JsError) :=
  served <- send (insert_into_user_roles user_id role) ;;
  if negb served then ret (Some FetchError) else
  id <- random ;;
  w <- get ;;
  if bool_decide (Exists (fun r => ur_id r = id) (user_roles (db w)))
  then ret (Some (PostgrestError
         "duplicate key value violates unique constraint: user_roles_pkey"))
  else if bool_decide (Exists (fun r => ur_user_id r = user_id
                                        /\ ur_role r = role)
                              (user_roles (db w)))
  then ret (Some (PostgrestError
         "duplicate key value violates unique constraint: user_roles_user_id_role_key"))
  else
    modify (with_db (with_user_roles
      (fun t => t ++ [mkUserRole id user_id role (clock w)]))) ;;;
    ret None.

(** [admin_requests]: primary key [id] with a generated default, foreign
    key [user_id] into [auth.users], [UNIQUE (user_id)], [created_at]
    defaulting to [now()], and the insert policy
    [WITH CHECK (auth.uid() = user_id)]. *)
Definition from_admin_requests_insert (user_id : uuid) (email : string)
    (status : request_status) : M World (option JsError) :=
  served <- send (insert_into_admin_requests user_id email status) ;;
  if negb served then ret (Some FetchError) else
  id <- random ;;
  w <- get ;;
  if negb (bool_decide (session w = Some user_id))
  then ret (Some (PostgrestError
         "new row violates row-level security policy for table: admin_requests"))
  else if bool_decide (Exists (fun r => ar_id r = id) (admin_requests (db w)))
  then ret (Some (PostgrestError
         "duplicate key value violates unique constraint: admin_requests_pkey"))
  else if bool_decide (Exists (fun r => ar_user_id r = user_id)
                              (admin_requests (db w)))
  then ret (Some (PostgrestError
         "duplicate key value violates unique constraint: admin_requests_user_id_key"))
  else if negb (bool_decide (Exists (fun u => au_id u = user_id)
                                    (auth_users (db w))))
  then ret (Some (PostgrestError
         "insert or update violates foreign key constraint: admin_requests_user_id_fkey"))
  else
    modify (with_db (with_admin_requests
      (fun t => t ++ [mkAdminRequest id user_id email status None
                                     (clock w) None]))) ;;;
    ret None.

(** The row after [.update({ status, reviewed_at, reviewed_by })]; a
    [reviewed_by] that is undefined is not sent, and the column keeps its
    value. *)
Definition reviewed (status : request_status) (reviewed_at : timestamptz)
    (reviewed_by : option uuid) (r : admin_requests_row)
  : admin_requests_row :=
  mkAdminRequest (ar_id r) (ar_user_id r) (ar_email r) status
    (match reviewed_by with Some u => Some u | None => ar_reviewed_by r end)
    (ar_created_at r) (Some reviewed_at).

(** The update policy lets administrators through
    ([USING (has_role(auth.uid(), 'admin'))], same [WITH CHECK]); rows the
    policy hides are skipped without an error.  [reviewed_by] is a foreign
    key into [auth.users]. *)
Definition from_admin_requests_update_eq_id (status : request_status)
    (reviewed_at : timestamptz) (reviewed_by : option uuid) (id : uuid)
  : M World (option JsError) :=
  served <- send (update_admin_requests_eq_id status reviewed_at
                                              reviewed_by id) ;;
  if negb served then ret (Some FetchError) else
  w <- get ;;
  if negb (is_admin w) then ret None
  else if negb (bool_decide (Exists (fun r => ar_id r = id)
                                    (admin_requests (db w))))
  then ret None
  else if match reviewed_by with
          | Some u => negb (bool_decide (Exists (fun a => au_id a = u)
                                                (auth_users (db w))))
          | None => false
          end
  then ret (Some (PostgrestError
         "insert or update violates foreign key constraint: admin_requests_reviewed_by_fkey"))
  else
    modify (with_db (with_admin_requests
      (map (fun r => if bool_decide (ar_id r = id)
                     then reviewed status reviewed_at reviewed_by r
                     else r)))) ;;;
    ret None.

(** The select policies show a row to administrators and to the user
    the row belongs to. *)
Definition visible (w : World) (r : admin_requests_row) : Prop :=
  is_admin w = true \/ session w = Some (ar_user_id r).

(** [.order("created_at", { ascending: false })] *)
Definition newest_first (r1 r2 : admin_requests_row) : Prop :=
  ar_created_at r2 <= ar_created_at r1.

#[global] Instance newest_first_dec : RelDecision newest_first.
Proof. intros r1 r2. unfold newest_first. apply _. Defined.

#[global] Instance visible_dec w r : Decision (visible w r).
Proof. unfold visible. apply _. Defined.

Definition from_admin_requests_select_eq_status_order_created_at
    (status : request_status)
  : M World (option (list admin_requests_row) * option JsError) :=
  served <- send (select_admin_requests_eq_status status) ;;
  if negb served then ret (None, Some FetchError) else
  w <- get ;;
  ret (Some (merge_sort newest_first
               (filter (fun r => visible w r /\ ar_status r = status)
                       (admin_requests (db w)))),
       None).

(** What the foreign keys of [admin_requests] do when a row of
    [auth.users] goes: [user_id ... ON DELETE CASCADE],
    [reviewed_by ... ON DELETE SET NULL]. *)
Definition on_delete_auth_user (u : uuid) (t : list admin_requests_row)
  : list admin_requests_row :=
  map (fun r => if bool_decide (ar_reviewed_by r = Some u)
                then mkAdminRequest (ar_id r) (ar_user_id r) (ar_email r)
                       (ar_status r) None (ar_created_at r)
                       (ar_reviewed_at r)
                else r)
      (filter (fun r => ar_user_id r <> u) t).

Definition delete_account (u : uuid) (d : Db) : Db :=
  with_auth_users (filter (fun a => au_id a <> u))
    (with_user_roles (filter (fun r => ur_user_id r <> u))
       (with_admin_requests (on_delete_auth_user u) d)).

Record delete_user_data := mkDeleteUserData { du_error : option string }.

(** Modelled from the spec: the edge function [delete-user] is not part
    of the sources.  The spec has it as the one privileged server-side
    function, invoked by the client, that deletes a user account and all
    associated data: the account, its role rows and, through the foreign
    keys, its admin request.  For an account that does not exist the reply
    carries an error text. *)
Definition functions_invoke_delete_user (userId : uuid)
  : M World (option delete_user_data * option JsError) :=
  served <- send (invoke_delete_user userId) ;;
  if negb served
  then ret (None, Some (FunctionsError
              "Failed to send a request to the Edge Function"))
  else
  w <- get ;;
  if negb (bool_decide (Exists (fun a => au_id a = userId)
                               (auth_users (db w))))
  then ret (Some (mkDeleteUserData (Some "User not found")), None)
  else
    modify (with_db (delete_account userId)) ;;;
    ret (Some (mkDeleteUserData None), None).

Record signUp_reply := mkSignUpReply {
  su_error : option JsError;
  su_userId : option uuid
}.

(** Modelled from the spec: [signUp] of the [useAuth] hook is not part of
    the sources.  The user is an identity issued by the auth provider: a
    new account gets a fresh id and the caller is signed in as that
    account; an email that has an account is refused. *)
Definition signUp (email password : string) : M World signUp_reply :=
  served <- send (auth_signUp email) ;;
  if negb served
  then ret (mkSignUpReply (Some (mkError true "Failed to fetch")) None)
  else
  id <- random ;;
  w <- get ;;
  if bool_decide (Exists (fun a => au_email a = email) (auth_users (db w)))
  then ret (mkSignUpReply (Some (mkError true "User already registered"))
                          None)
  else if bool_decide (Exists (fun a => au_id a = id) (auth_users (db w)))
  then ret (mkSignUpReply (Some (mkError true
                                   "Database error saving new user")) None)
  else
    modify (fun w => with_session (Some id)
              (with_db (with_auth_users
                 (fun t => t ++ [mkAuthUser id email])) w)) ;;;
    ret (mkSignUpReply None (Some id)).

(** *** The gallery tables

    Both tables let administrators insert, update and delete
    ([FOR ALL USING (has_role(auth.uid(), 'admin'))], same [WITH CHECK]);
    [gallery_images.album_id] references [gallery_albums(id)]
    [ON DELETE CASCADE]. *)

Definition rls_error (table : string) : JsError :=
  PostgrestError
    (String.append "new row violates row-level security policy for table: "
                   table).

Definition from_gallery_albums_insert (title : string)
    (description : option string) : M World (option JsError) :=
  served <- send (insert_into_gallery_albums title description) ;;
  if negb served then ret (Some FetchError) else
  id <- random ;;
  w <- get ;;
  if negb (is_admin w) then ret (Some (rls_error "gallery_albums"))
  else if bool_decide (Exists (fun a => ga_id a = id) (gallery_albums (db w)))
  then ret (Some (PostgrestError
         "duplicate key value violates unique constraint: gallery_albums_pkey"))
  else
    modify (with_db (with_gallery_albums
      (fun t => t ++ [mkAlbum id title description None (Some true)
                              (Some 0) (clock w) (clock w)]))) ;;;
    ret None.

Definition from_gallery_albums_delete_eq_id (id : uuid)
  : M World (option JsError) :=
  served <- send (delete_from_gallery_albums_eq_id id) ;;
  if negb served then ret (Some FetchError) else
  w <- get ;;
  if negb (is_admin w) then ret None
  else if negb (bool_decide (Exists (fun a => ga_id a = id)
                                    (gallery_albums (db w))))
  then ret None
  else
    modify (with_db (fun d =>
      with_gallery_images
        (filter (fun i => gi_album_id i <> id))
        (with_gallery_albums (filter (fun a => ga_id a <> id)) d))) ;;;
    ret None.

(** The trigger [update_gallery_albums_updated_at] runs
    [update_updated_at_column()] before every update; the function is
    created by a migration that is not part of the sources and, by its
    name, stamps [updated_at]. *)
Definition from_gallery_albums_update_eq_id
    (c : Call) (change : gallery_albums_row -> gallery_albums_row) (id : uuid)
  : M World (option JsError) :=
  served <- send c ;;
  if negb served then ret (Some FetchError) else
  w <- get ;;
  if negb (is_admin w) then ret None
  else
    modify (with_db (with_gallery_albums
      (map (fun a => if bool_decide (ga_id a = id)
                     then let a' := change a in
                          mkAlbum (ga_id a') (ga_title a') (ga_description a')
                            (ga_cover_image_url a') (ga_is_active a')
                            (ga_display_order a') (ga_created_at a')
                            (clock w)
                     else a)))) ;;;
    ret None.

Definition set_is_active (b : bool) (a : gallery_albums_row)
  : gallery_albums_row :=
  mkAlbum (ga_id a) (ga_title a) (ga_description a) (ga_cover_image_url a)
          (Some b) (ga_display_order a) (ga_created_at a) (ga_updated_at a).

Definition set_cover_image_url (url : string) (a : gallery_albums_row)
  : gallery_albums_row :=
  mkAlbum (ga_id a) (ga_title a) (ga_description a) (Some url)
          (ga_is_active a) (ga_display_order a) (ga_created_at a)
          (ga_updated_at a).

Definition from_gallery_images_insert (album_id : uuid) (image_url : string)
  : M World (option JsError) :=
  served <- send (insert_into_gallery_images album_id image_url) ;;
  if negb served then ret (Some FetchError) else
  id <- random ;;
  w <- get ;;
  if negb (is_admin w) then ret (Some (rls_error "gallery_images"))
  else if bool_decide (Exists (fun i => gi_id i = id) (gallery_images (db w)))
  then ret (Some (PostgrestError
         "duplicate key value violates unique constraint: gallery_images_pkey"))
  else if negb (bool_decide (Exists (fun a => ga_id a = album_id)
                                    (gallery_albums (db w))))
  then ret (Some (PostgrestError
         "insert or update violates foreign key constraint: gallery_images_album_id_fkey"))
  else
    modify (with_db (with_gallery_images
      (fun t => t ++ [mkGalleryImage id album_id image_url None (Some 0)
                                     (clock w)]))) ;;;
    ret None.

Definition from_gallery_images_delete_eq_id (id : uuid)
  : M World (option JsError) :=
  served <- send (delete_from_gallery_images_eq_id id) ;;
  if negb served then ret (Some FetchError) else
  w <- get ;;
  if negb (is_admin w) then ret None
  else
    modify (with_db (with_gallery_images
                       (filter (fun i => gi_id i <> id)))) ;;;
    ret None.

(** The bucket [gallery]: its objects are not modelled beyond the calls
    sent to it and the policies of the migration.  An upload is an insert
    into [storage.objects], which only administrators pass
    ([WITH CHECK (bucket_id = 'gallery' AND has_role(auth.uid(), 'admin'))]);
    a removal by anyone else finds no object to delete and is no error. *)
Definition storage_from_gallery (c : Call) : M World (option JsError) :=
  served <- send c ;;
  if negb served then ret (Some (StorageError "Failed to fetch")) else
  w <- get ;;
  match c with
  | storage_upload _ =>
      if is_admin w then ret None
      else ret (Some (StorageError
                        "new row violates row-level security policy"))
  | _ => ret None
  end.

(** *** Strings of the runtime

    A string holds the UTF-8 bytes of a text. *)

(** [s.length] counts UTF-16 code units: one for a character of one, two
    or three bytes, two for a character of four bytes.  The bytes after the
    first of a character count for nothing. *)
Definition code_units (c : ascii) : nat :=
  let n := Ascii.nat_of_ascii c in
  if (n <? 128)%nat then 1%nat
  else if (n <? 192)%nat then 0%nat
  else if (n <? 240)%nat then 1%nat
  else 2%nat.

Fixpoint js_length (s : string) : nat :=
  match s with
  | String c s' => (code_units c + js_length s')%nat
  | EmptyString => 0%nat
  end.

(** The white space of the runtime, which [trim], [parseInt] and the
    class [\s] of the regular expressions share: U+0009 to U+000D, U+0020,
    U+00A0, U+1680, U+2000 to U+200A, U+2028, U+2029, U+202F, U+205F,
    U+3000 and U+FEFF.  [white_space_bytes s] is the number of bytes of the
    white-space character at the start of [s], and 0 when there is
    none. *)
Definition white_space_bytes (s : string) : nat :=
  match s with
  | String c1 s1 =>
      let n1 := Ascii.nat_of_ascii c1 in
      if ((9 <=? n1) && (n1 <=? 13) || (n1 =? 32))%nat then 1%nat
      else
        match s1 with
        | String c2 s2 =>
            let n2 := Ascii.nat_of_ascii c2 in
            if ((n1 =? 194) && (n2 =? 160))%nat then 2%nat
            else
              match s2 with
              | String c3 _ =>
                  let n3 := Ascii.nat_of_ascii c3 in
                  if ((n1 =? 225) && (n2 =? 154) && (n3 =? 128)
                      || (n1 =? 226) && (n2 =? 128)
                         && ((128 <=? n3) && (n3 <=? 138)
                             || (n3 =? 168) || (n3 =? 169) || (n3 =? 175))
                      || (n1 =? 226) && (n2 =? 129) && (n3 =? 159)
                      || (n1 =? 227) && (n2 =? 128) && (n3 =? 128)
                      || (n1 =? 239) && (n2 =? 187) && (n3 =? 191))%nat
                  then 3%nat
                  else 0%nat
              | EmptyString => 0%nat
              end
        | EmptyString => 0%nat
        end
  | EmptyString => 0%nat
  end.

Fixpoint trimStart (s : string) : string :=
  match white_space_bytes s, s with
  | 1%nat, String _ s1 => trimStart s1
  | 2%nat, String _ (String _ s2) => trimStart s2
  | 3%nat, String _ (String _ (String _ s3)) => trimStart s3
  | _, _ => s
  end.

(** What is left of [s] when the white space at its end is taken off:
    nothing when [s] is white space throughout, and otherwise its first
    byte and what is left of the rest. *)
Fixpoint trimEnd (s : string) : string :=
  match s with
  | String c s' =>
      if bool_decide (trimStart s = "") then "" else String c (trimEnd s')
  | EmptyString => EmptyString
  end.

Definition trim (s : string) : string := trimEnd (trimStart s).

(** [toLowerCase] on the letters of ASCII, the ones an email address is
    made of; the bytes of other characters are kept. *)
Definition lower (c : ascii) : ascii :=
  let n := Ascii.nat_of_ascii c in
  if ((65 <=? n) && (n <=? 90))%nat then Ascii.ascii_of_nat (n + 32) else c.

Fixpoint toLowerCase (s : string) : string :=
  match s with
  | String c s' => String (lower c) (toLowerCase s')
  | EmptyString => EmptyString
  end.

Fixpoint includes (s sub : string) : bool :=
  String.prefix sub s
  || match s with
     | String _ s' => includes s' sub
     | EmptyString => false
     end.

(** [s.split(sep).pop()]: what follows the last separator. *)
Fixpoint split_pop_from (sep : ascii) (last : string) (s : string) : string :=
  match s with
  | String c s' =>
      if Ascii.eqb c sep then split_pop_from sep "" s'
      else split_pop_from sep (String.append last (String c "")) s'
  | EmptyString => last
  end.

Definition split_pop (sep : ascii) (s : string) : string :=
  split_pop_from sep "" s.

(** A string, or an optional one, used as a condition. *)
Definition truthy (s : option string) : bool :=
  match s with
  | Some t => negb (bool_decide (t = ""))
  | None => false
  end.

(** *** The Admins page *)

Definition handleRemoveAdmin (adminId adminUserId : string) : M World unit :=
  user <- useAuth_user ;;
  if bool_decide (Some adminUserId = user)
  then toast (toast_error "You cannot remove your own admin access")
  else
    setProcessingId (Some adminId) ;;;
    try_finally
      (try_catch
         (reply <- functions_invoke_delete_user adminUserId ;;
          throw_if (snd reply) ;;;
          (match fst reply with
           | Some data =>
               if truthy (du_error data)
               then throw (new_Error (default "" (du_error data)))
               else ret tt
           | None => ret tt
           end) ;;;
          toast (toast_success "User completely removed from system") ;;;
          start fetchAdmins)
         (fun error =>
            toast (toast_error (errMessage error "Failed to remove user"))))
      (setProcessingId None).

Definition handleApproveRequest (requestId userId email : string)
  : M World unit :=
  setProcessingId (Some requestId) ;;;
  try_finally
    (try_catch
       (roleError <- from_user_roles_insert userId admin ;;
        throw_if roleError ;;;
        reviewed_at <- new_Date ;;
        user <- useAuth_user ;;
        updateError <- from_admin_requests_update_eq_id approved reviewed_at
                         user requestId ;;
        throw_if updateError ;;;
        toast (toast_success
                 (String.append email " has been approved as admin")) ;;;
        start refetchPending ;;;
        start fetchAdmins ;;;
        start (invalidateQueries [Some "pending-admin-requests"]))
       (fun error =>
          toast (toast_error (errMessage error "Failed to approve request"))))
    (setProcessingId None).

Definition handleRejectRequest (requestId userId email : string)
  : M World unit :=
  setProcessingId (Some requestId) ;;;
  try_finally
    (try_catch
       (reply <- functions_invoke_delete_user userId ;;
        throw_if (snd reply) ;;;
        (match fst reply with
         | Some data =>
             if truthy (du_error data)
             then throw (new_Error (default "" (du_error data)))
             else ret tt
         | None => ret tt
         end) ;;;
        toast (toast_success
                 (String.append "Request from "
                    (String.append email
                       " has been rejected and user removed"))) ;;;
        start refetchPending ;;;
        start (invalidateQueries [Some "pending-admin-requests"]))
       (fun error =>
          toast (toast_error (errMessage error "Failed to reject request"))))
    (setProcessingId None).

(** The query function of [usePendingRequests]. *)
Definition usePendingRequests_queryFn : M World (list admin_requests_row) :=
  reply <- from_admin_requests_select_eq_status_order_created_at pending ;;
  throw_if (snd reply) ;;;
  ret (default [] (fst reply)).

(** *** The sign-up form

    [is_email] stands for the email pattern of the validation library. *)

Inductive Field := field_email | field_password | field_confirmPassword.

#[global] Instance Field_eq_dec : EqDecision Field.
Proof. solve_decision. Defined.

Definition authSchema_issues (is_email : string -> bool)
    (email password : string) : list (Field * string) :=
  (if is_email (trim email) then []
   else [(field_email, "Please enter a valid email address")])
  ++ (if (6 <=? js_length password)%nat then []
      else [(field_password, "Password must be at least 6 characters")]).

(** A failed check of a field does not stop the validation: the
    refinement on the two passwords runs as well, after the fields. *)
Definition signUpSchema_issues (is_email : string -> bool)
    (email password confirmPassword : string) : list (Field * string) :=
  authSchema_issues is_email email password
  ++ (if (1 <=? js_length confirmPassword)%nat then []
      else [(field_confirmPassword, "Please confirm your password")])
  ++ (if bool_decide (password = confirmPassword) then []
      else [(field_confirmPassword, "Passwords do not match")]).

(** [fieldErrors.confirmPassword]: the first message of that field. *)
Definition fieldErrors_confirmPassword (issues : list (Field * string))
  : option string :=
  snd <$> head (filter (fun i => fst i = field_confirmPassword) issues).

(** The form fields are arguments; the form's own state (field errors,
    the loading flag, the request status shown) is not tracked.  A failed
    insert of the request is written to the console and nothing else. *)
Definition handleSignUp (is_email : string -> bool)
    (email password confirmPassword : string) : M World unit :=
  match signUpSchema_issues is_email email password confirmPassword with
  | (_ :: _) as issues =>
      if truthy (fieldErrors_confirmPassword issues)
      then toast (toast_error
                    (default "" (fieldErrors_confirmPassword issues)))
      else ret tt
  | [] =>
      reply <- signUp (trim email) password ;;
      match su_error reply with
      | Some error =>
          if includes (message error) "already registered"
          then toast (toast_error "This email is already registered")
          else toast (toast_error (message error))
      | None =>
          (if truthy (su_userId reply)
           then requestError <- from_admin_requests_insert
                                  (default "" (su_userId reply))
                                  (toLowerCase (trim email)) pending ;;
                ret tt
           else ret tt) ;;;
          toast (toast_success
                   "Account created! Your request is pending admin approval.")
      end
  end.

(** *** The gallery administration page

    A mutation runs its function and then [onSuccess] or [onError].  The
    page's own state (the selected album, the dialog, the upload flag) is
    not tracked: what a handler reads of it is an argument. *)

Definition destructive (title : string) (error : JsError) : Toast :=
  toast_titled title (Some (message error)) true.

Definition createAlbumMutation (title description : string) : M World unit :=
  try_catch
    (error <- from_gallery_albums_insert title
                (if truthy (Some description) then Some description
                 else None) ;;
     throw_if error ;;;
     start (invalidateQueries [Some "admin-albums"]) ;;;
     toast (toast_titled "Album created successfully" None false))
    (fun error => toast (destructive "Error creating album" error)).

Definition deleteAlbumMutation (albumId : string) : M World unit :=
  try_catch
    (error <- from_gallery_albums_delete_eq_id albumId ;;
     throw_if error ;;;
     start (invalidateQueries [Some "admin-albums"]) ;;;
     toast (toast_titled "Album deleted successfully" None false))
    (fun error => toast (destructive "Error deleting album" error)).

(** No [onError]: a failure leaves no trace in the page. *)
Definition toggleAlbumVisibility (albumId : string) (isActive : bool)
  : M World unit :=
  try_catch
    (error <- from_gallery_albums_update_eq_id
                (update_gallery_albums_is_active_eq_id isActive albumId)
                (set_is_active isActive) albumId ;;
     throw_if error ;;;
     start (invalidateQueries [Some "admin-albums"]) ;;;
     toast (toast_titled "Album visibility updated" None false))
    (fun _ => ret tt).

(** [selectedAlbum_id] is [selectedAlbum?.id], which prints as
    [undefined] when no album is selected. *)
Definition deleteImageMutation (selectedAlbum_id : option string)
    (image : gallery_images_row) : M World unit :=
  try_catch
    (let fileName := split_pop "/" (gi_image_url image) in
     (if truthy (Some fileName)
      then _ <- storage_from_gallery
                  (storage_remove
                     (String.append (default "undefined" selectedAlbum_id)
                        (String.append "/" fileName))) ;;
           ret tt
      else ret tt) ;;;
     error <- from_gallery_images_delete_eq_id (gi_id image) ;;
     throw_if error ;;;
     start (invalidateQueries [Some "album-images"; selectedAlbum_id]) ;;;
     toast (toast_titled "Image deleted successfully" None false))
    (fun error => toast (destructive "Error deleting image" error)).

(** The body of the loop of [handleFileUpload] for one file.  The
    selected album is the page's copy of the row, so its cover is looked
    at as it was when the album was selected. *)
Definition upload_one (getPublicUrl : string -> string)
    (selectedAlbum : gallery_albums_row) (file_name : string)
  : M World unit :=
  let fileExt := split_pop "." file_name in
  now <- new_Date ;;
  rnd <- random ;;
  let fileName :=
    String.append (pretty now)
      (String.append "-" (String.append rnd (String.append "." fileExt))) in
  let filePath :=
    String.append (ga_id selectedAlbum) (String.append "/" fileName) in
  uploadError <- storage_from_gallery (storage_upload filePath) ;;
  throw_if uploadError ;;;
  let publicUrl := getPublicUrl filePath in
  dbError <- from_gallery_images_insert (ga_id selectedAlbum) publicUrl ;;
  throw_if dbError ;;;
  if truthy (ga_cover_image_url selectedAlbum) then ret tt
  else
    _ <- from_gallery_albums_update_eq_id
           (update_gallery_albums_cover_eq_id publicUrl (ga_id selectedAlbum))
           (set_cover_image_url publicUrl) (ga_id selectedAlbum) ;;
    ret tt.

Fixpoint for_of {A} (body : A -> M World unit) (items : list A)
  : M World unit :=
  match items with
  | [] => ret tt
  | x :: rest => body x ;;; for_of body rest
  end.

Definition handleFileUpload (getPublicUrl : string -> string)
    (files : option (list string)) (selectedAlbum : option gallery_albums_row)
  : M World unit :=
  match files, selectedAlbum with
  | Some files, Some selectedAlbum =>
      try_catch
        (for_of (upload_one getPublicUrl selectedAlbum) files ;;;
         start (invalidateQueries
                  [Some "album-images"; Some (ga_id selectedAlbum)]) ;;;
         start (invalidateQueries [Some "admin-albums"]) ;;;
         toast (toast_titled
                  (String.append (pretty (length files))
                                 " image(s) uploaded successfully")
                  None false))
        (fun error =>
           toast (toast_titled "Error uploading images"
                    (Some (errMessage error "Unknown error")) true))
  | _, _ => ret tt
  end.

(** *** Runs of the application *)

(** The world a computation leaves. *)
Definition run {A} (c : M World A) (w : World) : World := snd (c w).

(** One step is one handler run to completion, or something the
    application does not control: a user signs in or out, time passes, the
    network comes and goes, role rows are written from outside these
    handlers (the Add Admin form, the owner of the database). *)
Inductive step : World -> World -> Prop :=
| step_environment w s c o e :
    step w (with_session s (with_clock c (with_outages o (with_entropy e w))))
| step_roles w t :
    step w (with_db (with_user_roles (fun _ => t)) w)
| step_handleSignUp w is_email email password confirmPassword :
    step w (run (handleSignUp is_email email password confirmPassword) w)
| step_usePendingRequests w :
    step w (run usePendingRequests_queryFn w)
| step_handleApproveRequest w requestId userId email :
    step w (run (handleApproveRequest requestId userId email) w)
| step_handleRejectRequest w requestId userId email :
    step w (run (handleRejectRequest requestId userId email) w)
| step_handleRemoveAdmin w adminId adminUserId :
    step w (run (handleRemoveAdmin adminId adminUserId) w)
| step_createAlbumMutation w title description :
    step w (run (createAlbumMutation title description) w)
| step_deleteAlbumMutation w albumId :
    step w (run (deleteAlbumMutation albumId) w)
| step_toggleAlbumVisibility w albumId isActive :
    step w (run (toggleAlbumVisibility albumId isActive) w)
| step_deleteImageMutation w selectedAlbum_id image :
    step w (run (deleteImageMutation selectedAlbum_id image) w)
| step_handleFileUpload w getPublicUrl files selectedAlbum :
    step w (run (handleFileUpload getPublicUrl files selectedAlbum) w).

(** The tables of the two migrations start empty. *)
Definition initial (w : World) : Prop :=
  admin_requests (db w) = []
  /\ gallery_albums (db w) = []
  /\ gallery_images (db w) = [].

Definition reachable (w : World) : Prop :=
  exists w0, initial w0 /\ rtc step w0 w.

(** [UNIQUE (user_id)] as a property of the table. *)
Definition one_request_per_user (d : Db) : Prop :=
  NoDup (ar_user_id <$> admin_requests d).

(** The pending requests of a user. *)
Definition pending_requests_of (u : uuid) (d : Db) : list admin_requests_row :=
  filter (fun r => ar_user_id r = u /\ ar_status r = pending)
         (admin_requests d).

(** Referential integrity of [gallery_images.album_id]. *)
Definition images_have_albums (d : Db) : Prop :=
  Forall (fun i => Exists (fun a => ga_id a = gi_album_id i)
                          (gallery_albums d))
         (gallery_images d).

(** The user holds the admin role. *)
Definition holds_admin_role (d : Db) (u : uuid) : Prop :=
  Exists (fun r => ur_user_id r = u /\ ur_role r = admin) (user_roles d).

(** The world after a call was sent: the call is recorded, one entry of
    [outages] is used up, and the store and the random supply are what the
    backend left. *)
Definition sent (c : Call) (d : Db) (e : list string) (w : World) : World :=
  mkWorld d (session w) (clock w) (tl (outages w)) e (calls w ++ [c])
          (toasts w) (processingId w) (refreshes w).

(** The next call reaches the backend. *)
Definition served (w : World) : Prop := hd false (outages w) = false.

(** How a handler of the Admins page ends: an error notification, or
    the notification of success and the reads it starts. *)
Definition failed (fallback : string) (error : JsError) (w : World) : World :=
  with_processingId None
    (with_toasts (toasts w ++ [toast_error (errMessage error fallback)]) w).

Definition succeeded (text : string) (reads : list Refresh) (w : World)
  : World :=
  with_processingId None
    (with_refreshes (refreshes w ++ reads)
       (with_toasts (toasts w ++ [toast_success text]) w)).

(** The texts of the notifications of success. *)
Definition approved_text (email : string) : string :=
  String.append email " has been approved as admin".

Definition rejected_text (email : string) : string :=
  String.append "Request from "
    (String.append email " has been rejected and user removed").

(** The approve handler, run on a request in world [w], ends in [w'] and
    reports success. *)
Definition approval (w : World) (r : admin_requests_row) (w' : World) : Prop :=
  handleApproveRequest (ar_id r) (ar_user_id r) (ar_email r) w = (Ok tt, w')
  /\ toasts w' = toasts w ++ [toast_success (approved_text (ar_email r))].

(** The reject handler, likewise. *)
Definition rejection (w : World) (r : admin_requests_row) (w' : World)
  : Prop :=
  handleRejectRequest (ar_id r) (ar_user_id r) (ar_email r) w = (Ok tt, w')
  /\ toasts w' = toasts w ++ [toast_success (rejected_text (ar_email r))].

(** The next two calls reach the backend. *)
Definition served_twice (w : World) : Prop :=
  hd false (outages w) = false /\ hd false (tl (outages w)) = false.

(** The user has an account. *)
Definition has_account (d : Db) (u : uuid) : Prop :=
  Exists (fun a => au_id a = u) (auth_users d).

(** *** Worlds to run the handlers on *)

(** An administrator [a1] and a user [u1] whose request is pending. *)
Definition db_pending : Db :=
  mkDb [mkAuthUser "a1" "pastor@church.org"; mkAuthUser "u1" "ann@church.org"]
       [mkUserRole "r1" "a1" admin 100]
       [mkAdminRequest "q1" "u1" "ann@church.org" pending None 200 None]
       [] [].

(** [a1] is signed in and every call gets through. *)
Definition world_pending : World :=
  mkWorld db_pending (Some "a1") 300 [] ["r2"; "r3"] [] [] None [].

(** The same, with the second call to come lost. *)
Definition world_second_call_lost : World :=
  with_outages [false; true] world_pending.

(** The same administrator, and five requests in the order of their
    insertion: three are pending, one is approved and one rejected. *)
Definition db_requests : Db :=
  mkDb [mkAuthUser "a1" "pastor@church.org"; mkAuthUser "u1" "ann@church.org";
        mkAuthUser "u2" "ben@church.org"; mkAuthUser "u3" "cy@church.org";
        mkAuthUser "u4" "dee@church.org"; mkAuthUser "u5" "eli@church.org"]
       [mkUserRole "r1" "a1" admin 100; mkUserRole "r2" "u2" admin 230]
       [mkAdminRequest "q1" "u1" "ann@church.org" pending None 200 None;
        mkAdminRequest "q2" "u2" "ben@church.org" approved (Some "a1") 210
                       (Some 230);
        mkAdminRequest "q3" "u3" "cy@church.org" pending None 250 None;
        mkAdminRequest "q4" "u4" "dee@church.org" rejected (Some "a1") 260
                       (Some 270);
        mkAdminRequest "q5" "u5" "eli@church.org" pending None 220 None]
       [] [].

Definition world_requests : World :=
  mkWorld db_requests (Some "a1") 300 [] ["r3"; "r4"] [] [] None [].

(** Nobody is signed in and every call gets through. *)
Definition world_signup : World :=
  mkWorld db_pending None 300 [] ["u2"; "q2"] [] [] None [].

(** The same, with the second call to come lost. *)
Definition world_signup_request_lost : World :=
  with_outages [false; true] world_signup.

(** What the sign-up form shows when it is done. *)
Definition account_created_text : string :=
  "Account created! Your request is pending admin approval.".

(** The requests of a user. *)
Definition requests_of (u : uuid) (d : Db) : list admin_requests_row :=
  filter (fun r => ar_user_id r = u) (admin_requests d).

(** The row the sign-up form asks for. *)
Definition requested (id u : uuid) (email : string) (now : timestamptz)
  : admin_requests_row :=
  mkAdminRequest id u (toLowerCase (trim email)) pending None now None.

(** *** What a call can do to the store

    One accepted write, with what the constraints ask of it. *)
Inductive change : Db -> Db -> Prop :=
| change_roles d f :
    change d (with_user_roles f d)
| change_account_created d a :
    ~ has_account d (au_id a) ->
    change d (with_auth_users (fun t => t ++ [a]) d)
| change_account_deleted d u :
    change d (delete_account u d)
| change_request_inserted d r :
    ~ Exists (fun x => ar_id x = ar_id r) (admin_requests d) ->
    ~ Exists (fun x => ar_user_id x = ar_user_id r) (admin_requests d) ->
    has_account d (ar_user_id r) ->
    change d (with_admin_requests (fun t => t ++ [r]) d)
| change_request_reviewed d status reviewed_at reviewed_by id :
    change d (with_admin_requests
                (map (fun r => if bool_decide (ar_id r = id)
                               then reviewed status reviewed_at reviewed_by r
                               else r)) d)
| change_album_inserted d a :
    ~ Exists (fun x => ga_id x = ga_id a) (gallery_albums d) ->
    change d (with_gallery_albums (fun t => t ++ [a]) d)
| change_album_deleted d id :
    change d (with_gallery_images (filter (fun i => gi_album_id i <> id))
                (with_gallery_albums (filter (fun a => ga_id a <> id)) d))
| change_album_updated d f id :
    (forall a, ga_id (f a) = ga_id a) ->
    change d (with_gallery_albums
                (map (fun a => if bool_decide (ga_id a = id)
                               then f a else a)) d)
| change_image_inserted d i :
    ~ Exists (fun x => gi_id x = gi_id i) (gallery_images d) ->
    Exists (fun a => ga_id a = gi_album_id i) (gallery_albums d) ->
    change d (with_gallery_images (fun t => t ++ [i]) d)
| change_image_deleted d id :
    change d (with_gallery_images (filter (fun i => gi_id i <> id)) d).

(** A computation moves the store by accepted writes only. *)
Definition evolves {A} (c : M World A) : Prop :=
  forall w, rtc change (db w) (db (snd (c w))).

(** The tables are empty, nobody is signed in. *)
Definition world_initial : World :=
  mkWorld (mkDb [] [] [] [] []) None 100 [] ["u1"; "q1"] [] [] None [].

(** An administrator is signed in and there is one album with two
    images. *)
Definition world_gallery : World :=
  mkWorld
    (mkDb [mkAuthUser "a1" "pastor@church.org"]
          [mkUserRole "r1" "a1" admin 100] []
          [mkAlbum "al1" "Easter" None None (Some true) (Some 0) 150 150;
           mkAlbum "al2" "Choir" None None (Some true) (Some 0) 160 160]
          [mkGalleryImage "im1" "al1" "/al1/a.png" None (Some 0) 170;
           mkGalleryImage "im2" "al1" "/al1/b.png" None (Some 0) 180;
           mkGalleryImage "im3" "al2" "/al2/c.png" None (Some 0) 190])
    (Some "a1") 300 [] ["x1"; "x2"] [] [] None [].

End Supabase.

(** ** The document store of the users module

    Three collections, each keyed by the user id: profiles, role
    documents and admin requests.  A write replaces ([setDoc]) or merges
    into ([updateDoc], which needs the document to exist) the document of a
    key; a query without an order returns its documents by ascending
    document id.  Every function of the module logs and rethrows what it
    catches; the console is not modelled, so the rethrow is the identity. *)

Module Firestore.

Definition Timestamp := Z.

Inductive UserRole := user | admin | super_admin.
Inductive RequestStatus := pending | approved | rejected.

#[global] Instance UserRole_eq_dec : EqDecision UserRole.
Proof. solve_decision. Defined.
#[global] Instance RequestStatus_eq_dec : EqDecision RequestStatus.
Proof. solve_decision. Defined.

(** [Partial<UserProfile>], which is also what a profile document
    holds. *)
Record UserProfile := mkUserProfile {
  uid : option string;
  email : option string;
  displayName : option string;
  photoURL : option string;
  firstName : option string;
  lastName : option string;
  title : option string;
  phoneNumber : option string;
  createdAt : option Timestamp;
  updatedAt : option Timestamp
}.

Record UserRoleDoc := mkUserRoleDoc {
  rd_userId : string;
  rd_role : UserRole;
  rd_assignedBy : option string;
  rd_assignedAt : Timestamp
}.

(** [id] is absent from the stored document and filled in by the
    readers. *)
Record AdminRequest := mkAdminRequest {
  rq_id : option string;
  rq_userId : string;
  rq_email : string;
  rq_status : RequestStatus;
  rq_reviewedBy : option string;
  rq_createdAt : Timestamp;
  rq_reviewedAt : option Timestamp
}.

Record Db := mkDb {
  users : gmap string UserProfile;
  user_roles : gmap string UserRoleDoc;
  admin_requests : gmap string AdminRequest
}.

Inductive Op := op_setDoc | op_updateDoc | op_getDoc | op_getDocs.

Record World := mkWorld {
  db : Db;
  clock : Timestamp;            (* [serverTimestamp()] *)
  outages : list bool;          (* for the coming calls: [true] = lost *)
  calls : list (Op * string * string)   (* operation, collection, id *)
}.

Definition with_db (f : Db -> Db) (w : World) : World :=
  mkWorld (f (db w)) (clock w) (outages w) (calls w).

(** A collection of the store: its name and how to reach its documents. *)
Record Collection (D : Type) := mkCollection {
  path : string;
  docs : Db -> gmap string D;
  put : gmap string D -> Db -> Db
}.
Arguments path {D} _.
Arguments docs {D} _ _.
Arguments put {D} _ _ _.

Definition USERS_COLLECTION : Collection UserProfile :=
  mkCollection _ "users" users
    (fun m d => mkDb m (user_roles d) (admin_requests d)).
Definition USER_ROLES_COLLECTION : Collection UserRoleDoc :=
  mkCollection _ "user_roles" user_roles
    (fun m d => mkDb (users d) m (admin_requests d)).
Definition ADMIN_REQUESTS_COLLECTION : Collection AdminRequest :=
  mkCollection _ "admin_requests" admin_requests
    (fun m d => mkDb (users d) (user_roles d) m).

Definition FirebaseError (code : string) : JsError := mkError true code.

Definition send (o : Op) (collection id : string) : M World unit :=
  fun w =>
    let w' := mkWorld (db w) (clock w) (tl (outages w))
                      (calls w ++ [(o, collection, id)]) in
    if hd false (outages w) then (Throw (FirebaseError "unavailable"), w')
    else (Ok tt, w').

Definition serverTimestamp : M World Timestamp :=
  fun w => (Ok (clock w), w).

Definition setDoc {D} (c : Collection D) (id : string) (data : D)
  : M World unit :=
  send op_setDoc (path c) id ;;;
  modify (with_db (fun d => put c (<[id := data]> (docs c d)) d)).

Definition updateDoc {D} (c : Collection D) (id : string) (merge : D -> D)
  : M World unit :=
  send op_updateDoc (path c) id ;;;
  w <- get ;;
  match docs c (db w) !! id with
  | Some old =>
      modify (with_db (fun d => put c (<[id := merge old]> (docs c d)) d))
  | None => throw (FirebaseError "not-found")
  end.

Definition getDoc {D} (c : Collection D) (id : string)
  : M World (option D) :=
  send op_getDoc (path c) id ;;;
  w <- get ;;
  ret (docs c (db w) !! id).

Definition by_id {D} (x y : string * D) : Prop := String.le (fst x) (fst y).

#[global] Instance by_id_dec {D} : RelDecision (@by_id D).
Proof. intros x y. unfold by_id. apply _. Defined.

(** [getDocs(query(collection, where(...)))] and the [forEach] over the
    snapshot. *)
Definition getDocs {D} (c : Collection D) (where_ : D -> bool)
  : M World (list (string * D)) :=
  send op_getDocs (path c) "" ;;;
  w <- get ;;
  ret (merge_sort by_id
         (filter (fun x => where_ (snd x) = true)
                 (map_to_list (docs c (db w))))).

(** [try { body } catch (error) { console.error(...); throw error; }] *)
Definition logged {A} (body : M World A) : M World A :=
  try_catch body (fun error => throw error).

(** [{ uid, ...data, createdAt: serverTimestamp(), updatedAt: ... }] *)
Definition new_profile (uid_ : string) (data : UserProfile)
    (now : Timestamp) : UserProfile :=
  mkUserProfile (Some (default uid_ (uid data))) (email data)
    (displayName data) (photoURL data) (firstName data) (lastName data)
    (title data) (phoneNumber data) (Some now) (Some now).

(** Merging [{ ...data, updatedAt: serverTimestamp() }] into a document:
    the fields that are present replace the old ones. *)
Definition or_old {A} (new old : option A) : option A :=
  match new with Some x => Some x | None => old end.

Definition merge_profile (data : UserProfile) (now : Timestamp)
    (old : UserProfile) : UserProfile :=
  mkUserProfile (or_old (uid data) (uid old)) (or_old (email data) (email old))
    (or_old (displayName data) (displayName old))
    (or_old (photoURL data) (photoURL old))
    (or_old (firstName data) (firstName old))
    (or_old (lastName data) (lastName old))
    (or_old (title data) (title old))
    (or_old (phoneNumber data) (phoneNumber old))
    (or_old (createdAt data) (createdAt old)) (Some now).

Definition setUserRole (userId : string) (role : UserRole)
    (assignedBy : string) : M World unit :=
  logged
    (now <- serverTimestamp ;;
     setDoc USER_ROLES_COLLECTION userId
       (mkUserRoleDoc userId role (Some assignedBy) now)).

(** [where('role', 'in', ['admin', 'super_admin'])] *)
Definition grants_admin (d : UserRoleDoc) : bool :=
  bool_decide (rd_role d = admin \/ rd_role d = super_admin).

Definition getAllAdmins : M World (list UserRoleDoc) :=
  logged
    (querySnapshot <- getDocs USER_ROLES_COLLECTION grants_admin ;;
     ret (snd <$> querySnapshot)).

Definition createUserProfile (uid_ : string) (data : UserProfile)
  : M World unit :=
  logged
    (now <- serverTimestamp ;;
     setDoc USERS_COLLECTION uid_ (new_profile uid_ data now) ;;;
     admins <- getAllAdmins ;;
     if bool_decide (length admins = 0%nat)
     then setUserRole uid_ super_admin "system"
     else ret tt).

Definition getUserProfile (uid_ : string) : M World (option UserProfile) :=
  logged (getDoc USERS_COLLECTION uid_).

Definition updateUserProfile (uid_ : string) (data : UserProfile)
  : M World unit :=
  logged
    (now <- serverTimestamp ;;
     updateDoc USERS_COLLECTION uid_ (merge_profile data now)).

Definition getUserRole (userId : string) : M World (option UserRole) :=
  logged
    (roleSnap <- getDoc USER_ROLES_COLLECTION userId ;;
     ret (rd_role <$> roleSnap)).

Definition isUserAdmin (userId : string) : M World bool :=
  try_catch
    (role <- getUserRole userId ;;
     ret (bool_decide (role = Some admin \/ role = Some super_admin)))
    (fun _ => ret false).

Definition createAdminRequest (userId email_ : string) : M World unit :=
  logged
    (now <- serverTimestamp ;;
     setDoc ADMIN_REQUESTS_COLLECTION userId
       (mkAdminRequest None userId email_ pending None now None)).

(** [{ id: doc.id, ...doc.data() }] *)
Definition with_id (x : string * AdminRequest) : AdminRequest :=
  let d := snd x in
  mkAdminRequest (Some (default (fst x) (rq_id d))) (rq_userId d)
    (rq_email d) (rq_status d) (rq_reviewedBy d) (rq_createdAt d)
    (rq_reviewedAt d).

Definition getAdminRequestStatus (userId : string)
  : M World (option AdminRequest) :=
  logged
    (requestSnap <- getDoc ADMIN_REQUESTS_COLLECTION userId ;;
     ret ((fun d => with_id (userId, d)) <$> requestSnap)).

Definition getPendingAdminRequests : M World (list AdminRequest) :=
  logged
    (querySnapshot <- getDocs ADMIN_REQUESTS_COLLECTION
        (fun d => bool_decide (rq_status d = pending)) ;;
     ret (with_id <$> querySnapshot)).

(** Merging [{ status, reviewedBy, reviewedAt: serverTimestamp() }]. *)
Definition review (status : RequestStatus) (reviewedBy : string)
    (now : Timestamp) (old : AdminRequest) : AdminRequest :=
  mkAdminRequest (rq_id old) (rq_userId old) (rq_email old) status
    (Some reviewedBy) (rq_createdAt old) (Some now).

Definition updateAdminRequest (userId : string) (status : RequestStatus)
    (reviewedBy : string) : M World unit :=
  logged
    (now <- serverTimestamp ;;
     updateDoc ADMIN_REQUESTS_COLLECTION userId
       (review status reviewedBy now) ;;;
     if bool_decide (status = approved)
     then setUserRole userId admin reviewedBy
     else ret tt).

Definition removeUserRole (userId : string) : M World unit :=
  logged
    (updateDoc USER_ROLES_COLLECTION userId
       (fun old => mkUserRoleDoc (rd_userId old) user (rd_assignedBy old)
                                 (rd_assignedAt old))).

Definition approveAdminRequest (requestId userId reviewedBy : string)
  : M World unit :=
  logged (updateAdminRequest userId approved reviewedBy).

Definition denyAdminRequest (requestId userId reviewedBy : string)
  : M World unit :=
  logged (updateAdminRequest userId rejected reviewedBy).

Definition getUsersByRole (role : UserRole) : M World (list UserRoleDoc) :=
  logged
    (querySnapshot <- getDocs USER_ROLES_COLLECTION
        (fun d => bool_decide (rd_role d = role)) ;;
     ret (snd <$> querySnapshot)).

Definition createSuperAdmin (userId : string) : M World unit :=
  logged (setUserRole userId super_admin "manual").

(** *** Runs of the users module *)

Definition run {A} (c : M World A) (w : World) : World := snd (c w).

(** One step is one call of a function of the module, or the
    environment: time passes, the network comes and goes. *)
Inductive step : World -> World -> Prop :=
| step_environment w c o :
    step w (mkWorld (db w) c o (calls w))
| step_createUserProfile w uid_ data :
    step w (run (createUserProfile uid_ data) w)
| step_getUserProfile w uid_ :
    step w (run (getUserProfile uid_) w)
| step_updateUserProfile w uid_ data :
    step w (run (updateUserProfile uid_ data) w)
| step_getUserRole w userId :
    step w (run (getUserRole userId) w)
| step_isUserAdmin w userId :
    step w (run (isUserAdmin userId) w)
| step_setUserRole w userId role assignedBy :
    step w (run (setUserRole userId role assignedBy) w)
| step_createAdminRequest w userId email_ :
    step w (run (createAdminRequest userId email_) w)
| step_getAdminRequestStatus w userId :
    step w (run (getAdminRequestStatus userId) w)
| step_getPendingAdminRequests w :
    step w (run getPendingAdminRequests w)
| step_updateAdminRequest w userId status reviewedBy :
    step w (run (updateAdminRequest userId status reviewedBy) w)
| step_getAllAdmins w :
    step w (run getAllAdmins w)
| step_removeUserRole w userId :
    step w (run (removeUserRole userId) w)
| step_approveAdminRequest w requestId userId reviewedBy :
    step w (run (approveAdminRequest requestId userId reviewedBy) w)
| step_denyAdminRequest w requestId userId reviewedBy :
    step w (run (denyAdminRequest requestId userId reviewedBy) w)
| step_getUsersByRole w role :
    step w (run (getUsersByRole role) w)
| step_createSuperAdmin w userId :
    step w (run (createSuperAdmin userId) w).

Definition initial (w : World) : Prop := admin_requests (db w) = ∅.

Definition reachable (w : World) : Prop :=
  exists w0, initial w0 /\ rtc step w0 w.

(** Every request document is filed under the id of its user. *)
Definition filed_by_user (d : Db) : Prop :=
  forall k r, admin_requests d !! k = Some r -> rq_userId r = k.

(** Creation times along a list of requests, for the two directions of
    an order by creation time. *)
Definition oldest_first (l : list AdminRequest) : Prop :=
  Sorted Z.le (rq_createdAt <$> l).
Definition newest_first (l : list AdminRequest) : Prop :=
  Sorted Z.ge (rq_createdAt <$> l).

(** The world after a call was sent. *)
Definition sent (o : Op) (collection id : string) (d : Db) (w : World)
  : World :=
  mkWorld d (clock w) (tl (outages w)) (calls w ++ [(o, collection, id)]).

(** The next call, and the one after it, reach the store. *)
Definition served (w : World) : Prop := hd false (outages w) = false.
Definition served_twice (w : World) : Prop :=
  hd false (outages w) = false /\ hd false (tl (outages w)) = false.

Definition served_thrice (w : World) : Prop :=
  hd false (outages w) = false
  /\ hd false (tl (outages w)) = false
  /\ hd false (tl (tl (outages w))) = false.

(** No role document grants administration. *)
Definition no_admins (d : Db) : Prop :=
  forall k r, user_roles d !! k = Some r ->
              rd_role r <> admin /\ rd_role r <> super_admin.

(** The store after an approval that went through. *)
Definition approved_db (userId reviewedBy : string) (old : AdminRequest)
    (now : Timestamp) (d : Db) : Db :=
  mkDb (users d)
       (<[userId := mkUserRoleDoc userId admin (Some reviewedBy) now]>
          (user_roles d))
       (<[userId := review approved reviewedBy now old]> (admin_requests d)).

(** *** Worlds to run the module on *)

Definition profile_of (uid_ email_ : string) (now : Timestamp) : UserProfile :=
  mkUserProfile (Some uid_) (Some email_) None None None None None None
                (Some now) (Some now).

(** An administrator [a1] and a user [u1] whose request is pending. *)
Definition db_pending : Db :=
  mkDb (<["a1" := profile_of "a1" "pastor@church.org" 100]>
          (<["u1" := profile_of "u1" "ann@church.org" 200]> ∅))
       (<["a1" := mkUserRoleDoc "a1" super_admin (Some "system") 100]> ∅)
       (<["u1" := mkAdminRequest None "u1" "ann@church.org" pending None 200
                                 None]> ∅).

Definition world_pending : World := mkWorld db_pending 300 [] [].

(** Three pending requests: [ua], then [ub] before it, then [uc]. *)
Definition db_three_pending : Db :=
  mkDb ∅ ∅
       (<["ua" := mkAdminRequest None "ua" "a@church.org" pending None 20
                                 None]>
          (<["ub" := mkAdminRequest None "ub" "b@church.org" pending None 10
                                    None]>
             (<["uc" := mkAdminRequest None "uc" "c@church.org" pending None
                                       30 None]> ∅))).

Definition world_three_pending : World := mkWorld db_three_pending 300 [] [].

(** Nobody is registered. *)
Definition world_empty : World := mkWorld (mkDb ∅ ∅ ∅) 100 [] [].

(** A computation keeps a property of the store. *)
Definition keeps (I : Db -> Prop) {A} (c : M World A) : Prop :=
  forall w, I (db w) -> I (db (snd (c w))).

(** The store of [world_empty] after [u1] asked for access. *)
Definition world_one_request : World :=
  run (createAdminRequest "u1" "ann@church.org") world_empty.

End Firestore.


(** * More of the application

    The functions around those above: the rest of the users module, the
    dialogs and forms of the admin pages, and what the public pages show. *)

(** ** The users module: what its documents keep *)

Module UsersModule.
Import Firestore.

(** Every role document is filed under the id of its user. *)
Definition roles_by_user (d : Db) : Prop :=
  forall k r, user_roles d !! k = Some r -> rd_userId r = k.

(** The documents of [d0] are still there in [d], whatever they hold. *)
Definition nothing_deleted (d0 d : Db) : Prop :=
  (forall k, is_Some (users d0 !! k) -> is_Some (users d !! k))
  /\ (forall k, is_Some (user_roles d0 !! k) -> is_Some (user_roles d !! k))
  /\ (forall k, is_Some (admin_requests d0 !! k) ->
                is_Some (admin_requests d !! k)).

End UsersModule.

(** ** The Add Admin dialog

    The dialog's own state sits beside the world of the Admins page.  The
    two look-ups go to the tables [profiles] and [user_roles], whose
    policies are not part of the sources: the handler takes the look-ups as
    they come, each giving the [id] of the row it found, if any. *)

Module AddAdmin.
Import Supabase.

Record Dialog := mkDialog {
  world : World;
  newAdminEmail : string;
  isSubmitting : bool;
  isAddDialogOpen : bool
}.

(** A computation of the page, run from the dialog. *)
Definition page {A} (c : M World A) : M Dialog A :=
  fun d => match c (world d) with
           | (r, w) => (r, mkDialog w (newAdminEmail d) (isSubmitting d)
                                    (isAddDialogOpen d))
           end.

Definition setNewAdminEmail (text : string) : M Dialog unit :=
  modify (fun d => mkDialog (world d) text (isSubmitting d)
                            (isAddDialogOpen d)).

Definition setIsSubmitting (b : bool) : M Dialog unit :=
  modify (fun d => mkDialog (world d) (newAdminEmail d) b
                            (isAddDialogOpen d)).

Definition setIsAddDialogOpen (b : bool) : M Dialog unit :=
  modify (fun d => mkDialog (world d) (newAdminEmail d) (isSubmitting d) b).

(** [from_profiles] is
    [from("profiles").select("id").eq("email", email).maybeSingle()] and
    [from_user_roles] is
    [from("user_roles").select("id").eq("user_id", id).eq("role", "admin")
     .maybeSingle()], both read through [data]. *)
Definition handleAddAdmin
    (from_profiles : string -> M World (option uuid))
    (from_user_roles : uuid -> M World (option uuid)) : M Dialog unit :=
  d <- get ;;
  if negb (truthy (Some (trim (newAdminEmail d))))
  then page (toast (toast_error "Please enter an email address"))
  else
    setIsSubmitting true ;;;
    try_finally
      (try_catch
         (profile <- page (from_profiles
                             (toLowerCase (trim (newAdminEmail d)))) ;;
          match profile with
          | None =>
              page (toast (toast_error
                "No user found with that email. They must sign up first.")) ;;;
              setIsSubmitting false
          | Some profile_id =>
              existing <- page (from_user_roles profile_id) ;;
              match existing with
              | Some _ =>
                  page (toast (toast_error "User is already an admin")) ;;;
                  setIsSubmitting false
              | None =>
                  error <- page (from_user_roles_insert profile_id admin) ;;
                  throw_if error ;;;
                  page (toast (toast_success "Admin added successfully")) ;;;
                  setNewAdminEmail "" ;;;
                  setIsAddDialogOpen false ;;;
                  page (start fetchAdmins)
              end
          end)
         (fun error =>
            page (toast (toast_error
                           (errMessage error "Failed to add admin")))))
      (setIsSubmitting false).

(** The dialog after a notification, no longer submitting. *)
Definition told (t : Toast) (w : World) (d : Dialog) : Dialog :=
  mkDialog (with_toasts (toasts w ++ [t]) w) (newAdminEmail d) false
           (isAddDialogOpen d).

(** A dialog to run the handler on: the form is open on the Admins page
    of [world_pending], and the look-ups find no row. *)
Definition dialog_pending (text : string) : Dialog :=
  mkDialog world_pending text false true.

Definition nothing_found {K} : K -> M World (option uuid) :=
  fun _ => ret None.

(** Look-ups that find something: the profile is the account with the
    email, and the role row is the user's admin row. *)
Definition account_with (email : string) : M World (option uuid) :=
  w <- get ;;
  ret (au_id <$> head (filter (fun a => au_email a = email)
                              (auth_users (db w)))).

Definition admin_row_of (u : uuid) : M World (option uuid) :=
  w <- get ;;
  ret (ur_id <$> head (filter (fun r => ur_user_id r = u /\ ur_role r = admin)
                              (user_roles (db w)))).

End AddAdmin.

(** ** The gallery administration page: callers without the role *)

Module GalleryAdmin.
Import Supabase.

(** A computation leaves the store and the session alone when the caller
    is no administrator. *)
Definition refused {A} (c : M World A) : Prop :=
  forall w, is_admin w = false ->
            db (snd (c w)) = db w /\ session (snd (c w)) = session w.

End GalleryAdmin.

(** ** The public gallery page: what a visitor is shown

    The select policies of the two gallery tables: anyone sees the
    albums with [is_active = true] and the images of such albums;
    administrators see every row. *)

Module PublicGallery.
Import Supabase.

(** Sending a read: one entry of [outages] is used up.  Reads of the
    gallery are not kept in the call log. *)
Definition fetch : M World bool :=
  fun w => (Ok (negb (hd false (outages w))),
            with_outages (tl (outages w)) w).

Definition album_visible (w : World) (a : gallery_albums_row) : Prop :=
  ga_is_active a = Some true \/ is_admin w = true.

Definition image_visible (w : World) (i : gallery_images_row) : Prop :=
  Exists (fun a => ga_id a = gi_album_id i /\ ga_is_active a = Some true)
         (gallery_albums (db w))
  \/ is_admin w = true.

#[global] Instance album_visible_dec w a : Decision (album_visible w a).
Proof. unfold album_visible. apply _. Defined.

#[global] Instance image_visible_dec w i : Decision (image_visible w i).
Proof. unfold image_visible. apply _. Defined.

(** [.order("created_at", { ascending: false })] *)
Definition albums_newest_first (a b : gallery_albums_row) : Prop :=
  ga_created_at b <= ga_created_at a.

(** [.order("display_order", { ascending: true })]: rows without an order
    come last. *)
Definition by_display_order (i j : gallery_images_row) : Prop :=
  match gi_display_order i, gi_display_order j with
  | Some x, Some y => x <= y
  | None, Some _ => False
  | _, None => True
  end.

#[global] Instance albums_newest_first_dec : RelDecision albums_newest_first.
Proof. intros a b. unfold albums_newest_first. apply _. Defined.

#[global] Instance by_display_order_dec : RelDecision by_display_order.
Proof.
  intros i j. unfold by_display_order.
  destruct (gi_display_order i), (gi_display_order j); apply _.
Defined.

Definition from_gallery_albums_select_order_created_at
  : M World (option (list gallery_albums_row) * option JsError) :=
  served <- fetch ;;
  if negb served then ret (None, Some FetchError) else
  w <- get ;;
  ret (Some (merge_sort albums_newest_first
               (filter (album_visible w) (gallery_albums (db w)))),
       None).

Definition from_gallery_images_select_eq_album_id_order_display_order
    (album_id : uuid)
  : M World (option (list gallery_images_row) * option JsError) :=
  served <- fetch ;;
  if negb served then ret (None, Some FetchError) else
  w <- get ;;
  ret (Some (merge_sort by_display_order
               (filter (fun i => image_visible w i /\ gi_album_id i = album_id)
                       (gallery_images (db w)))),
       None).

(** The query function of [public-albums]. *)
Definition albums_queryFn : M World (list gallery_albums_row) :=
  reply <- from_gallery_albums_select_order_created_at ;;
  throw_if (snd reply) ;;;
  ret (default [] (fst reply)).

(** The query function of [public-album-images]; [selectedAlbum] is the
    page's copy of the album the visitor opened. *)
Definition albumImages_queryFn (selectedAlbum : option gallery_albums_row)
  : M World (list gallery_images_row) :=
  match selectedAlbum with
  | None => ret []
  | Some album =>
      reply <- from_gallery_images_select_eq_album_id_order_display_order
                 (ga_id album) ;;
      throw_if (snd reply) ;;;
      ret (default [] (fst reply))
  end.

End PublicGallery.

(** ** The sign-in form

    The form's state, the two storages of the browser, and what the
    handler leaves behind.  [signIn] is the function of the [useAuth] hook,
    which is not part of the sources: the handler takes it as it comes. *)

Module AuthPage.
Import Supabase.

Record AuthErrors := mkAuthErrors {
  email : option string;
  password : option string;
  confirmPassword : option string
}.

Record Page := mkPage {
  errors : AuthErrors;
  isLoading : bool;
  localStorage : gmap string string;
  sessionStorage : gmap string string;
  toasts : list Toast;
  navigations : list string       (* [navigate(path)], oldest first *)
}.

Definition setErrors (e : AuthErrors) : M Page unit :=
  modify (fun p => mkPage e (isLoading p) (localStorage p) (sessionStorage p)
                          (toasts p) (navigations p)).

Definition setIsLoading (b : bool) : M Page unit :=
  modify (fun p => mkPage (errors p) b (localStorage p) (sessionStorage p)
                          (toasts p) (navigations p)).

Definition localStorage_setItem (key value : string) : M Page unit :=
  modify (fun p => mkPage (errors p) (isLoading p)
                          (<[key := value]> (localStorage p))
                          (sessionStorage p) (toasts p) (navigations p)).

Definition localStorage_removeItem (key : string) : M Page unit :=
  modify (fun p => mkPage (errors p) (isLoading p)
                          (delete key (localStorage p))
                          (sessionStorage p) (toasts p) (navigations p)).

Definition sessionStorage_setItem (key value : string) : M Page unit :=
  modify (fun p => mkPage (errors p) (isLoading p) (localStorage p)
                          (<[key := value]> (sessionStorage p))
                          (toasts p) (navigations p)).

Definition sessionStorage_removeItem (key : string) : M Page unit :=
  modify (fun p => mkPage (errors p) (isLoading p) (localStorage p)
                          (delete key (sessionStorage p))
                          (toasts p) (navigations p)).

Definition toast (t : Toast) : M Page unit :=
  modify (fun p => mkPage (errors p) (isLoading p) (localStorage p)
                          (sessionStorage p) (toasts p ++ [t])
                          (navigations p)).

Definition navigate (path : string) : M Page unit :=
  modify (fun p => mkPage (errors p) (isLoading p) (localStorage p)
                          (sessionStorage p) (toasts p)
                          (navigations p ++ [path])).

(** [if (!fieldErrors[field]) fieldErrors[field] = err.message] *)
Definition record_issue (fieldErrors : AuthErrors) (issue : Field * string)
  : AuthErrors :=
  match fst issue with
  | field_email =>
      if truthy (email fieldErrors) then fieldErrors
      else mkAuthErrors (Some (snd issue)) (password fieldErrors)
                        (confirmPassword fieldErrors)
  | field_password =>
      if truthy (password fieldErrors) then fieldErrors
      else mkAuthErrors (email fieldErrors) (Some (snd issue))
                        (confirmPassword fieldErrors)
  | field_confirmPassword =>
      if truthy (confirmPassword fieldErrors) then fieldErrors
      else mkAuthErrors (email fieldErrors) (password fieldErrors)
                        (Some (snd issue))
  end.

Definition fieldErrors_of (issues : list (Field * string)) : AuthErrors :=
  fold_left record_issue issues (mkAuthErrors None None None).

(** The fields of the form and the [rememberMe] box are arguments. *)
Definition handleSignIn (is_email : string -> bool)
    (signIn : string -> string -> M Page (option JsError))
    (rememberMe : bool) (email_ password_ : string) : M Page unit :=
  setErrors (mkAuthErrors None None None) ;;;
  match authSchema_issues is_email email_ password_ with
  | [] =>
      setIsLoading true ;;;
      error <- signIn (trim email_) password_ ;;
      setIsLoading false ;;;
      match error with
      | Some error =>
          if includes (message error) "Invalid login credentials"
          then toast (toast_error "Invalid email or password")
          else toast (toast_error (message error))
      | None =>
          (if rememberMe
           then localStorage_setItem "session_persistent" "true" ;;;
                sessionStorage_removeItem "session_active"
           else localStorage_removeItem "session_persistent" ;;;
                sessionStorage_setItem "session_active" "true") ;;;
          toast (toast_success "Welcome back!") ;;;
          navigate "/admin"
      end
  | issues => setErrors (fieldErrors_of issues)
  end.

(** The form as [handleSignIn] finds it when it calls [signIn]. *)
Definition submitting (p : Page) : Page :=
  mkPage (mkAuthErrors None None None) true (localStorage p)
         (sessionStorage p) (toasts p) (navigations p).

(** A sign-in that accepts one account and touches nothing else. *)
Definition signIn_one (email_ password_ : string) (e p : string)
  : M Page (option JsError) :=
  ret (if bool_decide (e = email_ /\ p = password_) then None
       else Some (mkError true "Invalid login credentials")).

Definition page_empty : Page :=
  mkPage (mkAuthErrors None None None) false ∅ ∅ [] [].

End AuthPage.

(** ** Times of the day, as the public pages print them *)

Module Schedule.
Import Supabase.

(** [s.split(sep)] for a separator of one character: the pieces between
    the separators, of which there is always one. *)
Fixpoint split (sep : ascii) (s : string) : list string :=
  match s with
  | String c s' =>
      if Ascii.eqb c sep then "" :: split sep s'
      else match split sep s' with
           | piece :: pieces => String c piece :: pieces
           | [] => [String c ""]
           end
  | EmptyString => [""]
  end.

(** The value of a digit in a radix, letters counting from ten. *)
Definition digit_of (radix : Z) (c : ascii) : option Z :=
  let n := Z.of_nat (nat_of_ascii c) in
  let value :=
    if (48 <=? n) && (n <=? 57) then Some (n - 48)
    else if (97 <=? n) && (n <=? 122) then Some (n - 87)
    else if (65 <=? n) && (n <=? 90) then Some (n - 55)
    else None in
  match value with
  | Some d => if d <? radix then Some d else None
  | None => None
  end.

(** The number written by the longest prefix of digits; [None] when
    there is no digit. *)
Fixpoint digits (radix : Z) (read : option Z) (s : string) : option Z :=
  match s with
  | String c s' =>
      match digit_of radix c with
      | Some d => digits radix (Some (radix * default 0 read + d)) s'
      | None => read
      end
  | EmptyString => read
  end.

(** [parseInt(s)] without a radix: leading white space, a sign, [0x] for
    hexadecimal, then digits; [None] is [NaN].  Numbers are integers, which
    is what the runtime computes below 2^53. *)
Definition parseInt (s : string) : option Z :=
  let s := trimStart s in
  let signed :=
    match s with
    | String "-" s' => (-1, s')
    | String "+" s' => (1, s')
    | _ => (1, s)
    end in
  let based :=
    match snd signed with
    | String "0" (String "x" s') => (16, s')
    | String "0" (String "X" s') => (16, s')
    | _ => (10, snd signed)
    end in
  Z.mul (fst signed) <$> digits (fst based) None (snd based).

(** [formatTime] of the About section, [formatTimeStr] of the events
    pages: the same function three times. *)
Definition formatTime (time : string) : string :=
  let parts := split ":" time in
  let hours := default "" (parts !! 0%nat) in
  let minutes := parts !! 1%nat in
  let hour := parseInt hours in
  let ampm :=
    match hour with
    | Some h => if 12 <=? h then "PM" else "AM"
    | None => "AM"
    end in
  let displayHour :=
    match hour with
    | Some h => if Z.rem h 12 =? 0 then 12 else Z.rem h 12
    | None => 12
    end in
  String.append (pretty displayHour)
    (String.append ":"
       (String.append (default "undefined" minutes)
          (String.append " " ampm))).

Definition formatTimeRange (startTime : string) (endTime : option string)
  : string :=
  if truthy endTime
  then String.append (formatTime startTime)
         (String.append " - " (formatTime (default "" endTime)))
  else formatTime startTime.

(** The hour of a [time] column: two digits. *)
Definition two_digits (h : Z) : string :=
  if h <? 10 then String.append "0" (pretty h) else pretty h.

(** A piece of text without the separator of the time. *)
Fixpoint no_colon (s : string) : bool :=
  match s with
  | String c s' => negb (Ascii.eqb c ":") && no_colon s'
  | EmptyString => true
  end.

End Schedule.

(** ** The profile page: the rule for a new password *)

Module ProfilePage.
Import Supabase.

(** [s.replace(/\s/g, " ")]: every white-space character becomes a
    space, the other bytes stay. *)
Fixpoint replace_spaces (s : string) : string :=
  match white_space_bytes s, s with
  | 1%nat, String _ s1 => String " " (replace_spaces s1)
  | 2%nat, String _ (String _ s2) => String " " (replace_spaces s2)
  | 3%nat, String _ (String _ (String _ s3)) => String " " (replace_spaces s3)
  | _, String c s1 => String c (replace_spaces s1)
  | _, EmptyString => EmptyString
  end.

(** [/^\s+$/.test(s)]: there is a character, and the white space at the
    start of the text is all of it. *)
Definition only_spaces (s : string) : bool :=
  negb (bool_decide (s = "")) && bool_decide (trimStart s = "").

(** The result is the message, [None] for [null]. *)
Definition validatePassword (password : string) : option string :=
  match
    (if bool_decide (js_length (trim password) = 0%nat)
        || negb (bool_decide (trim password
                              = trim (replace_spaces password)))
     then if only_spaces password
          then Some "Password cannot be only spaces"
          else None
     else None)
  with
  | Some text => Some text
  | None =>
      if (js_length password <? 6)%nat
      then Some "Password must be at least 6 characters"
      else None
  end.

End ProfilePage.
(** * Properties *)

(** ** The lightbox *)

Section Lightbox.
Import GalleryPage.

Lemma navigateLightbox_next (images : list GalleryImage) (i : Z) :
  navigateLightbox next (Some i) (Some images)
  = Some (if i <? Z.of_nat (length images) - 1 then i + 1 else 0).
Proof. reflexivity. Qed.

Lemma navigateLightbox_prev (images : list GalleryImage) (i : Z) :
  navigateLightbox prev (Some i) (Some images)
  = Some (if 0 <? i then i - 1 else Z.of_nat (length images) - 1).
Proof. reflexivity. Qed.

(** Without an open lightbox or without loaded images nothing moves. *)
Lemma navigateLightbox_closed d images :
  navigateLightbox d None images = None.
Proof. reflexivity. Qed.

Lemma navigateLightbox_unloaded d i :
  navigateLightbox d i None = i.
Proof. destruct i; reflexivity. Qed.
End Lightbox.

(** C10.  For a non-empty list of [n] album images and a lightbox index in
    [0, n-1], navigating gives an index in [0, n-1]; going to the next
    image from the last one wraps to 0 and going to the previous image from
    index 0 wraps to [n-1]. *)
Theorem navigateLightbox_stays_in_range
    (images : list GalleryPage.GalleryImage) (i : Z)
    (direction : GalleryPage.Direction) :
  images <> [] ->
  0 <= i <= Z.of_nat (length images) - 1 ->
  exists j,
    GalleryPage.navigateLightbox direction (Some i) (Some images) = Some j
    /\ 0 <= j <= Z.of_nat (length images) - 1
    /\ (direction = GalleryPage.next -> i = Z.of_nat (length images) - 1
        -> j = 0)
    /\ (direction = GalleryPage.prev -> i = 0
        -> j = Z.of_nat (length images) - 1).
Proof.
  intros Hne Hi.
  assert (Hlen : 0 < Z.of_nat (length images)).
  { destruct images; [congruence | simpl length; lia]. }
  destruct direction.
  - rewrite navigateLightbox_prev.
    destruct (Z.ltb_spec 0 i) as [Hpos | Hzero];
      eexists; (split; [reflexivity |]);
      repeat split; try lia; try discriminate.
  - rewrite navigateLightbox_next.
    destruct (Z.ltb_spec i (Z.of_nat (length images) - 1)) as [Hlt | Hlast];
      eexists; (split; [reflexivity |]);
      repeat split; try lia; try discriminate.
Qed.

Lemma navigateLightbox_stays_in_range_witness :
  let images := [GalleryPage.mkImage "i1" "/a.png" None;
                 GalleryPage.mkImage "i2" "/b.png" (Some "choir");
                 GalleryPage.mkImage "i3" "/c.png" None] in
  exists j,
    GalleryPage.navigateLightbox GalleryPage.next (Some 2) (Some images)
    = Some j
    /\ 0 <= j <= Z.of_nat (length images) - 1
    /\ (GalleryPage.next = GalleryPage.next
        -> 2 = Z.of_nat (length images) - 1 -> j = 0)
    /\ (GalleryPage.next = GalleryPage.prev -> 2 = 0
        -> j = Z.of_nat (length images) - 1).
Proof.
  intros images.
  apply (navigateLightbox_stays_in_range images 2 GalleryPage.next).
  - discriminate.
  - simpl. lia.
Defined.

(** ** Lists *)

Lemma app_tail_neq {A} (l : list A) (x : A) : l <> l ++ [x].
Proof.
  intros Heq. apply (f_equal length) in Heq. rewrite length_app in Heq.
  cbn in Heq. lia.
Qed.

Lemma filter_none {A} (P : A -> Prop) `{!forall x, Decision (P x)}
    (l : list A) :
  ~ Exists P l -> filter P l = [].
Proof.
  induction l as [| x l IH]; intros Hno; [reflexivity |].
  rewrite filter_cons_False by (intros Hx; apply Hno; by left).
  apply IH. intros Hex. apply Hno. by right.
Qed.


(** ** The relational backend: what a call does *)

Module SupabaseFacts.
Import Supabase.

Ltac prim :=
  unfold bind, send, random, get, ret, modify, throw, is_admin in *;
  cbn -[bool_decide hd tl has_role];
  repeat (first
    [ match goal with
      | |- context [hd false (outages ?w)] =>
          destruct (hd false (outages w)) eqn:?
      end
    | case_bool_decide
    | match goal with
      | |- context [has_role ?d ?s ?r] => destruct (has_role d s r) eqn:?
      end ];
    cbn -[bool_decide hd tl has_role]).

Lemma from_user_roles_insert_spec user_id role w :
  exists err d e,
    from_user_roles_insert user_id role w
    = (Ok err, sent (insert_into_user_roles user_id role) d e w)
    /\ match err with
       | None =>
           d = with_user_roles
                 (fun t => t ++ [mkUserRole (hd "" (entropy w)) user_id role
                                            (clock w)])
                 (db w)
       | Some _ => d = db w
       end.
Proof.
  unfold from_user_roles_insert. prim.
  all: eexists _, _, _; (split; [reflexivity |]); reflexivity.
Qed.

(** The insert is accepted when the call is served, the generated id is
    new and the user does not hold the role yet. *)
Lemma from_user_roles_insert_accepted user_id role w :
  served w ->
  ~ Exists (fun r => ur_id r = hd "" (entropy w)) (user_roles (db w)) ->
  ~ Exists (fun r => ur_user_id r = user_id /\ ur_role r = role)
           (user_roles (db w)) ->
  fst (from_user_roles_insert user_id role w) = Ok None.
Proof.
  unfold served. intros Hs Hid Hrole.
  unfold from_user_roles_insert. prim; try congruence; tauto.
Qed.

(** A reply of the insert with an error: the store is as it was, and the
    error is the plain object of the table client. *)
Lemma from_user_roles_insert_refused user_id role w e w1 :
  from_user_roles_insert user_id role w = (Ok (Some e), w1) ->
  instanceof_Error e = false
  /\ db w1 = db w
  /\ calls w1 = calls w ++ [insert_into_user_roles user_id role]
  /\ toasts w1 = toasts w
  /\ refreshes w1 = refreshes w
  /\ session w1 = session w
  /\ processingId w1 = processingId w.
Proof.
  unfold from_user_roles_insert. prim; intros [= <- <-]; by repeat split.
Qed.

(** The pair of user and role is unique: a second row for it is
    refused. *)
Lemma from_user_roles_insert_held user_id role w :
  Exists (fun r => ur_user_id r = user_id /\ ur_role r = role)
         (user_roles (db w)) ->
  exists e w1, from_user_roles_insert user_id role w = (Ok (Some e), w1).
Proof.
  intros Hheld. unfold from_user_roles_insert. prim; try contradiction.
  all: by eexists _, _.
Qed.

Lemma from_admin_requests_insert_spec user_id email status w :
  exists err d e,
    from_admin_requests_insert user_id email status w
    = (Ok err, sent (insert_into_admin_requests user_id email status) d e w)
    /\ match err with
       | None =>
           d = with_admin_requests
                 (fun t => t ++ [mkAdminRequest (hd "" (entropy w)) user_id
                                   email status None (clock w) None])
                 (db w)
           /\ ~ Exists (fun r => ar_user_id r = user_id)
                       (admin_requests (db w))
       | Some _ => d = db w
       end.
Proof.
  unfold from_admin_requests_insert. prim.
  all: eexists _, _, _; (split; [reflexivity |]); try reflexivity.
  split; [reflexivity | assumption].
Qed.

Lemma from_admin_requests_insert_accepted user_id email status w :
  served w ->
  session w = Some user_id ->
  ~ Exists (fun r => ar_id r = hd "" (entropy w)) (admin_requests (db w)) ->
  ~ Exists (fun r => ar_user_id r = user_id) (admin_requests (db w)) ->
  Exists (fun u => au_id u = user_id) (auth_users (db w)) ->
  fst (from_admin_requests_insert user_id email status w) = Ok None.
Proof.
  unfold served. intros Hs Hsession Hid Huser Hfk.
  unfold from_admin_requests_insert. prim; try congruence; tauto.
Qed.

Lemma map_update_absent {A} (P : A -> Prop) `{!forall x, Decision (P x)}
    (f : A -> A) (l : list A) :
  ~ Exists P l -> map (fun x => if bool_decide (P x) then f x else x) l = l.
Proof.
  induction l as [| x l IH]; intros Hno; [reflexivity |].
  cbn. rewrite IH by (intros Hex; apply Hno; by right).
  rewrite bool_decide_eq_false_2; [reflexivity |].
  intros Hx. apply Hno. by left.
Qed.

Lemma from_admin_requests_update_eq_id_spec status reviewed_at reviewed_by
    id w :
  exists err d,
    from_admin_requests_update_eq_id status reviewed_at reviewed_by id w
    = (Ok err,
       sent (update_admin_requests_eq_id status reviewed_at reviewed_by id)
            d (entropy w) w)
    /\ match err with
       | None =>
           d = (if is_admin w
                then with_admin_requests
                       (map (fun r => if bool_decide (ar_id r = id)
                                      then reviewed status reviewed_at
                                                    reviewed_by r
                                      else r))
                       (db w)
                else db w)
       | Some _ => d = db w
       end.
Proof.
  unfold from_admin_requests_update_eq_id. prim.
  all: try (eexists _, _; (split; [reflexivity |]); reflexivity).
  - destruct reviewed_by as [u |]; cbn -[bool_decide];
      [case_bool_decide |]; cbn -[bool_decide];
      eexists _, _; (split; [reflexivity |]); reflexivity.
  - (* no row has the id: the update maps the table to itself *)
    eexists _, _; split; [reflexivity |].
    unfold with_admin_requests.
    rewrite (map_update_absent (fun r => ar_id r = id)) by assumption.
    cbn. by destruct (db w).
Qed.

(** The update is accepted when the call is served and the reviewer has
    an account. *)
Lemma from_admin_requests_update_eq_id_accepted status reviewed_at
    reviewed_by id w :
  served w ->
  (forall u, reviewed_by = Some u ->
             Exists (fun a => au_id a = u) (auth_users (db w))) ->
  fst (from_admin_requests_update_eq_id status reviewed_at reviewed_by id w)
  = Ok None.
Proof.
  unfold served. intros Hs Hfk.
  unfold from_admin_requests_update_eq_id. prim; try congruence.
  destruct reviewed_by as [u |]; cbn -[bool_decide]; [| reflexivity].
  rewrite bool_decide_eq_true_2 by (apply Hfk; reflexivity). reflexivity.
Qed.

(** *** The approve handler, by the replies of its two calls *)

Lemma handleApproveRequest_cases requestId userId email w :
  exists roleError w1,
    from_user_roles_insert userId admin
      (with_processingId (Some requestId) w) = (Ok roleError, w1)
    /\ match roleError with
       | Some e =>
           handleApproveRequest requestId userId email w
           = (Ok tt, failed "Failed to approve request" e w1)
       | None =>
           exists updateError w2,
             from_admin_requests_update_eq_id approved (clock w1)
               (session w1) requestId w1 = (Ok updateError, w2)
             /\ match updateError with
                | Some e =>
                    handleApproveRequest requestId userId email w
                    = (Ok tt, failed "Failed to approve request" e w2)
                | None =>
                    handleApproveRequest requestId userId email w
                    = (Ok tt,
                       succeeded (approved_text email)
                         [refetchPending; fetchAdmins;
                          invalidateQueries [Some "pending-admin-requests"]] w2)
                end
       end.
Proof.
  destruct (from_user_roles_insert_spec userId admin
              (with_processingId (Some requestId) w))
    as (roleError & d1 & e1 & Hinsert & _).
  eexists _, _; split; [exact Hinsert |].
  unfold handleApproveRequest, try_finally, try_catch, bind, setProcessingId,
    modify.
  rewrite Hinsert.
  destruct roleError as [e |]; [reflexivity |].
  set (w1 := sent _ d1 e1 _).
  destruct (from_admin_requests_update_eq_id_spec approved (clock w1)
              (session w1) requestId w1)
    as (updateError & d2 & Hupdate & _).
  eexists _, _; split; [exact Hupdate |].
  cbn [throw_if ret new_Date useAuth_user].
  rewrite Hupdate.
  destruct updateError as [e |]; [reflexivity |].
  unfold succeeded, start, toast, modify, with_processingId, with_refreshes,
    with_toasts; cbn.
  by rewrite <- !app_assoc.
Qed.

End SupabaseFacts.

(** ** The document store: what a call does *)

Module FirestoreFacts.
Import Firestore.

Lemma setDoc_served {D} (c : Collection D) id data w :
  served w ->
  setDoc c id data w
  = (Ok tt, sent op_setDoc (path c) id
               (put c (<[id := data]> (docs c (db w))) (db w)) w).
Proof.
  unfold served, setDoc, bind, send, modify. intros ->. reflexivity.
Qed.

Lemma setDoc_lost {D} (c : Collection D) id data w :
  ~ served w ->
  setDoc c id data w
  = (Throw (FirebaseError "unavailable"),
     sent op_setDoc (path c) id (db w) w).
Proof.
  unfold served, setDoc, bind, send, modify. intros Hlost.
  destruct (hd false (outages w)); [| congruence].
  unfold sent. by destruct w.
Qed.

Lemma updateDoc_served {D} (c : Collection D) id merge w old :
  served w ->
  docs c (db w) !! id = Some old ->
  updateDoc c id merge w
  = (Ok tt, sent op_updateDoc (path c) id
               (put c (<[id := merge old]> (docs c (db w))) (db w)) w).
Proof.
  unfold served, updateDoc, bind, send, modify, get. intros -> Hold.
  cbn. rewrite Hold. reflexivity.
Qed.

Lemma updateDoc_missing {D} (c : Collection D) id merge w :
  served w ->
  docs c (db w) !! id = None ->
  updateDoc c id merge w
  = (Throw (FirebaseError "not-found"),
     sent op_updateDoc (path c) id (db w) w).
Proof.
  unfold served, updateDoc, bind, send, modify, get. intros -> Hold.
  cbn. rewrite Hold. unfold sent. by destruct w.
Qed.

Lemma updateDoc_lost {D} (c : Collection D) id merge w :
  ~ served w ->
  updateDoc c id merge w
  = (Throw (FirebaseError "unavailable"),
     sent op_updateDoc (path c) id (db w) w).
Proof.
  unfold served, updateDoc, bind, send, modify. intros Hlost.
  destruct (hd false (outages w)); [| congruence].
  unfold sent. by destruct w.
Qed.

(** A write leaves the store as it was unless it returns. *)
Lemma setDoc_cases {D} (c : Collection D) id data w :
  (served w
   /\ setDoc c id data w
      = (Ok tt, sent op_setDoc (path c) id
                   (put c (<[id := data]> (docs c (db w))) (db w)) w))
  \/ (exists e, setDoc c id data w
                = (Throw e, sent op_setDoc (path c) id (db w) w)).
Proof.
  destruct (decide (served w)) as [Hs | Hs].
  - left. split; [assumption | by apply setDoc_served].
  - right. eexists. by apply setDoc_lost.
Qed.

Lemma updateDoc_cases {D} (c : Collection D) id merge w :
  (exists old,
      served w /\ docs c (db w) !! id = Some old
      /\ updateDoc c id merge w
         = (Ok tt, sent op_updateDoc (path c) id
                      (put c (<[id := merge old]> (docs c (db w))) (db w)) w))
  \/ (exists e, updateDoc c id merge w
                = (Throw e, sent op_updateDoc (path c) id (db w) w)).
Proof.
  destruct (decide (served w)) as [Hs | Hs].
  - destruct (docs c (db w) !! id) as [old |] eqn:Hold.
    + left. exists old. repeat split; try assumption.
      by apply updateDoc_served.
    + right. eexists. by apply updateDoc_missing.
  - right. eexists. by apply updateDoc_lost.
Qed.

(** Logging and rethrowing changes nothing. *)
Lemma logged_id {A} (body : M World A) w : logged body w = body w.
Proof.
  unfold logged, try_catch, throw. by destruct (body w) as [[a | e] w1].
Qed.

Lemma setUserRole_eq userId role assignedBy w :
  setUserRole userId role assignedBy w
  = setDoc USER_ROLES_COLLECTION userId
      (mkUserRoleDoc userId role (Some assignedBy) (clock w)) w.
Proof. unfold setUserRole. rewrite logged_id. reflexivity. Qed.

Lemma createAdminRequest_eq userId email_ w :
  createAdminRequest userId email_ w
  = setDoc ADMIN_REQUESTS_COLLECTION userId
      (mkAdminRequest None userId email_ pending None (clock w) None) w.
Proof. unfold createAdminRequest. rewrite logged_id. reflexivity. Qed.

Lemma updateAdminRequest_eq userId status reviewedBy w :
  updateAdminRequest userId status reviewedBy w
  = match updateDoc ADMIN_REQUESTS_COLLECTION userId
            (review status reviewedBy (clock w)) w with
    | (Ok _, w1) =>
        if bool_decide (status = approved)
        then setUserRole userId admin reviewedBy w1
        else (Ok tt, w1)
    | (Throw e, w1) => (Throw e, w1)
    end.
Proof.
  unfold updateAdminRequest. rewrite logged_id.
  unfold bind, serverTimestamp.
  destruct (updateDoc _ _ _ w) as [[[] | e] w1]; [| reflexivity].
  by case_bool_decide.
Qed.

Lemma updateAdminRequest_approved_inv userId reviewedBy w w' :
  updateAdminRequest userId approved reviewedBy w = (Ok tt, w') ->
  exists old,
    admin_requests (db w) !! userId = Some old
    /\ served_twice w
    /\ db w' = approved_db userId reviewedBy old (clock w) (db w).
Proof.
  rewrite updateAdminRequest_eq.
  destruct (updateDoc_cases ADMIN_REQUESTS_COLLECTION userId
              (review approved reviewedBy (clock w)) w)
    as [(old & Hs & Hold & ->) | (e & ->)]; [| discriminate].
  rewrite bool_decide_eq_true_2 by reflexivity.
  rewrite setUserRole_eq.
  match goal with |- setDoc ?c ?i ?x ?w1 = _ -> _ =>
    destruct (setDoc_cases c i x w1) as [(Hs1 & ->) | (e & ->)]
  end; [| discriminate].
  intros [= <-]. exists old. repeat split; assumption.
Qed.

Lemma updateAdminRequest_approved_served userId reviewedBy w old :
  served_twice w ->
  admin_requests (db w) !! userId = Some old ->
  exists w',
    updateAdminRequest userId approved reviewedBy w = (Ok tt, w')
    /\ db w' = approved_db userId reviewedBy old (clock w) (db w).
Proof.
  intros [Hs1 Hs2] Hold.
  rewrite updateAdminRequest_eq.
  rewrite (updateDoc_served ADMIN_REQUESTS_COLLECTION _ _ _ old) by assumption.
  rewrite bool_decide_eq_true_2 by reflexivity.
  rewrite setUserRole_eq, setDoc_served by exact Hs2.
  eexists; split; reflexivity.
Qed.

(** Rejecting in the users module is one write to the request. *)
Lemma denyAdminRequest_inv requestId userId reviewedBy w w' :
  denyAdminRequest requestId userId reviewedBy w = (Ok tt, w') ->
  exists old,
    admin_requests (db w) !! userId = Some old
    /\ w' = sent op_updateDoc "admin_requests" userId
              (mkDb (users (db w)) (user_roles (db w))
                    (<[userId := review rejected reviewedBy (clock w) old]>
                       (admin_requests (db w))))
              w.
Proof.
  unfold denyAdminRequest. rewrite logged_id, updateAdminRequest_eq.
  destruct (updateDoc_cases ADMIN_REQUESTS_COLLECTION userId
              (review rejected reviewedBy (clock w)) w)
    as [(old & Hs & Hold & ->) | (e & ->)]; [| discriminate].
  rewrite bool_decide_eq_false_2 by discriminate.
  intros [= <-]. by exists old.
Qed.

Lemma createAdminRequest_inv userId email_ w w' :
  createAdminRequest userId email_ w = (Ok tt, w') ->
  w' = sent op_setDoc "admin_requests" userId
         (mkDb (users (db w)) (user_roles (db w))
               (<[userId := mkAdminRequest None userId email_ pending None
                                           (clock w) None]>
                  (admin_requests (db w))))
         w.
Proof.
  rewrite createAdminRequest_eq.
  match goal with |- setDoc ?c ?i ?x ?w1 = _ -> _ =>
    destruct (setDoc_cases c i x w1) as [(Hs1 & ->) | (e & ->)]
  end; [| discriminate].
  by intros [= <-].
Qed.

(** *** Reading the administrators, and the first profile *)

Lemma getAllAdmins_cases w :
  (served w
   /\ getAllAdmins w
      = (Ok (snd <$> merge_sort by_id
                       (filter (fun x => grants_admin (snd x) = true)
                               (map_to_list (user_roles (db w))))),
         sent op_getDocs "user_roles" "" (db w) w))
  \/ (exists e, getAllAdmins w
                = (Throw e, sent op_getDocs "user_roles" "" (db w) w)).
Proof.
  unfold getAllAdmins. rewrite logged_id.
  unfold served, getDocs, bind, send, get, ret, sent.
  destruct (hd false (outages w)) eqn:Hs; cbn.
  - right. eexists. by destruct w.
  - left. split; [reflexivity |]. by destruct w.
Qed.

Lemma no_admins_none d :
  no_admins d ->
  filter (fun x : string * UserRoleDoc => grants_admin (snd x) = true)
         (map_to_list (user_roles d)) = [].
Proof.
  intros Hnone. apply filter_none. rewrite Exists_exists.
  intros ([k r] & Hin & Hgrants). cbn in Hgrants.
  apply elem_of_map_to_list in Hin.
  apply bool_decide_eq_true in Hgrants.
  destruct (Hnone k r Hin) as [Hadmin Hsuper]. tauto.
Qed.

Lemma createUserProfile_eq uid_ data w :
  createUserProfile uid_ data w
  = match setDoc USERS_COLLECTION uid_ (new_profile uid_ data (clock w)) w with
    | (Ok _, w1) =>
        match getAllAdmins w1 with
        | (Ok admins, w2) =>
            if bool_decide (length admins = 0%nat)
            then setUserRole uid_ super_admin "system" w2
            else (Ok tt, w2)
        | (Throw e, w2) => (Throw e, w2)
        end
    | (Throw e, w1) => (Throw e, w1)
    end.
Proof.
  unfold createUserProfile. rewrite logged_id.
  unfold bind, serverTimestamp.
  destruct (setDoc _ _ _ w) as [[[] | e] w1]; [| reflexivity].
  destruct (getAllAdmins w1) as [[admins | e] w2]; [| reflexivity].
  by case_bool_decide.
Qed.

End FirestoreFacts.

(** ** The Admins page *)

Section AdminsPage.
Import Supabase SupabaseFacts.

Lemma handleRemoveAdmin_self w adminId a :
  session w = Some a ->
  handleRemoveAdmin adminId a w
  = (Ok tt,
     with_toasts
       (toasts w ++ [toast_error "You cannot remove your own admin access"])
       w).
Proof.
  intros Hs. unfold handleRemoveAdmin, bind, useAuth_user. rewrite Hs.
  rewrite bool_decide_eq_true_2 by reflexivity. reflexivity.
Qed.

(** Adding role rows keeps the roles that are held. *)
Lemma has_role_with_user_roles_app d s role rows :
  has_role d s role = true ->
  has_role (with_user_roles (fun t => t ++ rows) d) s role = true.
Proof.
  unfold has_role. destruct s as [u |]; [| done].
  rewrite !bool_decide_eq_true. cbn. rewrite Exists_app. by left.
Qed.

Lemma holds_admin_role_after_insert d id u now :
  holds_admin_role
    (with_user_roles (fun t => t ++ [mkUserRole id u admin now]) d) u.
Proof.
  unfold holds_admin_role. cbn. rewrite Exists_app. right.
  apply Exists_cons_hd. by split.
Qed.

(** What the approve handler leaves when it reports success. *)
Lemma handleApproveRequest_success requestId userId email w w' :
  handleApproveRequest requestId userId email w = (Ok tt, w') ->
  toasts w' = toasts w ++ [toast_success (approved_text email)] ->
  let d1 := with_user_roles
              (fun t => t ++ [mkUserRole (hd "" (entropy w)) userId admin
                                         (clock w)])
              (db w) in
  db w'
  = (if has_role d1 (session w) admin
     then with_admin_requests
            (map (fun r => if bool_decide (ar_id r = requestId)
                           then reviewed approved (clock w) (session w) r
                           else r))
            d1
     else d1).
Proof.
  intros Hrun Htoast.
  destruct (handleApproveRequest_cases requestId userId email w)
    as (roleError & w1 & Hinsert & Hcases).
  destruct (from_user_roles_insert_spec userId admin
              (with_processingId (Some requestId) w))
    as (err1 & d1 & e1 & Hinsert' & Hd1).
  rewrite Hinsert' in Hinsert. injection Hinsert as -> <-.
  destruct roleError as [e |].
  { rewrite Hcases in Hrun. injection Hrun as <-. cbn in Htoast.
    apply app_inj_tail in Htoast as [_ [=]]. }
  destruct Hcases as (updateError & w2 & Hupdate & Hcases).
  match type of Hupdate with
  | from_admin_requests_update_eq_id ?s ?t ?u ?i ?w1 = _ =>
      destruct (from_admin_requests_update_eq_id_spec s t u i w1)
        as (err2 & d2 & Hupdate' & Hd2)
  end.
  rewrite Hupdate' in Hupdate. injection Hupdate as -> <-.
  destruct updateError as [e |].
  { rewrite Hcases in Hrun. injection Hrun as <-. cbn in Htoast.
    apply app_inj_tail in Htoast as [_ [=]]. }
  rewrite Hcases in Hrun. injection Hrun as <-.
  cbn -[has_role]. subst d2 d1. unfold is_admin. cbn -[has_role].
  reflexivity.
Qed.

Lemma approval_post w r a w' :
  r ∈ admin_requests (db w) ->
  session w = Some a ->
  is_admin w = true ->
  approval w r w' ->
  holds_admin_role (db w') (ar_user_id r)
  /\ reviewed approved (clock w) (Some a) r ∈ admin_requests (db w')
  /\ (forall r', r' ∈ admin_requests (db w') -> ar_id r' = ar_id r ->
                 ar_status r' = approved
                 /\ ar_reviewed_by r' = Some a
                 /\ ar_reviewed_at r' = Some (clock w)).
Proof.
  intros Hr Hs Ha [Hrun Htoast].
  pose proof (handleApproveRequest_success _ _ _ _ _ Hrun Htoast) as Hdb.
  cbv zeta in Hdb.
  rewrite has_role_with_user_roles_app in Hdb by exact Ha.
  rewrite Hdb, Hs. cbn -[bool_decide]. split; [| split].
  - unfold holds_admin_role. cbn. rewrite Exists_app. right.
    apply Exists_cons_hd. by split.
  - apply list_elem_of_fmap. exists r. split; [| assumption].
    by rewrite bool_decide_eq_true_2.
  - intros r' Hr' Hid.
    apply list_elem_of_fmap in Hr' as (r0 & -> & _).
    case_bool_decide as Hr0; [done |].
    contradiction.
Qed.

Lemma approval_served w r a :
  session w = Some a ->
  has_account (db w) a ->
  served_twice w ->
  ~ Exists (fun x => ur_id x = hd "" (entropy w)) (user_roles (db w)) ->
  ~ holds_admin_role (db w) (ar_user_id r) ->
  exists w', approval w r w'.
Proof.
  intros Hs Hacc [Hs1 Hs2] Hfresh Hnew. unfold approval.
  destruct (handleApproveRequest_cases (ar_id r) (ar_user_id r)
              (ar_email r) w) as (roleError & w1 & Hinsert & Hcases).
  pose proof (from_user_roles_insert_accepted (ar_user_id r) admin
                (with_processingId (Some (ar_id r)) w) Hs1 Hfresh Hnew)
    as Hok.
  destruct (from_user_roles_insert_spec (ar_user_id r) admin
              (with_processingId (Some (ar_id r)) w))
    as (err1 & d1 & e1 & Hinsert' & Hd1).
  rewrite Hinsert' in Hok.
  pose proof (eq_trans (eq_sym Hinsert') Hinsert) as Heq.
  injection Heq as -> <-.
  cbn in Hok. injection Hok as ->.
  destruct Hcases as (updateError & w2 & Hupdate & Hcases).
  match type of Hupdate with
  | from_admin_requests_update_eq_id ?s ?t ?u ?i ?w1 = _ =>
      pose proof (from_admin_requests_update_eq_id_accepted s t u i w1)
        as Hok;
      destruct (from_admin_requests_update_eq_id_spec s t u i w1)
        as (err2 & d2 & Hupdate' & Hd2)
  end.
  rewrite Hupdate' in Hok.
  pose proof (eq_trans (eq_sym Hupdate') Hupdate) as Heq.
  injection Heq as -> <-.
  cbn in Hok. subst d1.
  assert (updateError = None) as ->.
  { assert (Hx : Ok updateError = Ok (@None JsError)); [| by injection Hx].
    apply Hok; [exact Hs2 |].
    intros u Hu. rewrite Hs in Hu. injection Hu as <-. exact Hacc. }
  eexists. split; [exact Hcases | reflexivity].
Qed.

(** Approving for a user who holds the role stops at the insert. *)
Lemma handleApproveRequest_held requestId userId email w :
  holds_admin_role (db w) userId ->
  let w' := run (handleApproveRequest requestId userId email) w in
  fst (handleApproveRequest requestId userId email w) = Ok tt
  /\ db w' = db w
  /\ calls w' = calls w ++ [insert_into_user_roles userId admin]
  /\ toasts w' = toasts w ++ [toast_error "Failed to approve request"]
  /\ refreshes w' = refreshes w.
Proof.
  intros Hheld w'. subst w'. unfold run.
  destruct (handleApproveRequest_cases requestId userId email w)
    as (roleError & w1 & Hinsert & Hcases).
  destruct (from_user_roles_insert_held userId admin
              (with_processingId (Some requestId) w) Hheld)
    as (e & w1' & Hrefused).
  pose proof (eq_trans (eq_sym Hinsert) Hrefused) as Heq.
  injection Heq as -> ->.
  apply from_user_roles_insert_refused in Hrefused
    as (Hplain & Hdb & Hcalls & Htoasts & Hrefreshes & _).
  rewrite Hcases. unfold failed, errMessage. rewrite Hplain. cbn.
  by rewrite Hdb, Hcalls, Htoasts, Hrefreshes.
Qed.

(** The calls do not look at the component state. *)
Lemma from_user_roles_insert_processingId p user_id role w :
  from_user_roles_insert user_id role (with_processingId p w)
  = (fst (from_user_roles_insert user_id role w),
     with_processingId p (snd (from_user_roles_insert user_id role w))).
Proof. unfold from_user_roles_insert. prim; reflexivity. Qed.

Lemma from_admin_requests_update_eq_id_processingId p status at_ by_ id w :
  from_admin_requests_update_eq_id status at_ by_ id (with_processingId p w)
  = (fst (from_admin_requests_update_eq_id status at_ by_ id w),
     with_processingId p
       (snd (from_admin_requests_update_eq_id status at_ by_ id w))).
Proof.
  unfold from_admin_requests_update_eq_id. prim; try reflexivity.
  destruct by_ as [u |]; cbn -[bool_decide]; [case_bool_decide |];
    reflexivity.
Qed.

(** *** The reject and remove handlers, by the reply of their call *)

Lemma handleRejectRequest_run requestId userId email w :
  (served w /\ has_account (db w) userId
   /\ handleRejectRequest requestId userId email w
      = (Ok tt,
         succeeded (rejected_text email)
           [refetchPending; invalidateQueries [Some "pending-admin-requests"]]
           (sent (invoke_delete_user userId) (delete_account userId (db w))
                 (entropy w) (with_processingId (Some requestId) w))))
  \/ (exists e,
        handleRejectRequest requestId userId email w
        = (Ok tt,
           failed "Failed to reject request" e
             (sent (invoke_delete_user userId) (db w) (entropy w)
                   (with_processingId (Some requestId) w)))).
Proof.
  unfold handleRejectRequest, try_finally, try_catch, setProcessingId,
    functions_invoke_delete_user, start, toast, has_account, served.
  prim; try discriminate.
  all: first
    [ by (right;
          exists (FunctionsError
                    "Failed to send a request to the Edge Function"))
    | by (right; exists (new_Error "User not found"))
    | left; repeat split; try assumption ].
  unfold succeeded, sent, with_processingId, with_refreshes, with_toasts.
  cbn. by rewrite <- app_assoc.
Qed.

Lemma handleRemoveAdmin_run adminId adminUserId w :
  session w <> Some adminUserId ->
  (served w /\ has_account (db w) adminUserId
   /\ handleRemoveAdmin adminId adminUserId w
      = (Ok tt,
         succeeded "User completely removed from system" [fetchAdmins]
           (sent (invoke_delete_user adminUserId)
                 (delete_account adminUserId (db w))
                 (entropy w) (with_processingId (Some adminId) w))))
  \/ (exists e,
        handleRemoveAdmin adminId adminUserId w
        = (Ok tt,
           failed "Failed to remove user" e
             (sent (invoke_delete_user adminUserId) (db w) (entropy w)
                   (with_processingId (Some adminId) w)))).
Proof.
  intros Hother.
  unfold handleRemoveAdmin, try_finally, try_catch, setProcessingId,
    functions_invoke_delete_user, start, toast, has_account, served,
    useAuth_user.
  unfold bind at 1.
  rewrite bool_decide_eq_false_2 by (intros Heq; by apply Hother).
  prim; try discriminate.
  all: first
    [ by (right;
          exists (FunctionsError
                    "Failed to send a request to the Edge Function"))
    | by (right; exists (new_Error "User not found"))
    | left; repeat split; try assumption ].
Qed.

(** Deleting an account removes it and what belongs to it. *)
Lemma delete_account_gone u d :
  ~ has_account (delete_account u d) u
  /\ (forall x, x ∈ user_roles (delete_account u d) -> ur_user_id x <> u)
  /\ (forall x, x ∈ admin_requests (delete_account u d) -> ar_user_id x <> u).
Proof.
  unfold has_account, delete_account, on_delete_auth_user. cbn.
  split; [| split].
  - rewrite Exists_exists. intros (x & Hx & Hid).
    apply list_elem_of_filter in Hx as [Hne _]. contradiction.
  - intros x Hx. by apply list_elem_of_filter in Hx as [Hne _].
  - intros x Hx. apply list_elem_of_fmap in Hx as (y & -> & Hy).
    apply list_elem_of_filter in Hy as [Hne _].
    by case_bool_decide.
Qed.
End AdminsPage.

(** ** The approval workflow on the Admins page *)

Section ApprovalWorkflow.
Import Supabase SupabaseFacts.

(** C3.  The approve operation is not atomic.  When the insert of the
    admin role row succeeds and the update of the request that follows
    fails, the requests are as they were (a pending request is still
    pending), the user holds the admin role, and the application does
    nothing more about it: the two calls are all it sent, the role row
    stays, and it shows the error. *)
Theorem approve_is_not_atomic (w : Supabase.World)
    (requestId userId email : string) (e : Js.JsError) :
  fst (Supabase.from_user_roles_insert userId Supabase.admin w) = Ok None ->
  fst (Supabase.from_admin_requests_update_eq_id Supabase.approved
         (Supabase.clock w) (Supabase.session w) requestId
         (Supabase.run (Supabase.from_user_roles_insert userId Supabase.admin)
                       w))
  = Ok (Some e) ->
  let w' := Supabase.run (Supabase.handleApproveRequest requestId userId email)
                         w in
  Supabase.admin_requests (Supabase.db w')
  = Supabase.admin_requests (Supabase.db w)
  /\ Supabase.holds_admin_role (Supabase.db w') userId
  /\ Supabase.db w'
     = Supabase.db (Supabase.run
                      (Supabase.from_user_roles_insert userId Supabase.admin)
                      w)
  /\ Supabase.calls w'
     = Supabase.calls w
       ++ [Supabase.insert_into_user_roles userId Supabase.admin;
           Supabase.update_admin_requests_eq_id Supabase.approved
             (Supabase.clock w) (Supabase.session w) requestId]
  /\ Supabase.toasts w'
     = Supabase.toasts w
       ++ [Supabase.toast_error (errMessage e "Failed to approve request")]
  /\ Supabase.refreshes w' = Supabase.refreshes w.
Proof.
  intros Hfirst Hsecond w'. subst w'. unfold run in *.
  destruct (handleApproveRequest_cases requestId userId email w)
    as (roleError & w1 & Hinsert & Hcases).
  rewrite from_user_roles_insert_processingId in Hinsert.
  destruct (from_user_roles_insert_spec userId admin w)
    as (err1 & d1 & e1 & Hspec1 & Hd1).
  rewrite Hspec1 in Hinsert, Hfirst, Hsecond. cbn [fst snd] in *.
  injection Hfirst as ->. injection Hinsert as <- <-.
  destruct Hcases as (updateError & w2 & Hupdate & Hcases).
  cbn [clock session with_processingId sent] in Hupdate.
  rewrite from_admin_requests_update_eq_id_processingId in Hupdate.
  match type of Hsecond with
  | fst (from_admin_requests_update_eq_id ?s ?t ?u ?i ?w0) = _ =>
      destruct (from_admin_requests_update_eq_id_spec s t u i w0)
        as (err2 & d2 & Hspec2 & Hd2)
  end.
  pose proof Hspec2 as Hspec2'.
  rewrite Hspec2 in Hsecond. cbn [fst] in Hsecond. injection Hsecond as ->.
  cbn [sent db] in Hd2. subst d2.
  rewrite Hspec2 in Hupdate. cbn [fst snd] in Hupdate.
  injection Hupdate as <- <-.
  rewrite Hcases, Hspec1. cbn. subst d1. cbn.
  repeat split.
  - apply holds_admin_role_after_insert.
  - by rewrite <- app_assoc.
Qed.

Lemma approve_is_not_atomic_witness :
  let w := world_second_call_lost in
  let w' := run (handleApproveRequest "q1" "u1" "ann@church.org") w in
  admin_requests (db w') = admin_requests (db w)
  /\ holds_admin_role (db w') "u1"
  /\ db w' = db (run (from_user_roles_insert "u1" admin) w)
  /\ calls w'
     = calls w
       ++ [insert_into_user_roles "u1" admin;
           update_admin_requests_eq_id approved (clock w) (session w) "q1"]
  /\ toasts w'
     = toasts w
       ++ [toast_error (errMessage FetchError "Failed to approve request")]
  /\ refreshes w' = refreshes w.
Proof.
  apply (approve_is_not_atomic world_second_call_lost "q1" "u1"
           "ann@church.org" FetchError); vm_compute; reflexivity.
Defined.

(** C9.  When the target of the remove-admin operation is the signed-in
    administrator, the handler sends no call and leaves the store, the
    session and the component state as they are; it only shows that one
    cannot remove one's own access. *)
Theorem handleRemoveAdmin_never_removes_self (w : World)
    (adminId adminUserId : string) :
  session w = Some adminUserId ->
  exists w',
    handleRemoveAdmin adminId adminUserId w = (Ok tt, w')
    /\ calls w' = calls w
    /\ db w' = db w
    /\ session w' = session w
    /\ processingId w' = processingId w
    /\ refreshes w' = refreshes w
    /\ outages w' = outages w
    /\ toasts w'
       = toasts w ++ [toast_error "You cannot remove your own admin access"].
Proof.
  intros Hself. eexists. split.
  - by apply handleRemoveAdmin_self.
  - by repeat split.
Qed.

Lemma handleRemoveAdmin_never_removes_self_witness :
  exists w',
    handleRemoveAdmin "r1" "a1" world_pending = (Ok tt, w')
    /\ calls w' = calls world_pending
    /\ db w' = db world_pending
    /\ session w' = session world_pending
    /\ processingId w' = processingId world_pending
    /\ refreshes w' = refreshes world_pending
    /\ outages w' = outages world_pending
    /\ toasts w'
       = toasts world_pending
         ++ [toast_error "You cannot remove your own admin access"].
Proof.
  apply (handleRemoveAdmin_never_removes_self world_pending "r1" "a1").
  reflexivity.
Defined.

End ApprovalWorkflow.

(** C1, as the code has it.  Approving a pending request gives the user
    the admin role and marks the request, for a user who does not hold the
    role yet.  On the Admins page: when a signed-in administrator approves
    and the handler reports success, a role row with role admin exists for
    the user and the request has status approved, the administrator as
    reviewer and the time of review; the handler does report success when
    its two calls are served, the id generated for the role row is new, the
    user does not hold the role yet and the administrator has an account.
    For a user who holds the role already the insert is refused: the
    handler stops there, shows its error text and leaves the requests as
    they were, the pending one pending.  In the users module: when
    [updateAdminRequest] with status approved returns, the role document of
    the user has role admin and the request document has status approved,
    the reviewer and the time of review, its other fields as before; and it
    does return when its two writes are served. *)
Theorem approving_grants_the_admin_role :
  (forall w r a w',
      r ∈ Supabase.admin_requests (Supabase.db w) ->
      Supabase.ar_status r = Supabase.pending ->
      Supabase.session w = Some a ->
      Supabase.is_admin w = true ->
      Supabase.approval w r w' ->
      Supabase.holds_admin_role (Supabase.db w') (Supabase.ar_user_id r)
      /\ Supabase.reviewed Supabase.approved (Supabase.clock w) (Some a) r
           ∈ Supabase.admin_requests (Supabase.db w')
      /\ (forall r',
             r' ∈ Supabase.admin_requests (Supabase.db w') ->
             Supabase.ar_id r' = Supabase.ar_id r ->
             Supabase.ar_status r' = Supabase.approved
             /\ Supabase.ar_reviewed_by r' = Some a
             /\ Supabase.ar_reviewed_at r' = Some (Supabase.clock w)))
  /\ (forall w r a,
        Supabase.session w = Some a ->
        Supabase.has_account (Supabase.db w) a ->
        Supabase.served_twice w ->
        ~ Exists (fun x => Supabase.ur_id x = hd "" (Supabase.entropy w))
                 (Supabase.user_roles (Supabase.db w)) ->
        ~ Supabase.holds_admin_role (Supabase.db w) (Supabase.ar_user_id r) ->
        exists w', Supabase.approval w r w')
  /\ (forall w r,
        r ∈ Supabase.admin_requests (Supabase.db w) ->
        Supabase.ar_status r = Supabase.pending ->
        Supabase.holds_admin_role (Supabase.db w) (Supabase.ar_user_id r) ->
        let w' := Supabase.run
                    (Supabase.handleApproveRequest (Supabase.ar_id r)
                       (Supabase.ar_user_id r) (Supabase.ar_email r)) w in
        r ∈ Supabase.admin_requests (Supabase.db w')
        /\ Supabase.db w' = Supabase.db w
        /\ Supabase.calls w'
           = Supabase.calls w
             ++ [Supabase.insert_into_user_roles (Supabase.ar_user_id r)
                   Supabase.admin]
        /\ Supabase.toasts w'
           = Supabase.toasts w
             ++ [Supabase.toast_error "Failed to approve request"])
  /\ (forall w userId reviewedBy old w',
        Firestore.admin_requests (Firestore.db w) !! userId = Some old ->
        Firestore.rq_status old = Firestore.pending ->
        Firestore.updateAdminRequest userId Firestore.approved reviewedBy w
        = (Ok tt, w') ->
        Firestore.user_roles (Firestore.db w') !! userId
        = Some (Firestore.mkUserRoleDoc userId Firestore.admin
                  (Some reviewedBy) (Firestore.clock w))
        /\ Firestore.admin_requests (Firestore.db w') !! userId
           = Some (Firestore.mkAdminRequest
                     (Firestore.rq_id old) (Firestore.rq_userId old)
                     (Firestore.rq_email old) Firestore.approved
                     (Some reviewedBy) (Firestore.rq_createdAt old)
                     (Some (Firestore.clock w))))
  /\ (forall w userId reviewedBy old,
        Firestore.admin_requests (Firestore.db w) !! userId = Some old ->
        Firestore.served_twice w ->
        exists w',
          Firestore.updateAdminRequest userId Firestore.approved reviewedBy w
          = (Ok tt, w')).
Proof.
  split; [| split; [| split; [| split]]].
  - intros w r a w' Hr _ Hs Ha Happroval.
    by apply (approval_post w r a w').
  - intros w r a. apply approval_served.
  - intros w r Hr _ Hheld w'.
    destruct (handleApproveRequest_held (Supabase.ar_id r)
                (Supabase.ar_user_id r) (Supabase.ar_email r) w Hheld)
      as (_ & Hdb & Hcalls & Htoasts & _).
    fold w' in Hdb, Hcalls, Htoasts.
    split; [by rewrite Hdb | by repeat split].
  - intros w userId reviewedBy old w' Hold _ Hrun.
    apply FirestoreFacts.updateAdminRequest_approved_inv in Hrun
      as (old' & Hold' & _ & ->).
    assert (old' = old) as -> by congruence.
    unfold Firestore.approved_db. cbn. by rewrite !lookup_insert_eq.
  - intros w userId reviewedBy old Hold Hserved.
    destruct (FirestoreFacts.updateAdminRequest_approved_served userId
                reviewedBy w old Hserved Hold) as (w' & Hrun & _).
    by exists w'.
Qed.

Lemma approving_grants_the_admin_role_witness :
  let w := Supabase.world_pending in
  let r := Supabase.mkAdminRequest "q1" "u1" "ann@church.org"
             Supabase.pending None 200 None in
  let w' := Supabase.run
              (Supabase.handleApproveRequest "q1" "u1" "ann@church.org") w in
  let held := Supabase.run
                (Supabase.handleApproveRequest "q1" "u1" "ann@church.org")
                Supabase.world_second_call_lost in
  let held' := Supabase.run
                 (Supabase.handleApproveRequest "q1" "u1" "ann@church.org")
                 held in
  let fw := Firestore.world_pending in
  let old := Firestore.mkAdminRequest None "u1" "ann@church.org"
               Firestore.pending None 200 None in
  let fw' := Firestore.run
               (Firestore.updateAdminRequest "u1" Firestore.approved "a1")
               fw in
  (Supabase.holds_admin_role (Supabase.db w') "u1"
   /\ Supabase.reviewed Supabase.approved 300 (Some "a1") r
        ∈ Supabase.admin_requests (Supabase.db w')
   /\ (forall r',
          r' ∈ Supabase.admin_requests (Supabase.db w') ->
          Supabase.ar_id r' = "q1" ->
          Supabase.ar_status r' = Supabase.approved
          /\ Supabase.ar_reviewed_by r' = Some "a1"
          /\ Supabase.ar_reviewed_at r' = Some 300))
  /\ (r ∈ Supabase.admin_requests (Supabase.db held')
      /\ Supabase.db held' = Supabase.db held
      /\ Supabase.calls held'
         = Supabase.calls held
           ++ [Supabase.insert_into_user_roles "u1" Supabase.admin]
      /\ Supabase.toasts held'
         = Supabase.toasts held
           ++ [Supabase.toast_error "Failed to approve request"])
  /\ (Firestore.user_roles (Firestore.db fw') !! "u1"
      = Some (Firestore.mkUserRoleDoc "u1" Firestore.admin (Some "a1") 300)
      /\ Firestore.admin_requests (Firestore.db fw') !! "u1"
         = Some (Firestore.mkAdminRequest None "u1" "ann@church.org"
                   Firestore.approved (Some "a1") 200 (Some 300))).
Proof.
  intros w r w' held held' fw old fw'. split; [| split].
  - apply (proj1 approving_grants_the_admin_role w r "a1" w').
    + apply list_elem_of_here.
    + reflexivity.
    + reflexivity.
    + vm_compute. reflexivity.
    + split; vm_compute; reflexivity.
  - apply (proj1 (proj2 (proj2 approving_grants_the_admin_role)) held r).
    + vm_compute. apply list_elem_of_here.
    + reflexivity.
    + vm_compute. apply Exists_cons_tl, Exists_cons_hd. by split.
  - apply (proj1 (proj2 (proj2 (proj2 approving_grants_the_admin_role)))
             fw "u1" "a1" old fw').
    + vm_compute. reflexivity.
    + reflexivity.
    + vm_compute. reflexivity.
Defined.

(** C1 as stated fails on the Admins page for a pending request whose
    user holds the admin role already.  After an approval of which the
    second call was lost, the request [q1] of [u1] is pending and [u1]
    holds the role; the administrator approves again, every call is
    served, and the request is still pending, with no reviewer and no time
    of review: the insert of the role row was refused and the handler
    stopped there. *)
Lemma approving_again_leaves_the_request_pending :
  let w := Supabase.run
             (Supabase.handleApproveRequest "q1" "u1" "ann@church.org")
             Supabase.world_second_call_lost in
  let r := Supabase.mkAdminRequest "q1" "u1" "ann@church.org"
             Supabase.pending None 200 None in
  let w' := Supabase.run
              (Supabase.handleApproveRequest "q1" "u1" "ann@church.org") w in
  (r ∈ Supabase.admin_requests (Supabase.db w)
   /\ Supabase.ar_status r = Supabase.pending
   /\ Supabase.is_admin w = true
   /\ Supabase.outages w = [])
  /\ Supabase.admin_requests (Supabase.db w') = [r]
  /\ ~ (exists r',
           r' ∈ Supabase.admin_requests (Supabase.db w')
           /\ Supabase.ar_id r' = "q1"
           /\ Supabase.ar_status r' = Supabase.approved)
  /\ Supabase.toasts w'
     = Supabase.toasts w
       ++ [Supabase.toast_error "Failed to approve request"].
Proof.
  intros w r w'. split; [| split; [| split]].
  - repeat split; try reflexivity. vm_compute. apply list_elem_of_here.
  - vm_compute. reflexivity.
  - intros (r' & Hr' & _ & Hstatus). vm_compute in Hr'.
    apply list_elem_of_singleton in Hr'. subst r'. discriminate.
  - vm_compute. reflexivity.
Qed.

(** ** Rejecting a request *)

Section Rejection.
Import Supabase SupabaseFacts.

Lemma handleRejectRequest_calls requestId userId email w :
  calls (run (handleRejectRequest requestId userId email) w)
  = calls w ++ [invoke_delete_user userId].
Proof.
  unfold run.
  destruct (handleRejectRequest_run requestId userId email w)
    as [(_ & _ & ->) | (e & ->)]; reflexivity.
Qed.

Lemma rejection_post w r w' :
  rejection w r w' ->
  db w' = delete_account (ar_user_id r) (db w).
Proof.
  intros [Hrun Htoast].
  destruct (handleRejectRequest_run (ar_id r) (ar_user_id r) (ar_email r) w)
    as [(_ & _ & Heq) | (e & Heq)];
    rewrite Heq in Hrun; injection Hrun as <-; [reflexivity |].
  cbn in Htoast. apply app_inj_tail in Htoast as [_ [=]].
Qed.

Lemma rejection_served w r :
  served w -> has_account (db w) (ar_user_id r) -> exists w', rejection w r w'.
Proof.
  intros Hs Hacc. unfold rejection.
  destruct (handleRejectRequest_run (ar_id r) (ar_user_id r) (ar_email r) w)
    as [(_ & _ & Heq) | (e & Heq)].
  - eexists. split; [exact Heq | reflexivity].
  - (* the call was served and the account exists: no failure *)
    exfalso. revert Heq.
    unfold handleRejectRequest, try_finally, try_catch, setProcessingId,
      functions_invoke_delete_user, start, toast, has_account, served in *.
    prim; try congruence; try contradiction.
    intros Heq. apply (f_equal (fun p => toasts (snd p))) in Heq.
    cbn in Heq. by apply app_inv_head in Heq.
Qed.

End Rejection.

(** C2, as the code has it.  On the Admins page the reject handler always
    invokes the delete-user function for the user of the request; when it
    reports success the account is gone together with the role rows and the
    request of that user, and it does report success when the call is
    served and the account exists.  In the users module [denyAdminRequest]
    deletes nothing: when it returns, the request document has status
    rejected with reviewer and time, that one write is the only call, and
    profiles and role documents are as they were, and so are the other
    fields of the request. *)
Theorem rejecting_deletes_the_account_on_the_admins_page_only :
  (forall w r,
      Supabase.calls
        (Supabase.run
           (Supabase.handleRejectRequest (Supabase.ar_id r)
              (Supabase.ar_user_id r) (Supabase.ar_email r)) w)
      = Supabase.calls w
        ++ [Supabase.invoke_delete_user (Supabase.ar_user_id r)])
  /\ (forall w r w',
        r ∈ Supabase.admin_requests (Supabase.db w) ->
        Supabase.ar_status r = Supabase.pending ->
        Supabase.rejection w r w' ->
        ~ Supabase.has_account (Supabase.db w') (Supabase.ar_user_id r)
        /\ (forall x, x ∈ Supabase.user_roles (Supabase.db w') ->
                      Supabase.ur_user_id x <> Supabase.ar_user_id r)
        /\ (forall x, x ∈ Supabase.admin_requests (Supabase.db w') ->
                      Supabase.ar_user_id x <> Supabase.ar_user_id r))
  /\ (forall w r,
        Supabase.served w ->
        Supabase.has_account (Supabase.db w) (Supabase.ar_user_id r) ->
        exists w', Supabase.rejection w r w')
  /\ (forall w requestId userId reviewedBy w',
        Firestore.denyAdminRequest requestId userId reviewedBy w
        = (Ok tt, w') ->
        Firestore.users (Firestore.db w') = Firestore.users (Firestore.db w)
        /\ Firestore.user_roles (Firestore.db w')
           = Firestore.user_roles (Firestore.db w)
        /\ Firestore.calls w'
           = Firestore.calls w
             ++ [(Firestore.op_updateDoc, "admin_requests", userId)]
        /\ exists old,
             Firestore.admin_requests (Firestore.db w) !! userId = Some old
             /\ Firestore.admin_requests (Firestore.db w') !! userId
                = Some (Firestore.mkAdminRequest
                          (Firestore.rq_id old) (Firestore.rq_userId old)
                          (Firestore.rq_email old) Firestore.rejected
                          (Some reviewedBy) (Firestore.rq_createdAt old)
                          (Some (Firestore.clock w)))).
Proof.
  split; [| split; [| split]].
  - intros w r. apply handleRejectRequest_calls.
  - intros w r w' _ _ Hrej. rewrite (rejection_post w r w' Hrej).
    apply delete_account_gone.
  - intros w r. apply rejection_served.
  - intros w requestId userId reviewedBy w' Hrun.
    apply FirestoreFacts.denyAdminRequest_inv in Hrun as (old & Hold & ->).
    cbn. repeat split. exists old. split; [assumption |].
    by rewrite lookup_insert_eq.
Qed.

Lemma rejecting_deletes_the_account_on_the_admins_page_only_witness :
  let w := Supabase.world_pending in
  let r := Supabase.mkAdminRequest "q1" "u1" "ann@church.org"
             Supabase.pending None 200 None in
  let w' := Supabase.run
              (Supabase.handleRejectRequest "q1" "u1" "ann@church.org") w in
  let fw := Firestore.world_pending in
  let fw' := Firestore.run (Firestore.denyAdminRequest "u1" "u1" "a1") fw in
  (~ Supabase.has_account (Supabase.db w') "u1"
   /\ (forall x, x ∈ Supabase.user_roles (Supabase.db w') ->
                 Supabase.ur_user_id x <> "u1")
   /\ (forall x, x ∈ Supabase.admin_requests (Supabase.db w') ->
                 Supabase.ar_user_id x <> "u1"))
  /\ (Firestore.users (Firestore.db fw') = Firestore.users (Firestore.db fw)
      /\ Firestore.user_roles (Firestore.db fw')
         = Firestore.user_roles (Firestore.db fw)
      /\ Firestore.calls fw'
         = Firestore.calls fw
           ++ [(Firestore.op_updateDoc, "admin_requests", "u1")]
      /\ exists old,
           Firestore.admin_requests (Firestore.db fw) !! "u1" = Some old
           /\ Firestore.admin_requests (Firestore.db fw') !! "u1"
              = Some (Firestore.mkAdminRequest
                        (Firestore.rq_id old) (Firestore.rq_userId old)
                        (Firestore.rq_email old) Firestore.rejected
                        (Some "a1") (Firestore.rq_createdAt old)
                        (Some (Firestore.clock fw)))).
Proof.
  intros w r w' fw fw'. split.
  - apply (proj1 (proj2
                    rejecting_deletes_the_account_on_the_admins_page_only)
             w r w').
    + apply list_elem_of_here.
    + reflexivity.
    + split; vm_compute; reflexivity.
  - apply (proj2 (proj2 (proj2
                    rejecting_deletes_the_account_on_the_admins_page_only))
             fw "u1" "u1" "a1" fw').
    vm_compute. reflexivity.
Defined.

(** C2 as stated fails in the users module: after [denyAdminRequest] on
    the pending request of [u1] the profile of [u1] is still there, the
    request is kept with status rejected, and the only call was the update
    of the request. *)
Lemma denyAdminRequest_keeps_the_account :
  let w := Firestore.world_pending in
  let w' := Firestore.run (Firestore.denyAdminRequest "u1" "u1" "a1") w in
  Firestore.denyAdminRequest "u1" "u1" "a1" w = (Ok tt, w')
  /\ Firestore.rq_status <$> Firestore.admin_requests (Firestore.db w) !! "u1"
     = Some Firestore.pending
  /\ Firestore.users (Firestore.db w') !! "u1"
     = Some (Firestore.profile_of "u1" "ann@church.org" 200)
  /\ Firestore.rq_status <$> Firestore.admin_requests (Firestore.db w') !! "u1"
     = Some Firestore.rejected
  /\ Firestore.calls w' = [(Firestore.op_updateDoc, "admin_requests", "u1")].
Proof. vm_compute. repeat split. Qed.

(** ** Signing up *)

Section SignUp.
Import Supabase SupabaseFacts.

Lemma signUp_spec email password w :
  exists reply d s e,
    signUp email password w
    = (Ok reply,
       mkWorld d s (clock w) (tl (outages w)) e
               (calls w ++ [auth_signUp email]) (toasts w) (processingId w)
               (refreshes w))
    /\ match su_error reply with
       | None =>
           su_userId reply = Some (hd "" (entropy w))
           /\ d = with_auth_users
                    (fun t => t ++ [mkAuthUser (hd "" (entropy w)) email])
                    (db w)
           /\ s = Some (hd "" (entropy w))
           /\ e = tl (entropy w)
       | Some _ => d = db w /\ s = session w
       end.
Proof.
  unfold signUp. prim.
  all: eexists _, _, _, _; (split; [reflexivity |]); cbn; auto.
Qed.

(** The form, once its fields are valid, by the replies of its calls. *)
Lemma handleSignUp_cases is_email email password confirmPassword w :
  signUpSchema_issues is_email email password confirmPassword = [] ->
  exists reply w1,
    signUp (trim email) password w = (Ok reply, w1)
    /\ match su_error reply with
       | Some error =>
           exists text,
             handleSignUp is_email email password confirmPassword w
             = (Ok tt, with_toasts (toasts w1 ++ [toast_error text]) w1)
       | None =>
           if truthy (su_userId reply)
           then
             exists requestError w2,
               from_admin_requests_insert (default "" (su_userId reply))
                 (toLowerCase (trim email)) pending w1
               = (Ok requestError, w2)
               /\ handleSignUp is_email email password confirmPassword w
                  = (Ok tt,
                     with_toasts
                       (toasts w2 ++ [toast_success account_created_text]) w2)
           else
             handleSignUp is_email email password confirmPassword w
             = (Ok tt,
                with_toasts
                  (toasts w1 ++ [toast_success account_created_text]) w1)
       end.
Proof.
  intros Hvalid.
  destruct (signUp_spec (trim email) password w)
    as (reply & d & s & e & Hsign & _).
  eexists _, _; split; [exact Hsign |].
  assert (Hrun :
             handleSignUp is_email email password confirmPassword w
             =
             match su_error reply with
             | Some error =>
                 (if includes (message error) "already registered"
                  then toast (toast_error "This email is already registered")
                  else toast (toast_error (message error)))
                   (mkWorld d s (clock w) (tl (outages w)) e
                      (calls w ++ [auth_signUp (trim email)]) (toasts w)
                      (processingId w) (refreshes w))
             | None =>
                 ((if truthy (su_userId reply)
                   then requestError <- from_admin_requests_insert
                                          (default "" (su_userId reply))
                                          (toLowerCase (trim email)) pending ;;
                        ret tt
                   else ret tt) ;;;
                  toast (toast_success account_created_text))
                   (mkWorld d s (clock w) (tl (outages w)) e
                      (calls w ++ [auth_signUp (trim email)]) (toasts w)
                      (processingId w) (refreshes w))
             end).
  { unfold handleSignUp. rewrite Hvalid.
    unfold bind at 1. rewrite Hsign. by destruct (su_error reply). }
  rewrite Hrun. clear Hrun.
  destruct (su_error reply) as [error |].
  - destruct (includes (message error) "already registered");
      eexists; reflexivity.
  - destruct (truthy (su_userId reply)).
    + match goal with
      | |- context [from_admin_requests_insert ?u ?m ?st] =>
          destruct (from_admin_requests_insert_spec u m st
                      (mkWorld d s (clock w) (tl (outages w)) e
                         (calls w ++ [auth_signUp (trim email)]) (toasts w)
                         (processingId w) (refreshes w)))
            as (err & d2 & e2 & Hins & _)
      end.
      eexists _, _; split; [exact Hins |].
      unfold bind. rewrite Hins. reflexivity.
    + reflexivity.
Qed.

(** What the form leaves when it reports the account as created: the
    account, the session of the new user and at most one new request, a
    pending one for that user. *)
Lemma handleSignUp_success is_email email password confirmPassword w :
  let w' := run (handleSignUp is_email email password confirmPassword) w in
  let u := hd "" (entropy w) in
  toasts w' = toasts w ++ [toast_success account_created_text] ->
  auth_users (db w') = auth_users (db w) ++ [mkAuthUser u (trim email)]
  /\ session w' = Some u
  /\ (admin_requests (db w') = admin_requests (db w)
      \/ (~ Exists (fun r => ar_user_id r = u) (admin_requests (db w))
          /\ admin_requests (db w')
             = admin_requests (db w)
               ++ [requested (hd "" (tl (entropy w))) u email (clock w)])).
Proof.
  intros w' u Htoast. subst w' u. unfold run in *.
  destruct (signUpSchema_issues is_email email password confirmPassword)
    as [| issue issues] eqn:Hvalid.
  2: { exfalso. revert Htoast. unfold handleSignUp. rewrite Hvalid.
       destruct (truthy _); cbn.
       - intros Ht. by apply app_inv_head in Ht.
       - intros Ht. by apply app_tail_neq in Ht. }
  destruct (handleSignUp_cases _ _ _ _ w Hvalid)
    as (reply & w1 & Hsign & Hcases).
  destruct (signUp_spec (trim email) password w)
    as (reply' & d & s & e & Hsign' & Hreply).
  pose proof (eq_trans (eq_sym Hsign') Hsign) as Heq.
  injection Heq as -> <-.
  destruct (su_error reply) as [error |].
  { destruct Hcases as (text & Hrun). rewrite Hrun in Htoast.
    cbn in Htoast. by apply app_inv_head in Htoast. }
  destruct Hreply as (Hid & -> & -> & ->). rewrite Hid in Hcases.
  destruct (truthy (Some (hd "" (entropy w)))).
  2: { rewrite Hcases. cbn. auto. }
  destruct Hcases as (requestError & w2 & Hinsert & Hrun).
  match type of Hinsert with
  | from_admin_requests_insert ?u ?m ?st ?w1 = _ =>
      destruct (from_admin_requests_insert_spec u m st w1)
        as (err & d2 & e2 & Hinsert' & Hd2)
  end.
  pose proof (eq_trans (eq_sym Hinsert') Hinsert) as Heq.
  injection Heq as -> <-.
  rewrite Hrun. cbn.
  destruct requestError as [error |].
  - subst d2. cbn. auto.
  - destruct Hd2 as [-> Hnew]. cbn in *. auto.
Qed.

Lemma signUp_accepted email password w :
  served w ->
  ~ Exists (fun a => au_email a = email) (auth_users (db w)) ->
  ~ has_account (db w) (hd "" (entropy w)) ->
  fst (signUp email password w)
  = Ok (mkSignUpReply None (Some (hd "" (entropy w)))).
Proof.
  unfold served, has_account. intros Hs Hemail Hid.
  unfold signUp. prim; try congruence; tauto.
Qed.

(** The form does create the request when both calls are served, the
    email is new, and the ids generated for the account and for the request
    are new. *)
Lemma handleSignUp_served is_email email password confirmPassword w :
  let w' := run (handleSignUp is_email email password confirmPassword) w in
  let u := hd "" (entropy w) in
  let q := hd "" (tl (entropy w)) in
  signUpSchema_issues is_email email password confirmPassword = [] ->
  served_twice w ->
  ~ Exists (fun a => au_email a = trim email) (auth_users (db w)) ->
  u <> "" ->
  ~ has_account (db w) u ->
  ~ Exists (fun r => ar_id r = q) (admin_requests (db w)) ->
  ~ Exists (fun r => ar_user_id r = u) (admin_requests (db w)) ->
  toasts w' = toasts w ++ [toast_success account_created_text]
  /\ admin_requests (db w')
     = admin_requests (db w) ++ [requested q u email (clock w)].
Proof.
  intros w' u q Hvalid [Hs1 Hs2] Hemail Hu Hnew Hq Hnone.
  subst w' u q. unfold run.
  destruct (handleSignUp_cases _ _ _ _ w Hvalid)
    as (reply & w1 & Hsign & Hcases).
  pose proof (signUp_accepted (trim email) password w Hs1 Hemail Hnew) as Hok.
  destruct (signUp_spec (trim email) password w)
    as (reply' & d & s & e & Hsign' & Hreply).
  rewrite Hsign' in Hok.
  pose proof (eq_trans (eq_sym Hsign') Hsign) as Heq.
  injection Heq as -> <-. cbn in Hok. injection Hok as ->.
  cbn in Hreply. destruct Hreply as (_ & -> & -> & ->).
  cbn -[from_admin_requests_insert handleSignUp bool_decide] in Hcases.
  rewrite bool_decide_eq_false_2 in Hcases by exact Hu.
  cbn -[from_admin_requests_insert handleSignUp] in Hcases.
  destruct Hcases as (requestError & w2 & Hinsert & Hrun).
  match type of Hinsert with
  | from_admin_requests_insert ?u ?m ?st ?w1 = _ =>
      pose proof (from_admin_requests_insert_accepted u m st w1) as Hok;
      destruct (from_admin_requests_insert_spec u m st w1)
        as (err & d2 & e2 & Hinsert' & Hd2)
  end.
  rewrite Hinsert' in Hok.
  pose proof (eq_trans (eq_sym Hinsert') Hinsert) as Heq.
  injection Heq as -> <-. cbn in Hok.
  assert (requestError = None) as ->.
  { assert (Hx : Ok requestError = Ok (@None JsError)); [| by injection Hx].
    apply Hok; try assumption; try reflexivity.
    rewrite Exists_app. right. by apply Exists_cons_hd. }
  destruct Hd2 as [-> _]. rewrite Hrun. cbn. split; reflexivity.
Qed.

End SignUp.

(** C4, as the code has it.  A sign-up that the form reports as
    successful creates the account and at most one request: either the
    insert of the request was accepted, and then the new user has exactly
    one request, a pending one, or it was not, and then no request was
    created although the form says the request is pending.  The request is
    created when both calls are served, the email is new and the generated
    ids are new.  In the users module [createAdminRequest], when it
    returns, leaves one pending request document filed under the user. *)
Theorem signing_up_files_a_request_when_the_insert_is_accepted :
  (forall is_email email password confirmPassword w,
      let w' := Supabase.run
                  (Supabase.handleSignUp is_email email password
                                         confirmPassword) w in
      let u := hd "" (Supabase.entropy w) in
      Supabase.toasts w'
      = Supabase.toasts w
        ++ [Supabase.toast_success Supabase.account_created_text] ->
      Supabase.auth_users (Supabase.db w')
      = Supabase.auth_users (Supabase.db w)
        ++ [Supabase.mkAuthUser u (Supabase.trim email)]
      /\ (Supabase.requests_of u (Supabase.db w')
          = [Supabase.requested (hd "" (tl (Supabase.entropy w))) u email
                                (Supabase.clock w)]
          \/ Supabase.admin_requests (Supabase.db w')
             = Supabase.admin_requests (Supabase.db w)))
  /\ (forall is_email email password confirmPassword w,
        let w' := Supabase.run
                    (Supabase.handleSignUp is_email email password
                                           confirmPassword) w in
        let u := hd "" (Supabase.entropy w) in
        let q := hd "" (tl (Supabase.entropy w)) in
        Supabase.signUpSchema_issues is_email email password confirmPassword
        = [] ->
        Supabase.served_twice w ->
        ~ Exists (fun a => Supabase.au_email a = Supabase.trim email)
                 (Supabase.auth_users (Supabase.db w)) ->
        u <> "" ->
        ~ Supabase.has_account (Supabase.db w) u ->
        ~ Exists (fun r => Supabase.ar_id r = q)
                 (Supabase.admin_requests (Supabase.db w)) ->
        ~ Exists (fun r => Supabase.ar_user_id r = u)
                 (Supabase.admin_requests (Supabase.db w)) ->
        Supabase.toasts w'
        = Supabase.toasts w
          ++ [Supabase.toast_success Supabase.account_created_text]
        /\ Supabase.requests_of u (Supabase.db w')
           = [Supabase.requested q u email (Supabase.clock w)])
  /\ (forall w userId email w',
        Firestore.filed_by_user (Firestore.db w) ->
        Firestore.createAdminRequest userId email w = (Ok tt, w') ->
        Firestore.admin_requests (Firestore.db w') !! userId
        = Some (Firestore.mkAdminRequest None userId email Firestore.pending
                  None (Firestore.clock w) None)
        /\ (forall k r,
               Firestore.admin_requests (Firestore.db w') !! k = Some r ->
               Firestore.rq_userId r = userId -> k = userId)).
Proof.
  split; [| split].
  - intros is_email email password confirmPassword w w' u Htoast.
    destruct (handleSignUp_success is_email email password confirmPassword
                w Htoast) as (Husers & _ & [Hsame | [Hnew Hadded]]).
    + split; [exact Husers | by right].
    + split; [exact Husers | left].
      subst w' u. unfold Supabase.requests_of. rewrite Hadded.
      rewrite filter_app, (filter_none _ _ Hnew).
      by rewrite filter_cons_True.
  - intros is_email email password confirmPassword w w' u q
      Hvalid Hserved Hemail Hu Hacc Hq Hnone.
    destruct (handleSignUp_served is_email email password confirmPassword w
                Hvalid Hserved Hemail Hu Hacc Hq Hnone) as [Htoast Hadded].
    split; [exact Htoast |].
    subst w' u q. unfold Supabase.requests_of. rewrite Hadded.
    rewrite filter_app, (filter_none _ _ Hnone).
    by rewrite filter_cons_True.
  - intros w userId email w' Hfiled Hrun.
    apply FirestoreFacts.createAdminRequest_inv in Hrun as ->. cbn.
    split; [by rewrite lookup_insert_eq |].
    intros k r Hk Hr.
    destruct (decide (k = userId)) as [| Hne]; [assumption |].
    rewrite lookup_insert_ne in Hk by congruence.
    by rewrite <- (Hfiled k r Hk).
Qed.

Lemma signing_up_files_a_request_when_the_insert_is_accepted_witness :
  let w := Supabase.world_signup in
  let w' := Supabase.run
              (Supabase.handleSignUp (fun _ => true) " Eve@Church.org"
                                     "secret1" "secret1") w in
  Supabase.auth_users (Supabase.db w')
  = Supabase.auth_users (Supabase.db w)
    ++ [Supabase.mkAuthUser "u2" "Eve@Church.org"]
  /\ (Supabase.requests_of "u2" (Supabase.db w')
      = [Supabase.requested "q2" "u2" " Eve@Church.org" 300]
      \/ Supabase.admin_requests (Supabase.db w')
         = Supabase.admin_requests (Supabase.db w)).
Proof.
  intros w w'.
  apply (proj1 signing_up_files_a_request_when_the_insert_is_accepted
           (fun _ => true) " Eve@Church.org" "secret1" "secret1" w).
  vm_compute. reflexivity.
Defined.

(** C4 as stated fails when the insert of the request does not go
    through: the form reports the account as created and the request as
    pending, the account of [u2] exists, the insert was sent, and there is
    no request for [u2]. *)
Lemma signing_up_without_a_request :
  let w := Supabase.world_signup_request_lost in
  let w' := Supabase.run
              (Supabase.handleSignUp (fun _ => true) " Eve@Church.org"
                                     "secret1" "secret1") w in
  Supabase.toasts w'
  = [Supabase.toast_success Supabase.account_created_text]
  /\ Supabase.auth_users (Supabase.db w')
     = Supabase.auth_users (Supabase.db w)
       ++ [Supabase.mkAuthUser "u2" "Eve@Church.org"]
  /\ Supabase.calls w'
     = [Supabase.auth_signUp "Eve@Church.org";
        Supabase.insert_into_admin_requests "u2" "eve@church.org"
          Supabase.pending]
  /\ Supabase.requests_of "u2" (Supabase.db w') = []
  /\ length (Supabase.requests_of "u2" (Supabase.db w')) <> 1%nat.
Proof. vm_compute. repeat split. discriminate. Qed.

(** ** The first profile *)

Section FirstUser.
Import Firestore FirestoreFacts.

(** The store after the first profile was created. *)
Lemma createUserProfile_first uid_ data w w' :
  no_admins (db w) ->
  createUserProfile uid_ data w = (Ok tt, w') ->
  served_thrice w
  /\ db w'
     = mkDb (<[uid_ := new_profile uid_ data (clock w)]> (users (db w)))
            (<[uid_ := mkUserRoleDoc uid_ super_admin (Some "system")
                                     (clock w)]> (user_roles (db w)))
            (admin_requests (db w)).
Proof.
  intros Hnone. rewrite createUserProfile_eq.
  destruct (setDoc_cases USERS_COLLECTION uid_
              (new_profile uid_ data (clock w)) w)
    as [(Hs1 & ->) | (e & ->)]; [| discriminate].
  match goal with |- context [getAllAdmins ?w1] =>
    destruct (getAllAdmins_cases w1) as [(Hs2 & ->) | (e & ->)]
  end; [| discriminate].
  cbn [sent db docs put USERS_COLLECTION user_roles].
  rewrite no_admins_none by exact Hnone. cbn [merge_sort fmap list_fmap].
  rewrite bool_decide_eq_true_2 by reflexivity.
  rewrite setUserRole_eq.
  match goal with |- setDoc ?c ?i ?x ?w1 = _ -> _ =>
    destruct (setDoc_cases c i x w1) as [(Hs3 & ->) | (e & ->)]
  end; [| discriminate].
  intros [= <-]. split; [by repeat split | reflexivity].
Qed.

Lemma createUserProfile_first_served uid_ data w :
  no_admins (db w) ->
  served_thrice w ->
  exists w', createUserProfile uid_ data w = (Ok tt, w').
Proof.
  intros Hnone (Hs1 & Hs2 & Hs3). rewrite createUserProfile_eq.
  rewrite setDoc_served by exact Hs1.
  match goal with |- context [getAllAdmins ?w1] =>
    destruct (getAllAdmins_cases w1) as [(_ & ->) | (e & Hlost)]
  end.
  - cbn [sent db docs put USERS_COLLECTION user_roles].
    rewrite no_admins_none by exact Hnone. cbn [merge_sort fmap list_fmap].
    rewrite bool_decide_eq_true_2 by reflexivity.
    rewrite setUserRole_eq, setDoc_served by exact Hs3.
    by eexists.
  - exfalso. revert Hlost. unfold getAllAdmins. rewrite logged_id.
    unfold getDocs, bind, send. cbn. rewrite Hs2. discriminate.
Qed.

(** With an administrator in place the new user gets no role. *)
Lemma createUserProfile_later uid_ data w w' k r :
  user_roles (db w) !! k = Some r ->
  grants_admin r = true ->
  createUserProfile uid_ data w = (Ok tt, w') ->
  user_roles (db w') = user_roles (db w)
  /\ users (db w') !! uid_ = Some (new_profile uid_ data (clock w)).
Proof.
  intros Hk Hr. rewrite createUserProfile_eq.
  destruct (setDoc_cases USERS_COLLECTION uid_
              (new_profile uid_ data (clock w)) w)
    as [(Hs1 & ->) | (e & ->)]; [| discriminate].
  match goal with |- context [getAllAdmins ?w1] =>
    destruct (getAllAdmins_cases w1) as [(Hs2 & ->) | (e & ->)]
  end; [| discriminate].
  cbn [sent db docs put USERS_COLLECTION user_roles].
  rewrite bool_decide_eq_false_2.
  - intros [= <-]. cbn. split; [reflexivity | by rewrite lookup_insert_eq].
  - rewrite length_fmap.
    match goal with |- length (merge_sort ?R ?l) <> _ =>
      rewrite (Permutation_length (merge_sort_Permutation R l));
      assert (Hin : (k, r) ∈ l)
    end.
    { apply list_elem_of_filter. split; [exact Hr |].
      by apply elem_of_map_to_list. }
    intros Hlen. apply nil_length_inv in Hlen. rewrite Hlen in Hin.
    by apply not_elem_of_nil in Hin.
Qed.

End FirstUser.

(** C8.  When a profile is created while no role document grants admin or
    super_admin, the new user gets the super_admin role, assigned by the
    system, and no admin request is involved: this is the store whenever
    [createUserProfile] returns, and it returns when its three calls are
    served. *)
Theorem first_user_becomes_super_admin :
  forall (w : Firestore.World) (uid_ : string) (data : Firestore.UserProfile),
    Firestore.no_admins (Firestore.db w) ->
    (forall w',
        Firestore.createUserProfile uid_ data w = (Ok tt, w') ->
        Firestore.users (Firestore.db w') !! uid_
        = Some (Firestore.new_profile uid_ data (Firestore.clock w))
        /\ Firestore.user_roles (Firestore.db w') !! uid_
           = Some (Firestore.mkUserRoleDoc uid_ Firestore.super_admin
                     (Some "system") (Firestore.clock w))
        /\ Firestore.admin_requests (Firestore.db w')
           = Firestore.admin_requests (Firestore.db w))
    /\ (Firestore.served_thrice w ->
        exists w', Firestore.createUserProfile uid_ data w = (Ok tt, w')).
Proof.
  intros w uid_ data Hnone. split.
  - intros w' Hrun.
    destruct (createUserProfile_first uid_ data w w' Hnone Hrun) as [_ ->].
    cbn. by rewrite !lookup_insert_eq.
  - by apply createUserProfile_first_served.
Qed.

Lemma first_user_becomes_super_admin_witness :
  let w := Firestore.world_empty in
  let data := Firestore.mkUserProfile None (Some "pastor@church.org")
                (Some "Pastor") None None None None None None None in
  let w' := Firestore.run (Firestore.createUserProfile "a1" data) w in
  Firestore.users (Firestore.db w') !! "a1"
  = Some (Firestore.new_profile "a1" data 100)
  /\ Firestore.user_roles (Firestore.db w') !! "a1"
     = Some (Firestore.mkUserRoleDoc "a1" Firestore.super_admin
               (Some "system") 100)
  /\ Firestore.admin_requests (Firestore.db w')
     = Firestore.admin_requests (Firestore.db w).
Proof.
  intros w data w'.
  apply (proj1 (first_user_becomes_super_admin w "a1" data
                  ltac:(intros k r Hk; vm_compute in Hk; discriminate)) w').
  vm_compute. reflexivity.
Defined.

(** ** Reading the pending requests *)

Section PendingRequests.

#[global] Instance newest_first_total : Total Supabase.newest_first.
Proof. intros r1 r2. unfold Supabase.newest_first. lia. Qed.

#[global] Instance newest_first_trans : Transitive Supabase.newest_first.
Proof. intros r1 r2 r3. unfold Supabase.newest_first. lia. Qed.

#[global] Instance by_id_total {D} : Total (@Firestore.by_id D).
Proof. intros x y. unfold Firestore.by_id. apply String.le_total. Qed.

#[global] Instance by_id_trans {D} : Transitive (@Firestore.by_id D).
Proof.
  intros x y z. unfold Firestore.by_id. apply (@transitivity _ String.le _).
Qed.

Lemma usePendingRequests_queryFn_inv w rows w' :
  Supabase.usePendingRequests_queryFn w = (Ok rows, w') ->
  Supabase.served w
  /\ rows = merge_sort Supabase.newest_first
              (filter (fun r => Supabase.visible w r
                                /\ Supabase.ar_status r = Supabase.pending)
                      (Supabase.admin_requests (Supabase.db w)))
  /\ w' = Supabase.sent
            (Supabase.select_admin_requests_eq_status Supabase.pending)
            (Supabase.db w) (Supabase.entropy w) w.
Proof.
  unfold Supabase.usePendingRequests_queryFn,
    Supabase.from_admin_requests_select_eq_status_order_created_at,
    Supabase.served, Supabase.send, bind, get, ret, throw_if, throw.
  cbn -[merge_sort filter].
  destruct (hd false (Supabase.outages w)); cbn -[merge_sort filter].
  - discriminate.
  - intros [= <- <-]. by repeat split.
Qed.

Lemma usePendingRequests_queryFn_served w :
  Supabase.served w ->
  exists rows w', Supabase.usePendingRequests_queryFn w = (Ok rows, w').
Proof.
  unfold Supabase.usePendingRequests_queryFn,
    Supabase.from_admin_requests_select_eq_status_order_created_at,
    Supabase.served, Supabase.send, bind, get, ret, throw_if, throw.
  cbn -[merge_sort filter]. intros ->. cbn -[merge_sort filter].
  by eexists _, _.
Qed.

Lemma getPendingAdminRequests_inv w rows w' :
  Firestore.getPendingAdminRequests w = (Ok rows, w') ->
  Firestore.served w
  /\ rows = Firestore.with_id
            <$> merge_sort Firestore.by_id
                  (filter (fun x => bool_decide
                                      (Firestore.rq_status (snd x)
                                       = Firestore.pending) = true)
                          (map_to_list
                             (Firestore.admin_requests (Firestore.db w))))
  /\ Firestore.db w' = Firestore.db w.
Proof.
  unfold Firestore.getPendingAdminRequests.
  rewrite FirestoreFacts.logged_id.
  unfold Firestore.getDocs, Firestore.served, Firestore.send, bind, get, ret.
  cbn -[merge_sort filter].
  destruct (hd false (Firestore.outages w)); cbn -[merge_sort filter].
  - discriminate.
  - intros [= <- <-]. by repeat split.
Qed.

End PendingRequests.

(** C6, as the code has it.  The query of the Admins page returns exactly
    the pending requests its caller may see (all of them for an
    administrator), the newest first, and it returns when its call is
    served.  The query of the users module returns exactly the pending
    request documents, in the order of their document ids: it asks for no
    order by creation time. *)
Theorem pending_requests_are_read_newest_first_on_the_admins_page_only :
  (forall w rows w',
      Supabase.usePendingRequests_queryFn w = (Ok rows, w') ->
      rows ≡ₚ filter (fun r => Supabase.visible w r
                               /\ Supabase.ar_status r = Supabase.pending)
                     (Supabase.admin_requests (Supabase.db w))
      /\ StronglySorted Supabase.newest_first rows
      /\ (Supabase.is_admin w = true ->
          forall r, r ∈ rows
                    <-> r ∈ Supabase.admin_requests (Supabase.db w)
                        /\ Supabase.ar_status r = Supabase.pending))
  /\ (forall w,
        Supabase.served w ->
        exists rows w', Supabase.usePendingRequests_queryFn w = (Ok rows, w'))
  /\ (forall w rows w',
        Firestore.getPendingAdminRequests w = (Ok rows, w') ->
        exists found,
          rows = Firestore.with_id <$> found
          /\ found ≡ₚ filter (fun x => Firestore.rq_status (snd x)
                                       = Firestore.pending)
                             (map_to_list
                                (Firestore.admin_requests (Firestore.db w)))
          /\ StronglySorted Firestore.by_id found).
Proof.
  split; [| split].
  - intros w rows w' Hrun.
    apply usePendingRequests_queryFn_inv in Hrun as (_ & -> & _).
    split; [apply merge_sort_Permutation |].
    split; [apply StronglySorted_merge_sort; apply _ |].
    intros Hadmin r. rewrite merge_sort_Permutation, list_elem_of_filter.
    unfold Supabase.visible. rewrite Hadmin. tauto.
  - apply usePendingRequests_queryFn_served.
  - intros w rows w' Hrun.
    apply getPendingAdminRequests_inv in Hrun as (_ & -> & _).
    eexists. split; [reflexivity |]. split.
    + rewrite merge_sort_Permutation.
      erewrite list_filter_iff; [reflexivity |].
      intros x. cbn. by rewrite bool_decide_eq_true.
    + apply StronglySorted_merge_sort; apply _.
Qed.

Lemma pending_requests_are_read_newest_first_on_the_admins_page_only_witness :
  let w := Supabase.world_requests in
  let q1 := Supabase.mkAdminRequest "q1" "u1" "ann@church.org"
              Supabase.pending None 200 None in
  let q3 := Supabase.mkAdminRequest "q3" "u3" "cy@church.org"
              Supabase.pending None 250 None in
  let q5 := Supabase.mkAdminRequest "q5" "u5" "eli@church.org"
              Supabase.pending None 220 None in
  let rows := [q3; q5; q1] in
  let own := Supabase.with_session (Some "u5") w in
  let fw := Firestore.world_three_pending in
  (fst (Supabase.usePendingRequests_queryFn w) = Ok rows
   /\ rows ≡ₚ filter (fun r => Supabase.visible w r
                               /\ Supabase.ar_status r = Supabase.pending)
                     (Supabase.admin_requests (Supabase.db w))
   /\ StronglySorted Supabase.newest_first rows
   /\ (Supabase.is_admin w = true ->
       forall r, r ∈ rows
                 <-> r ∈ Supabase.admin_requests (Supabase.db w)
                     /\ Supabase.ar_status r = Supabase.pending))
  /\ (fst (Supabase.usePendingRequests_queryFn own) = Ok [q5]
      /\ [q5] ≡ₚ filter (fun r => Supabase.visible own r
                                  /\ Supabase.ar_status r = Supabase.pending)
                        (Supabase.admin_requests (Supabase.db own)))
  /\ (exists found,
        fst (Firestore.getPendingAdminRequests fw)
        = Ok (Firestore.with_id <$> found)
        /\ found ≡ₚ filter (fun x => Firestore.rq_status (snd x)
                                     = Firestore.pending)
                           (map_to_list
                              (Firestore.admin_requests (Firestore.db fw)))
        /\ StronglySorted Firestore.by_id found).
Proof.
  intros w q1 q3 q5 rows own fw. split; [| split].
  - split; [vm_compute; reflexivity |].
    apply (proj1
             pending_requests_are_read_newest_first_on_the_admins_page_only
             w rows (Supabase.run Supabase.usePendingRequests_queryFn w)).
    vm_compute. reflexivity.
  - split; [vm_compute; reflexivity |].
    apply (proj1
             pending_requests_are_read_newest_first_on_the_admins_page_only
             own [q5]
             (Supabase.run Supabase.usePendingRequests_queryFn own)).
    vm_compute. reflexivity.
  - destruct (proj2 (proj2
                pending_requests_are_read_newest_first_on_the_admins_page_only)
                fw
                (Firestore.with_id
                 <$> merge_sort Firestore.by_id
                       (filter (fun x => bool_decide
                                           (Firestore.rq_status (snd x)
                                            = Firestore.pending) = true)
                          (map_to_list
                             (Firestore.admin_requests (Firestore.db fw)))))
                (Firestore.run Firestore.getPendingAdminRequests fw))
      as (found & Hrows & Hperm & Hsorted).
    + vm_compute. reflexivity.
    + exists found. split; [| by split].
      rewrite <- Hrows. vm_compute. reflexivity.
Defined.

(** C6 as stated fails in the users module: of three pending requests
    created at times 20, 10 and 30 under the ids [ua], [ub] and [uc], the
    query returns all three in the order of the ids, which is an order by
    creation time in neither direction. *)
Lemma pending_requests_of_the_users_module_come_by_id :
  exists rows w',
    Firestore.getPendingAdminRequests Firestore.world_three_pending
    = (Ok rows, w')
    /\ Firestore.rq_id <$> rows = [Some "ua"; Some "ub"; Some "uc"]
    /\ Firestore.rq_createdAt <$> rows = [20; 10; 30]
    /\ ~ Firestore.oldest_first rows
    /\ ~ Firestore.newest_first rows.
Proof.
  eexists _, _. split; [vm_compute; reflexivity |].
  unfold Firestore.oldest_first, Firestore.newest_first. cbn.
  repeat split.
  - intros Hs. apply Sorted_inv in Hs as [_ Hd].
    apply HdRel_inv in Hd. lia.
  - intros Hs. apply Sorted_inv in Hs as [Hs _].
    apply Sorted_inv in Hs as [_ Hd]. apply HdRel_inv in Hd. lia.
Qed.

(** ** Runs of the application: the store moves by accepted writes *)

Module SupabaseRuns.
Import Supabase SupabaseFacts.

Lemma evolves_ret {A} (a : A) : evolves (ret a).
Proof. intros w. apply rtc_refl. Qed.

Lemma evolves_throw {A} e : evolves (@throw World A e).
Proof. intros w. apply rtc_refl. Qed.

Lemma evolves_bind {A B} (c : M World A) (k : A -> M World B) :
  evolves c -> (forall a, evolves (k a)) -> evolves (bind c k).
Proof.
  intros Hc Hk w. unfold bind. specialize (Hc w).
  destruct (c w) as [[a | e] w1]; cbn in *; [| assumption].
  etrans; [exact Hc | apply Hk].
Qed.

Lemma evolves_try_catch {A} (c : M World A) (h : JsError -> M World A) :
  evolves c -> (forall e, evolves (h e)) -> evolves (try_catch c h).
Proof.
  intros Hc Hh w. unfold try_catch. specialize (Hc w).
  destruct (c w) as [[a | e] w1]; cbn in *; [assumption |].
  etrans; [exact Hc | apply Hh].
Qed.

Lemma evolves_try_finally {A} (c : M World A) (f : M World unit) :
  evolves c -> evolves f -> evolves (try_finally c f).
Proof.
  intros Hc Hf w. unfold try_finally. specialize (Hc w).
  destruct (c w) as [r w1]. specialize (Hf w1).
  destruct (f w1) as [[[] | e] w2]; cbn in *; by etrans.
Qed.

Lemma evolves_same_db {A} (c : M World A) :
  (forall w, db (snd (c w)) = db w) -> evolves c.
Proof. intros Hc w. rewrite Hc. apply rtc_refl. Qed.

Lemma evolves_one {A} (c : M World A) :
  (forall w, db (snd (c w)) = db w \/ change (db w) (db (snd (c w)))) ->
  evolves c.
Proof.
  intros Hc w. destruct (Hc w) as [-> | Hchange];
    [apply rtc_refl | by apply rtc_once].
Qed.

Lemma evolves_throw_if e : evolves (@throw_if World e).
Proof. destruct e; [apply evolves_throw | apply evolves_ret]. Qed.

Lemma evolves_toast t : evolves (toast t).
Proof. by apply evolves_same_db. Qed.

Lemma evolves_start r : evolves (start r).
Proof. by apply evolves_same_db. Qed.

Lemma evolves_setProcessingId p : evolves (setProcessingId p).
Proof. by apply evolves_same_db. Qed.

Lemma evolves_useAuth_user : evolves useAuth_user.
Proof. by apply evolves_same_db. Qed.

Lemma evolves_new_Date : evolves new_Date.
Proof. by apply evolves_same_db. Qed.

Lemma evolves_random : evolves random.
Proof. by apply evolves_same_db. Qed.

Lemma evolves_storage c : evolves (storage_from_gallery c).
Proof.
  apply evolves_same_db. intros w. unfold storage_from_gallery.
  destruct c; by prim.
Qed.

Ltac one_change :=
  apply evolves_one; intros w;
  prim; first [ by left | right ].

Lemma evolves_from_user_roles_insert user_id role :
  evolves (from_user_roles_insert user_id role).
Proof.
  unfold from_user_roles_insert. one_change. apply change_roles.
Qed.

Lemma evolves_from_admin_requests_insert user_id email status :
  evolves (from_admin_requests_insert user_id email status).
Proof.
  unfold from_admin_requests_insert. one_change.
  by apply (change_request_inserted _
              (mkAdminRequest (hd "" (entropy w)) user_id email status None
                              (clock w) None)).
Qed.

Lemma evolves_from_admin_requests_update_eq_id status at_ by_ id :
  evolves (from_admin_requests_update_eq_id status at_ by_ id).
Proof.
  unfold from_admin_requests_update_eq_id.
  apply evolves_one; intros w. prim; try by left.
  destruct by_ as [u |]; cbn -[bool_decide]; [case_bool_decide |];
    cbn -[bool_decide]; first [ by left | right ];
    apply change_request_reviewed.
Qed.

Lemma evolves_from_admin_requests_select status :
  evolves (from_admin_requests_select_eq_status_order_created_at status).
Proof.
  apply evolves_same_db. intros w.
  unfold from_admin_requests_select_eq_status_order_created_at,
    bind, send, get, ret.
  cbn -[merge_sort filter]. by destruct (hd false (outages w)).
Qed.

Lemma evolves_functions_invoke_delete_user userId :
  evolves (functions_invoke_delete_user userId).
Proof.
  unfold functions_invoke_delete_user. one_change.
  apply change_account_deleted.
Qed.

Lemma evolves_signUp email password : evolves (signUp email password).
Proof.
  unfold signUp.
  intros w. prim; try apply rtc_refl.
  etrans; [apply rtc_once | apply rtc_refl].
  by apply (change_account_created _ (mkAuthUser (hd "" (entropy w)) email)).
Qed.

Lemma evolves_from_gallery_albums_insert title description :
  evolves (from_gallery_albums_insert title description).
Proof.
  unfold from_gallery_albums_insert. one_change.
  by apply (change_album_inserted _
              (mkAlbum (hd "" (entropy w)) title description None (Some true)
                       (Some 0) (clock w) (clock w))).
Qed.

Lemma evolves_from_gallery_albums_delete_eq_id id :
  evolves (from_gallery_albums_delete_eq_id id).
Proof.
  unfold from_gallery_albums_delete_eq_id. one_change.
  apply change_album_deleted.
Qed.

Lemma evolves_from_gallery_albums_update_eq_id c f id :
  (forall a, ga_id (f a) = ga_id a) ->
  evolves (from_gallery_albums_update_eq_id c f id).
Proof.
  intros Hid. unfold from_gallery_albums_update_eq_id. one_change.
  apply (change_album_updated _
           (fun a => mkAlbum (ga_id (f a)) (ga_title (f a))
                       (ga_description (f a)) (ga_cover_image_url (f a))
                       (ga_is_active (f a)) (ga_display_order (f a))
                       (ga_created_at (f a)) (clock w))).
  intros a. apply Hid.
Qed.

Lemma evolves_from_gallery_images_insert album_id image_url :
  evolves (from_gallery_images_insert album_id image_url).
Proof.
  unfold from_gallery_images_insert. one_change.
  by apply (change_image_inserted _
              (mkGalleryImage (hd "" (entropy w)) album_id image_url None
                              (Some 0) (clock w))).
Qed.

Lemma evolves_from_gallery_images_delete_eq_id id :
  evolves (from_gallery_images_delete_eq_id id).
Proof.
  unfold from_gallery_images_delete_eq_id. one_change.
  apply change_image_deleted.
Qed.

Lemma evolves_update_is_active c b id :
  evolves (from_gallery_albums_update_eq_id c (set_is_active b) id).
Proof. by apply evolves_from_gallery_albums_update_eq_id. Qed.

Lemma evolves_update_cover_image_url c url id :
  evolves (from_gallery_albums_update_eq_id c (set_cover_image_url url) id).
Proof. by apply evolves_from_gallery_albums_update_eq_id. Qed.

Create HintDb evolves.

#[local] Hint Resolve evolves_ret evolves_throw evolves_throw_if evolves_toast
  evolves_start evolves_setProcessingId evolves_useAuth_user evolves_new_Date
  evolves_random evolves_storage evolves_from_user_roles_insert
  evolves_from_admin_requests_insert evolves_from_admin_requests_update_eq_id
  evolves_from_admin_requests_select evolves_functions_invoke_delete_user
  evolves_signUp evolves_from_gallery_albums_insert
  evolves_from_gallery_albums_delete_eq_id evolves_from_gallery_images_insert
  evolves_from_gallery_images_delete_eq_id evolves_update_is_active
  evolves_update_cover_image_url : evolves.

(** A handler is built from calls with sequencing, branches and
    [try]. *)
Ltac evolve :=
  repeat first
    [ solve [auto with evolves]
    | apply evolves_bind; [| intros ?]
    | apply evolves_try_finally
    | apply evolves_try_catch; [| intros ?]
    | match goal with
      | |- evolves (if ?b then _ else _) => destruct b
      | |- evolves (match ?x with _ => _ end) => destruct x
      end ].

Lemma evolves_handleRemoveAdmin adminId adminUserId :
  evolves (handleRemoveAdmin adminId adminUserId).
Proof. unfold handleRemoveAdmin. evolve. Qed.

Lemma evolves_handleApproveRequest requestId userId email :
  evolves (handleApproveRequest requestId userId email).
Proof. unfold handleApproveRequest. evolve. Qed.

Lemma evolves_handleRejectRequest requestId userId email :
  evolves (handleRejectRequest requestId userId email).
Proof. unfold handleRejectRequest. evolve. Qed.

Lemma evolves_usePendingRequests_queryFn : evolves usePendingRequests_queryFn.
Proof. unfold usePendingRequests_queryFn. evolve. Qed.

Lemma evolves_handleSignUp is_email email password confirmPassword :
  evolves (handleSignUp is_email email password confirmPassword).
Proof. unfold handleSignUp. evolve. Qed.

Lemma evolves_createAlbumMutation title description :
  evolves (createAlbumMutation title description).
Proof. unfold createAlbumMutation. evolve. Qed.

Lemma evolves_deleteAlbumMutation albumId :
  evolves (deleteAlbumMutation albumId).
Proof. unfold deleteAlbumMutation. evolve. Qed.

Lemma evolves_toggleAlbumVisibility albumId isActive :
  evolves (toggleAlbumVisibility albumId isActive).
Proof. unfold toggleAlbumVisibility. evolve. Qed.

Lemma evolves_deleteImageMutation selectedAlbum_id image :
  evolves (deleteImageMutation selectedAlbum_id image).
Proof. unfold deleteImageMutation. evolve. Qed.

Lemma evolves_upload_one getPublicUrl selectedAlbum file_name :
  evolves (upload_one getPublicUrl selectedAlbum file_name).
Proof. unfold upload_one. evolve. Qed.

Lemma evolves_for_of {A} (body : A -> M World unit) items :
  (forall x, evolves (body x)) -> evolves (for_of body items).
Proof.
  intros Hbody. induction items as [| x rest IH]; cbn; [apply evolves_ret |].
  apply evolves_bind; [apply Hbody | intros _; exact IH].
Qed.

Lemma evolves_handleFileUpload getPublicUrl files selectedAlbum :
  evolves (handleFileUpload getPublicUrl files selectedAlbum).
Proof.
  unfold handleFileUpload.
  destruct files as [files |], selectedAlbum as [album |]; evolve.
  apply evolves_for_of. intros x. apply evolves_upload_one.
Qed.

(** Every step of the application moves the store by accepted writes. *)
Lemma step_changes w w' : step w w' -> rtc change (db w) (db w').
Proof.
  destruct 1; unfold run.
  - apply rtc_refl.
  - apply rtc_once, change_roles.
  - apply evolves_handleSignUp.
  - apply evolves_usePendingRequests_queryFn.
  - apply evolves_handleApproveRequest.
  - apply evolves_handleRejectRequest.
  - apply evolves_handleRemoveAdmin.
  - apply evolves_createAlbumMutation.
  - apply evolves_deleteAlbumMutation.
  - apply evolves_toggleAlbumVisibility.
  - apply evolves_deleteImageMutation.
  - apply evolves_handleFileUpload.
Qed.

Lemma steps_change w w' : rtc step w w' -> rtc change (db w) (db w').
Proof.
  induction 1 as [| w w1 w2 Hstep _ IH]; [apply rtc_refl |].
  etrans; [by apply step_changes | exact IH].
Qed.

End SupabaseRuns.

(** ** What every reachable store satisfies *)

Module SupabaseInvariants.
Import Supabase SupabaseFacts SupabaseRuns.

(** *** One request per user *)

Lemma one_request_per_user_change d d' :
  change d d' -> one_request_per_user d -> one_request_per_user d'.
Proof.
  unfold one_request_per_user.
  destruct 1 as [d f | d a Hnew | d u | d r Hid Huser Hacc
                | d status at_ by_ id | d a Hid | d id | d f id Hf
                | d i Hid Hfk | d id]; cbn; try done.
  - (* the account goes, and its request with it *)
    intros Hnodup. unfold on_delete_auth_user.
    rewrite <- list_fmap_compose.
    rewrite (list_fmap_ext _ ar_user_id).
    2: { intros n x _. cbn. by case_bool_decide. }
    eapply sublist_NoDup; [exact Hnodup |].
    apply fmap_sublist, sublist_filter.
  - (* a request is inserted for a user that has none *)
    intros Hnodup. rewrite fmap_app. apply NoDup_app.
    split; [assumption |]. split; [| apply NoDup_singleton].
    intros u Hu Hin. apply list_elem_of_singleton in Hin as ->.
    apply Huser. apply Exists_exists.
    apply list_elem_of_fmap in Hu as (x & Hx & Hin). by exists x.
  - (* a review keeps the user of the request *)
    intros Hnodup. rewrite <- list_fmap_compose.
    rewrite (list_fmap_ext _ ar_user_id);
      [assumption | intros n x _; cbn; by case_bool_decide].
Qed.

Lemma one_request_per_user_changes d d' :
  rtc change d d' -> one_request_per_user d -> one_request_per_user d'.
Proof.
  induction 1 as [| d d1 d2 Hchange _ IH]; [done |].
  intros Hd. by apply IH, (one_request_per_user_change d).
Qed.

(** With one request per user, a user has at most one request of any
    kind. *)
Lemma at_most_one_of {A B} (f : A -> B) (P : A -> Prop)
    `{!forall x, Decision (P x)} (l : list A) :
  NoDup (f <$> l) ->
  (forall x y, P x -> P y -> f x = f y) ->
  (length (filter P l) <= 1)%nat.
Proof.
  intros Hnodup Hsame. induction l as [| x l IH]; [cbn; lia |].
  rewrite fmap_cons in Hnodup. apply NoDup_cons in Hnodup as [Hx Hnodup].
  rewrite filter_cons. destruct (decide (P x)) as [HPx |]; [| by apply IH].
  rewrite filter_none; [cbn; lia |].
  rewrite Exists_exists. intros (y & Hy & HPy).
  apply Hx. rewrite (Hsame x y HPx HPy).
  apply list_elem_of_fmap. by exists y.
Qed.

(** *** Every image has its album *)

Lemma images_have_albums_change d d' :
  change d d' -> images_have_albums d -> images_have_albums d'.
Proof.
  unfold images_have_albums.
  destruct 1 as [d f | d a Hnew | d u | d r Hid Huser Hacc
                | d status at_ by_ id | d a Hid | d id | d f id Hf
                | d i Hid Hfk | d id]; cbn; try done.
  - (* a new album *)
    intros Hall. eapply Forall_impl; [exact Hall |].
    intros i Hi. cbn. rewrite Exists_app. by left.
  - (* an album goes, and its images with it *)
    rewrite !Forall_forall. intros Hall i Hi.
    apply list_elem_of_filter in Hi as [Hother Hi].
    specialize (Hall i Hi). rewrite Exists_exists in *.
    destruct Hall as (a & Ha & Hid). exists a. split; [| assumption].
    apply list_elem_of_filter. split; [congruence | assumption].
  - (* an update keeps the id of the album *)
    intros Hall. eapply Forall_impl; [exact Hall |].
    intros i Hi. cbn in *. rewrite Exists_exists in *.
    destruct Hi as (a & Ha & Hid).
    exists (if bool_decide (ga_id a = id) then f a else a). split.
    + apply list_elem_of_fmap. by exists a.
    + case_bool_decide; [by rewrite Hf | assumption].
  - (* a new image names an album that exists *)
    intros Hall. apply Forall_app. split; [assumption |].
    by apply Forall_singleton.
  - (* an image goes *)
    rewrite !Forall_forall. intros Hall i Hi.
    apply list_elem_of_filter in Hi as [_ Hi]. by apply Hall.
Qed.

Lemma images_have_albums_changes d d' :
  rtc change d d' -> images_have_albums d -> images_have_albums d'.
Proof.
  induction 1 as [| d d1 d2 Hchange _ IH]; [done |].
  intros Hd. by apply IH, (images_have_albums_change d).
Qed.

End SupabaseInvariants.

(** ** Runs of the users module *)

Module FirestoreRuns.
Import Firestore FirestoreFacts.

Section Keeps.
Variable I : Db -> Prop.

Lemma keeps_ret {A} (a : A) : keeps I (ret a).
Proof. by intros w. Qed.

Lemma keeps_throw {A} e : keeps I (@throw World A e).
Proof. by intros w. Qed.

Lemma keeps_bind {A B} (c : M World A) (k : A -> M World B) :
  keeps I c -> (forall a, keeps I (k a)) -> keeps I (bind c k).
Proof.
  intros Hc Hk w Hw. unfold bind. specialize (Hc w Hw).
  destruct (c w) as [[a | e] w1]; cbn in *; [| assumption].
  by apply Hk.
Qed.

Lemma keeps_try_catch {A} (c : M World A) (h : JsError -> M World A) :
  keeps I c -> (forall e, keeps I (h e)) -> keeps I (try_catch c h).
Proof.
  intros Hc Hh w Hw. unfold try_catch. specialize (Hc w Hw).
  destruct (c w) as [[a | e] w1]; cbn in *; [assumption |].
  by apply Hh.
Qed.

Lemma keeps_logged {A} (c : M World A) : keeps I c -> keeps I (logged c).
Proof. intros Hc w. rewrite logged_id. apply Hc. Qed.

Lemma keeps_serverTimestamp : keeps I serverTimestamp.
Proof. by intros w. Qed.

Lemma keeps_getDoc {D} (c : Collection D) id : keeps I (getDoc c id).
Proof.
  intros w Hw. unfold getDoc, bind, send, get, ret. cbn.
  by destruct (hd false (outages w)).
Qed.

Lemma keeps_getDocs {D} (c : Collection D) where_ :
  keeps I (getDocs c where_).
Proof.
  intros w Hw. unfold getDocs, bind, send, get, ret. cbn -[merge_sort filter].
  by destruct (hd false (outages w)).
Qed.

Lemma keeps_setDoc {D} (c : Collection D) id data :
  (forall d, I d -> I (put c (<[id := data]> (docs c d)) d)) ->
  keeps I (setDoc c id data).
Proof.
  intros Hput w Hw.
  destruct (setDoc_cases c id data w) as [(_ & ->) | (e & ->)]; cbn; auto.
Qed.

Lemma keeps_updateDoc {D} (c : Collection D) id merge :
  (forall d old, I d -> docs c d !! id = Some old ->
                 I (put c (<[id := merge old]> (docs c d)) d)) ->
  keeps I (updateDoc c id merge).
Proof.
  intros Hput w Hw.
  destruct (updateDoc_cases c id merge w)
    as [(old & _ & Hold & ->) | (e & ->)]; cbn; eauto.
Qed.

End Keeps.

(** *** Requests are filed under their user *)

Lemma filed_request_set userId r d :
  rq_userId r = userId ->
  filed_by_user d ->
  filed_by_user (put ADMIN_REQUESTS_COLLECTION
                     (<[userId := r]> (admin_requests d)) d).
Proof.
  intros Hr Hd k x. cbn. destruct (decide (userId = k)) as [-> | Hne].
  - rewrite lookup_insert_eq. by intros [= <-].
  - rewrite lookup_insert_ne by assumption. apply Hd.
Qed.

Create HintDb keeps.

#[local] Hint Resolve keeps_ret keeps_throw keeps_serverTimestamp keeps_getDoc
  keeps_getDocs : keeps.

Ltac keep :=
  repeat first
    [ solve [auto with keeps]
    | apply keeps_logged
    | apply keeps_setDoc; intros ? ?
    | apply keeps_updateDoc; intros ? ? ? ?
    | apply keeps_bind; [| intros ?]
    | apply keeps_try_catch; [| intros ?]
    | match goal with
      | |- keeps _ (if ?b then _ else _) => destruct b
      | |- keeps _ (match ?x with _ => _ end) => destruct x
      end ].

Lemma keeps_setUserRole userId role assignedBy :
  keeps filed_by_user (setUserRole userId role assignedBy).
Proof. unfold setUserRole. keep. Qed.

Lemma keeps_getAllAdmins : keeps filed_by_user getAllAdmins.
Proof. unfold getAllAdmins. keep. Qed.

#[local] Hint Resolve keeps_setUserRole keeps_getAllAdmins : keeps.

Lemma keeps_createUserProfile uid_ data :
  keeps filed_by_user (createUserProfile uid_ data).
Proof. unfold createUserProfile. keep. Qed.

Lemma keeps_updateUserProfile uid_ data :
  keeps filed_by_user (updateUserProfile uid_ data).
Proof. unfold updateUserProfile. keep. Qed.

Lemma keeps_getUserRole userId : keeps filed_by_user (getUserRole userId).
Proof. unfold getUserRole. keep. Qed.

#[local] Hint Resolve keeps_getUserRole : keeps.

Lemma keeps_isUserAdmin userId : keeps filed_by_user (isUserAdmin userId).
Proof. unfold isUserAdmin. keep. Qed.

Lemma keeps_createAdminRequest userId email_ :
  keeps filed_by_user (createAdminRequest userId email_).
Proof. unfold createAdminRequest. keep. by apply filed_request_set. Qed.

Lemma keeps_updateAdminRequest userId status reviewedBy :
  keeps filed_by_user (updateAdminRequest userId status reviewedBy).
Proof.
  unfold updateAdminRequest. keep.
  apply filed_request_set; [| assumption]. cbn.
  match goal with Hd : filed_by_user _ |- _ => by eapply Hd end.
Qed.

#[local] Hint Resolve keeps_updateAdminRequest : keeps.

Lemma keeps_removeUserRole userId :
  keeps filed_by_user (removeUserRole userId).
Proof. unfold removeUserRole. keep. Qed.

(** Every step of the module keeps the requests filed under their
    user. *)
Lemma step_filed w w' :
  step w w' -> filed_by_user (db w) -> filed_by_user (db w').
Proof.
  destruct 1; unfold run; try done.
  - apply keeps_createUserProfile.
  - unfold getUserProfile. by apply keeps_logged, keeps_getDoc.
  - apply keeps_updateUserProfile.
  - apply keeps_getUserRole.
  - apply keeps_isUserAdmin.
  - apply keeps_setUserRole.
  - apply keeps_createAdminRequest.
  - unfold getAdminRequestStatus. keep.
  - unfold getPendingAdminRequests. keep.
  - apply keeps_updateAdminRequest.
  - apply keeps_getAllAdmins.
  - apply keeps_removeUserRole.
  - unfold approveAdminRequest. keep.
  - unfold denyAdminRequest. keep.
  - unfold getUsersByRole. keep.
  - unfold createSuperAdmin. keep.
Qed.

Lemma reachable_filed w : reachable w -> filed_by_user (db w).
Proof.
  intros (w0 & Hinit & Hsteps).
  assert (Hw0 : filed_by_user (db w0)).
  { intros k r. unfold initial in Hinit. by rewrite Hinit, lookup_empty. }
  clear Hinit. induction Hsteps as [| w1 w2 w3 Hstep _ IH]; [assumption |].
  by apply IH, (step_filed w1).
Qed.

End FirestoreRuns.

(** ** The invariants of the stores *)

Section Invariants.
Import Supabase SupabaseFacts SupabaseRuns SupabaseInvariants.

Lemma step_one_request_per_user w w' :
  step w w' -> one_request_per_user (db w) -> one_request_per_user (db w').
Proof.
  intros Hstep. apply one_request_per_user_changes. by apply step_changes.
Qed.

Lemma reachable_one_request_per_user w :
  reachable w -> one_request_per_user (db w).
Proof.
  intros (w0 & (Hinit & _) & Hsteps).
  apply (one_request_per_user_changes (db w0)); [by apply steps_change |].
  unfold one_request_per_user. rewrite Hinit. apply NoDup_nil_2.
Qed.

Lemma step_images_have_albums w w' :
  step w w' -> images_have_albums (db w) -> images_have_albums (db w').
Proof.
  intros Hstep. apply images_have_albums_changes. by apply step_changes.
Qed.

Lemma reachable_images_have_albums w :
  reachable w -> images_have_albums (db w).
Proof.
  intros (w0 & (_ & _ & Hinit) & Hsteps).
  apply (images_have_albums_changes (db w0)); [by apply steps_change |].
  unfold images_have_albums. rewrite Hinit. apply Forall_nil_2.
Qed.

(** An administrator whose call is served deletes the album and its
    images. *)
Lemma deleteAlbumMutation_served w albumId :
  is_admin w = true ->
  served w ->
  Exists (fun a => ga_id a = albumId) (gallery_albums (db w)) ->
  db (run (deleteAlbumMutation albumId) w)
  = with_gallery_images (filter (fun i => gi_album_id i <> albumId))
      (with_gallery_albums (filter (fun a => ga_id a <> albumId)) (db w)).
Proof.
  unfold served, is_admin, run. intros Hadmin Hserved Halbum.
  unfold deleteAlbumMutation, from_gallery_albums_delete_eq_id, try_catch,
    start, toast.
  prim; congruence.
Qed.

End Invariants.

(** C5.  Each user has at most one admin request, hence at most one
    pending request.  On the relational backend every step of the
    application keeps the user ids of the requests distinct, so in every
    reachable state a user has at most one request and at most one pending
    request.  In the users module every step keeps each request document
    filed under the id of its user, so in every reachable state two request
    documents of one user are the same document. *)
Theorem every_user_has_at_most_one_request :
  (forall w w',
      Supabase.step w w' ->
      Supabase.one_request_per_user (Supabase.db w) ->
      Supabase.one_request_per_user (Supabase.db w'))
  /\ (forall w,
        Supabase.reachable w ->
        Supabase.one_request_per_user (Supabase.db w)
        /\ forall u,
            (length (Supabase.requests_of u (Supabase.db w)) <= 1)%nat
            /\ (length (Supabase.pending_requests_of u (Supabase.db w)) <= 1)%nat)
  /\ (forall w w',
        Firestore.step w w' ->
        Firestore.filed_by_user (Firestore.db w) ->
        Firestore.filed_by_user (Firestore.db w'))
  /\ (forall w,
        Firestore.reachable w ->
        forall k1 k2 r1 r2,
          Firestore.admin_requests (Firestore.db w) !! k1 = Some r1 ->
          Firestore.admin_requests (Firestore.db w) !! k2 = Some r2 ->
          Firestore.rq_userId r1 = Firestore.rq_userId r2 ->
          k1 = k2 /\ r1 = r2).
Proof.
  split; [| split; [| split]].
  - apply step_one_request_per_user.
  - intros w Hw. pose proof (reachable_one_request_per_user w Hw) as Hone.
    split; [exact Hone |]. intros u. split.
    + apply (SupabaseInvariants.at_most_one_of Supabase.ar_user_id);
        [exact Hone | congruence].
    + apply (SupabaseInvariants.at_most_one_of Supabase.ar_user_id);
        [exact Hone | intros x y [-> _] [-> _]; reflexivity].
  - apply FirestoreRuns.step_filed.
  - intros w Hw k1 k2 r1 r2 H1 H2 Hsame.
    pose proof (FirestoreRuns.reachable_filed w Hw) as Hfiled.
    assert (k1 = k2) as ->.
    { rewrite <- (Hfiled k1 r1 H1), <- (Hfiled k2 r2 H2). exact Hsame. }
    split; [reflexivity | congruence].
Qed.

(** C7.  Deleting an album deletes its images, and no image is ever left
    without its album.  When an administrator deletes an album and the call
    is served, no album and no image of that album id remains and the
    images of the other albums stay; every step
    of the application keeps every image with an album that exists, so this
    holds in every reachable state. *)
Theorem album_deletion_cascades_to_its_images :
  (forall w albumId,
      Supabase.is_admin w = true ->
      Supabase.served w ->
      Exists (fun a => Supabase.ga_id a = albumId)
             (Supabase.gallery_albums (Supabase.db w)) ->
      let w' := Supabase.run (Supabase.deleteAlbumMutation albumId) w in
      (forall a, a ∈ Supabase.gallery_albums (Supabase.db w') ->
                 Supabase.ga_id a <> albumId)
      /\ (forall i, i ∈ Supabase.gallery_images (Supabase.db w') ->
                    Supabase.gi_album_id i <> albumId)
      /\ (forall i, i ∈ Supabase.gallery_images (Supabase.db w) ->
                    Supabase.gi_album_id i <> albumId ->
                    i ∈ Supabase.gallery_images (Supabase.db w')))
  /\ (forall w w',
        Supabase.step w w' ->
        Supabase.images_have_albums (Supabase.db w) ->
        Supabase.images_have_albums (Supabase.db w'))
  /\ (forall w,
        Supabase.reachable w ->
        forall i, i ∈ Supabase.gallery_images (Supabase.db w) ->
                  exists a, a ∈ Supabase.gallery_albums (Supabase.db w)
                            /\ Supabase.ga_id a = Supabase.gi_album_id i).
Proof.
  split; [| split].
  - intros w albumId Hadmin Hserved Halbum w'. subst w'.
    rewrite (deleteAlbumMutation_served w albumId Hadmin Hserved Halbum).
    cbn.
    split; [| split].
    + intros a Ha. by apply list_elem_of_filter in Ha as [Hne _].
    + intros i Hi. by apply list_elem_of_filter in Hi as [Hne _].
    + intros i Hi Hne. by apply list_elem_of_filter.
  - apply step_images_have_albums.
  - intros w Hw i Hi.
    pose proof (reachable_images_have_albums w Hw) as Hall.
    unfold Supabase.images_have_albums in Hall.
    rewrite Forall_forall in Hall. specialize (Hall i Hi).
    by apply Exists_exists in Hall.
Qed.

Lemma every_user_has_at_most_one_request_witness :
  let w := Supabase.run
             (Supabase.handleSignUp (fun _ => true) "ann@church.org"
                                    "secret1" "secret1")
             Supabase.world_initial in
  let fw := Firestore.world_one_request in
  (Supabase.admin_requests (Supabase.db w)
   = [Supabase.requested "q1" "u1" "ann@church.org" 100]
   /\ Supabase.one_request_per_user (Supabase.db w)
   /\ forall u,
       (length (Supabase.requests_of u (Supabase.db w)) <= 1)%nat
       /\ (length (Supabase.pending_requests_of u (Supabase.db w)) <= 1)%nat)
  /\ (is_Some (Firestore.admin_requests (Firestore.db fw) !! "u1")
      /\ forall k1 k2 r1 r2,
          Firestore.admin_requests (Firestore.db fw) !! k1 = Some r1 ->
          Firestore.admin_requests (Firestore.db fw) !! k2 = Some r2 ->
          Firestore.rq_userId r1 = Firestore.rq_userId r2 ->
          k1 = k2 /\ r1 = r2).
Proof.
  intros w fw. split.
  - split; [vm_compute; reflexivity |].
    apply (proj1 (proj2 every_user_has_at_most_one_request) w).
    exists Supabase.world_initial. split.
    + by repeat split.
    + eapply rtc_l; [apply Supabase.step_handleSignUp | apply rtc_refl].
  - split; [vm_compute; by eexists |].
    apply (proj2 (proj2 (proj2 every_user_has_at_most_one_request)) fw).
    exists Firestore.world_empty. split.
    + reflexivity.
    + eapply rtc_l; [apply Firestore.step_createAdminRequest | apply rtc_refl].
Defined.

Lemma album_deletion_cascades_to_its_images_witness :
  let w := Supabase.world_gallery in
  let w' := Supabase.run (Supabase.deleteAlbumMutation "al1") w in
  (forall a, a ∈ Supabase.gallery_albums (Supabase.db w') ->
             Supabase.ga_id a <> "al1")
  /\ (forall i, i ∈ Supabase.gallery_images (Supabase.db w') ->
                Supabase.gi_album_id i <> "al1")
  /\ (forall i, i ∈ Supabase.gallery_images (Supabase.db w) ->
                Supabase.gi_album_id i <> "al1" ->
                i ∈ Supabase.gallery_images (Supabase.db w')).
Proof.
  intros w w'.
  apply (proj1 album_deletion_cascades_to_its_images w "al1").
  - vm_compute. reflexivity.
  - reflexivity.
  - by apply Exists_cons_hd.
Defined.

(** * More properties

    ** The users module: reading and writing roles *)

Section UsersModuleFacts.
Import Firestore FirestoreFacts UsersModule.

Lemma getDoc_cases {D} (c : Collection D) id w :
  (served w
   /\ getDoc c id w = (Ok (docs c (db w) !! id),
                       sent op_getDoc (path c) id (db w) w))
  \/ (~ served w
      /\ getDoc c id w = (Throw (FirebaseError "unavailable"),
                          sent op_getDoc (path c) id (db w) w)).
Proof.
  unfold served, getDoc, bind, send, get, ret, sent.
  destruct (hd false (outages w)) eqn:Hs; cbn.
  - right. split; [discriminate | by destruct w].
  - left. split; [reflexivity | by destruct w].
Qed.

Lemma getDocs_cases {D} (c : Collection D) where_ w :
  (served w
   /\ getDocs c where_ w
      = (Ok (merge_sort by_id
               (filter (fun x => where_ (snd x) = true)
                       (map_to_list (docs c (db w))))),
         sent op_getDocs (path c) "" (db w) w))
  \/ (~ served w
      /\ getDocs c where_ w
         = (Throw (FirebaseError "unavailable"),
            sent op_getDocs (path c) "" (db w) w)).
Proof.
  unfold served, getDocs, bind, send, get, ret, sent.
  destruct (hd false (outages w)) eqn:Hs; cbn -[merge_sort filter].
  - right. split; [discriminate | by destruct w].
  - left. split; [reflexivity | by destruct w].
Qed.

Lemma getUserRole_cases userId w :
  (served w
   /\ getUserRole userId w
      = (Ok (rd_role <$> user_roles (db w) !! userId),
         sent op_getDoc "user_roles" userId (db w) w))
  \/ (~ served w
      /\ getUserRole userId w
         = (Throw (FirebaseError "unavailable"),
            sent op_getDoc "user_roles" userId (db w) w)).
Proof.
  unfold getUserRole. rewrite logged_id. unfold bind.
  destruct (getDoc_cases USER_ROLES_COLLECTION userId w)
    as [(Hs & ->) | (Hs & ->)]; [left | right]; by split.
Qed.

(** [isUserAdmin] catches what [getUserRole] throws and answers no. *)
Lemma isUserAdmin_eq userId w :
  isUserAdmin userId w
  = (Ok (if decide (served w)
         then bool_decide
                (rd_role <$> user_roles (db w) !! userId = Some admin
                 \/ rd_role <$> user_roles (db w) !! userId
                    = Some super_admin)
         else false),
     sent op_getDoc "user_roles" userId (db w) w).
Proof.
  unfold isUserAdmin, try_catch, bind.
  destruct (getUserRole_cases userId w) as [(Hs & ->) | (Hs & ->)];
    cbn; by destruct (decide (served w)).
Qed.

Lemma setUserRole_inv userId role assignedBy w w' :
  setUserRole userId role assignedBy w = (Ok tt, w') ->
  w' = sent op_setDoc "user_roles" userId
         (mkDb (users (db w))
               (<[userId := mkUserRoleDoc userId role (Some assignedBy)
                                           (clock w)]> (user_roles (db w)))
               (admin_requests (db w)))
         w.
Proof.
  rewrite setUserRole_eq.
  match goal with |- setDoc ?c ?i ?x ?w1 = _ -> _ =>
    destruct (setDoc_cases c i x w1) as [(Hs1 & ->) | (e & ->)]
  end; [| discriminate].
  by intros [= <-].
Qed.

Lemma removeUserRole_eq userId w :
  removeUserRole userId w
  = updateDoc USER_ROLES_COLLECTION userId
      (fun old => mkUserRoleDoc (rd_userId old) user (rd_assignedBy old)
                                (rd_assignedAt old)) w.
Proof. unfold removeUserRole. by rewrite logged_id. Qed.

Lemma updateUserProfile_eq uid_ data w :
  updateUserProfile uid_ data w
  = updateDoc USERS_COLLECTION uid_ (merge_profile data (clock w)) w.
Proof. unfold updateUserProfile. by rewrite logged_id. Qed.

Lemma or_old_from_option {A} (new old : option A) :
  or_old new old = from_option Some old new.
Proof. by destruct new. Qed.

(** An update of a document that is not there fails and writes
    nothing. *)
Lemma updateDoc_absent {D} (c : Collection D) id merge w :
  docs c (db w) !! id = None ->
  exists e,
    updateDoc c id merge w
    = (Throw e, sent op_updateDoc (path c) id (db w) w).
Proof.
  intros Hnone.
  destruct (updateDoc_cases c id merge w)
    as [(old & _ & Hold & _) | (e & ->)]; [congruence | by exists e].
Qed.

End UsersModuleFacts.

Section UsersModuleRoles.
Import Firestore FirestoreFacts UsersModule.

(** X1.  [isUserAdmin] never throws: whatever happens to its read, it
    answers, and the answer is yes exactly when the read was served and the
    role document of the user says admin or super_admin.  A lost read is an
    answer of no. *)
Theorem isUserAdmin_never_throws userId w :
  exists b,
    isUserAdmin userId w
    = (Ok b, sent op_getDoc "user_roles" userId (db w) w)
    /\ (b = true <->
        served w
        /\ exists r, user_roles (db w) !! userId = Some r
                     /\ (rd_role r = admin \/ rd_role r = super_admin)).
Proof.
  rewrite isUserAdmin_eq. eexists. split; [reflexivity |].
  destruct (decide (served w)) as [Hs | Hs].
  - rewrite bool_decide_eq_true. split.
    + intros Hrole. split; [assumption |].
      destruct (user_roles (db w) !! userId) as [r |]; cbn in Hrole.
      * exists r. split; [reflexivity |].
        destruct Hrole as [[=] | [=]]; auto.
      * by destruct Hrole.
    + intros (_ & r & -> & Hrole). cbn. destruct Hrole as [-> | ->]; auto.
  - split; [discriminate |]. by intros [? _].
Qed.

(** X2.  What [setUserRole] writes is what [getUserRole] reads: after
    [setUserRole userId role assignedBy] has returned, a served
    [getUserRole userId] gives [role] and [isUserAdmin userId] says whether
    that role is admin or super_admin; the role documents of the other
    users, the profiles and the requests are as before.  [createSuperAdmin]
    is such a write, of super_admin assigned by "manual". *)
Theorem getUserRole_after_setUserRole userId w :
  (forall role assignedBy w',
      setUserRole userId role assignedBy w = (Ok tt, w') ->
      served w' ->
      fst (getUserRole userId w') = Ok (Some role)
      /\ fst (isUserAdmin userId w')
         = Ok (bool_decide (role = admin \/ role = super_admin))
      /\ (forall u, u <> userId ->
                    user_roles (db w') !! u = user_roles (db w) !! u)
      /\ users (db w') = users (db w)
      /\ admin_requests (db w') = admin_requests (db w))
  /\ (forall w',
        createSuperAdmin userId w = (Ok tt, w') ->
        user_roles (db w') !! userId
        = Some (mkUserRoleDoc userId super_admin (Some "manual") (clock w))
        /\ (served w' -> fst (isUserAdmin userId w') = Ok true)).
Proof.
  split.
  - intros role assignedBy w' Hset Hs. apply setUserRole_inv in Hset.
    subst w'. split; [| split; [| split; [| by split]]].
    + match goal with |- context [getUserRole _ ?w1] =>
        destruct (getUserRole_cases userId w1) as [(_ & ->) | (Hlost & _)]
      end; [| contradiction].
      cbn. by rewrite lookup_insert_eq.
    + rewrite isUserAdmin_eq. cbn. rewrite lookup_insert_eq. cbn.
      destruct (decide _) as [_ | Hlost]; [| contradiction].
      f_equal. apply bool_decide_ext.
      split; (intros [H | H]; [left | right]; congruence).
    + intros u Hu. cbn. by rewrite lookup_insert_ne.
  - intros w'. unfold createSuperAdmin. rewrite logged_id. intros Hset.
    apply setUserRole_inv in Hset. subst w'. cbn.
    split; [by rewrite lookup_insert_eq |].
    intros Hs. rewrite isUserAdmin_eq. cbn. rewrite lookup_insert_eq. cbn.
    by destruct (decide _) as [_ | Hlost].
Qed.

Lemma getUserRole_after_setUserRole_witness :
  let w := world_empty in
  let w' := run (setUserRole "u1" admin "a1") w in
  fst (getUserRole "u1" w') = Ok (Some admin)
  /\ fst (isUserAdmin "u1" w')
     = Ok (bool_decide (admin = admin \/ admin = super_admin))
  /\ (forall u, u <> "u1" ->
                user_roles (db w') !! u = user_roles (db w) !! u)
  /\ users (db w') = users (db w)
  /\ admin_requests (db w') = admin_requests (db w).
Proof.
  intros w w'.
  apply (proj1 (getUserRole_after_setUserRole "u1" w) admin "a1" w').
  - vm_compute. reflexivity.
  - reflexivity.
Defined.

(** X3.  The three updates of the module need their document: for a user
    without a role document [removeUserRole] throws, for a user without a
    request [updateAdminRequest] throws whatever the status (so approving
    grants no role), and for a user without a profile [updateUserProfile]
    throws.  Each sends its one update and leaves the store as it was: none
    of them creates the document. *)
Theorem updating_a_missing_document_fails userId w :
  (user_roles (db w) !! userId = None ->
   exists e,
     removeUserRole userId w
     = (Throw e, sent op_updateDoc "user_roles" userId (db w) w))
  /\ (admin_requests (db w) !! userId = None ->
      forall status reviewedBy,
      exists e,
        updateAdminRequest userId status reviewedBy w
        = (Throw e, sent op_updateDoc "admin_requests" userId (db w) w))
  /\ (users (db w) !! userId = None ->
      forall data,
      exists e,
        updateUserProfile userId data w
        = (Throw e, sent op_updateDoc "users" userId (db w) w)).
Proof.
  split; [| split].
  - intros Hnone. rewrite removeUserRole_eq.
    by apply (updateDoc_absent USER_ROLES_COLLECTION).
  - intros Hnone status reviewedBy. rewrite updateAdminRequest_eq.
    destruct (updateDoc_absent ADMIN_REQUESTS_COLLECTION userId
                (review status reviewedBy (clock w)) w Hnone) as [e ->].
    by exists e.
  - intros Hnone data. rewrite updateUserProfile_eq.
    by apply (updateDoc_absent USERS_COLLECTION).
Qed.

Lemma updating_a_missing_document_fails_witness :
  exists e,
    updateAdminRequest "u1" approved "a1" world_empty
    = (Throw e,
       sent op_updateDoc "admin_requests" "u1" (db world_empty) world_empty).
Proof.
  apply (proj1 (proj2 (updating_a_missing_document_fails "u1" world_empty))).
  reflexivity.
Defined.

(** X4.  [removeUserRole] demotes and deletes nothing: when it returns,
    the role document of the user is still there with role user and its
    other fields unchanged, [isUserAdmin] says no, and the other role
    documents, the profiles and the requests (an approved request stays
    approved) are as before. *)
Theorem removeUserRole_demotes userId w w' :
  removeUserRole userId w = (Ok tt, w') ->
  exists old,
    user_roles (db w) !! userId = Some old
    /\ user_roles (db w') !! userId
       = Some (mkUserRoleDoc (rd_userId old) user (rd_assignedBy old)
                             (rd_assignedAt old))
    /\ (forall u, u <> userId ->
                  user_roles (db w') !! u = user_roles (db w) !! u)
    /\ users (db w') = users (db w)
    /\ admin_requests (db w') = admin_requests (db w)
    /\ fst (isUserAdmin userId w') = Ok false.
Proof.
  rewrite removeUserRole_eq.
  match goal with |- context [updateDoc ?c ?i ?m ?w1] =>
    destruct (updateDoc_cases c i m w1) as [(old & _ & Hold & ->) | (e & ->)]
  end; [| discriminate].
  intros [= <-]. exists old. cbn in Hold. cbn.
  split; [assumption |]. split; [by rewrite lookup_insert_eq |].
  split; [by intros u Hu; rewrite lookup_insert_ne |].
  split; [reflexivity |]. split; [reflexivity |].
  rewrite isUserAdmin_eq. cbn. rewrite lookup_insert_eq. cbn.
  f_equal. destruct (decide _); [| reflexivity].
  apply bool_decide_eq_false. by intros [[=] | [=]].
Qed.

Lemma removeUserRole_demotes_witness :
  let w := world_pending in
  let w' := run (removeUserRole "a1") w in
  exists old,
    user_roles (db w) !! "a1" = Some old
    /\ user_roles (db w') !! "a1"
       = Some (mkUserRoleDoc (rd_userId old) user (rd_assignedBy old)
                             (rd_assignedAt old))
    /\ (forall u, u <> "a1" ->
                  user_roles (db w') !! u = user_roles (db w) !! u)
    /\ users (db w') = users (db w)
    /\ admin_requests (db w') = admin_requests (db w)
    /\ fst (isUserAdmin "a1" w') = Ok false.
Proof.
  intros w w'. apply (removeUserRole_demotes "a1" w w').
  vm_compute. reflexivity.
Defined.

End UsersModuleRoles.

(** ** The users module: profiles and requests *)

Section UsersModuleDocuments.
Import Firestore FirestoreFacts UsersModule.

(** Where [createUserProfile] leaves the profiles and the requests when it
    returns. *)
Lemma createUserProfile_inv uid_ data w w' :
  createUserProfile uid_ data w = (Ok tt, w') ->
  users (db w') = <[uid_ := new_profile uid_ data (clock w)]> (users (db w))
  /\ admin_requests (db w') = admin_requests (db w).
Proof.
  rewrite createUserProfile_eq.
  destruct (setDoc_cases USERS_COLLECTION uid_
              (new_profile uid_ data (clock w)) w)
    as [(Hs1 & ->) | (e & ->)]; [| discriminate].
  match goal with |- context [getAllAdmins ?w1] =>
    destruct (getAllAdmins_cases w1) as [(Hs2 & ->) | (e & ->)]
  end; [| discriminate].
  case_bool_decide.
  - rewrite setUserRole_eq.
    match goal with |- setDoc ?c ?i ?x ?w1 = _ -> _ =>
      destruct (setDoc_cases c i x w1) as [(Hs3 & ->) | (e & ->)]
    end; [| discriminate].
    by intros [= <-].
  - by intros [= <-].
Qed.

(** X5.  The first-user rule counts administrators, not users: once the
    only administrator has been demoted with [removeUserRole], the next
    profile that [createUserProfile] creates, whoever it belongs to, is
    given the super_admin role by the system. *)
Theorem createUserProfile_after_the_last_admin_left a uid_ data w w1 w' :
  (forall k r, user_roles (db w) !! k = Some r ->
               grants_admin r = true -> k = a) ->
  removeUserRole a w = (Ok tt, w1) ->
  createUserProfile uid_ data w1 = (Ok tt, w') ->
  user_roles (db w') !! uid_
  = Some (mkUserRoleDoc uid_ super_admin (Some "system") (clock w1)).
Proof.
  intros Honly Hremove Hcreate.
  assert (Hnone : no_admins (db w1)).
  { revert Hremove. rewrite removeUserRole_eq.
    match goal with |- context [updateDoc ?c ?i ?m ?w0] =>
      destruct (updateDoc_cases c i m w0)
        as [(old & _ & Hold & ->) | (e & ->)]
    end; [| discriminate].
    intros [= <-] k r. cbn.
    destruct (decide (a = k)) as [-> | Hne].
    - rewrite lookup_insert_eq. intros [= <-]. by split.
    - rewrite lookup_insert_ne by assumption. intros Hr.
      destruct (grants_admin r) eqn:Hgrants.
      + destruct Hne. symmetry. by eapply Honly.
      + apply bool_decide_eq_false in Hgrants. tauto. }
  destruct (createUserProfile_first uid_ data w1 w' Hnone Hcreate)
    as [_ ->].
  cbn. by rewrite lookup_insert_eq.
Qed.

Lemma createUserProfile_after_the_last_admin_left_witness :
  let data := mkUserProfile None (Some "ann@church.org") None None None None
                            None None None None in
  let w1 := run (removeUserRole "a1") world_pending in
  let w' := run (createUserProfile "u1" data) w1 in
  user_roles (db w') !! "u1"
  = Some (mkUserRoleDoc "u1" super_admin (Some "system") (clock w1)).
Proof.
  intros data w1 w'.
  apply (createUserProfile_after_the_last_admin_left "a1" "u1" data
           world_pending w1 w').
  - intros k r Hk Hgrants.
    destruct (decide (k = "a1")) as [-> | Hne]; [reflexivity |].
    unfold world_pending, db_pending in Hk. cbn in Hk.
    rewrite lookup_insert_ne in Hk by congruence.
    by rewrite lookup_empty in Hk.
  - vm_compute. reflexivity.
  - vm_compute. reflexivity.
Defined.

(** X6.  What [createAdminRequest] writes is what the readers read: after
    it has returned, a served [getAdminRequestStatus] of the same user
    gives the request with the user's id as its id, the email, status
    pending, the time of the call and no reviewer, and a served
    [getPendingAdminRequests] lists that request. *)
Theorem getAdminRequestStatus_after_createAdminRequest userId email_ w w' :
  createAdminRequest userId email_ w = (Ok tt, w') ->
  served w' ->
  let r := mkAdminRequest (Some userId) userId email_ pending None (clock w)
                          None in
  fst (getAdminRequestStatus userId w') = Ok (Some r)
  /\ exists rows, fst (getPendingAdminRequests w') = Ok rows /\ r ∈ rows.
Proof.
  intros Hrun Hs r. apply createAdminRequest_inv in Hrun.
  assert (Hdoc : admin_requests (db w') !! userId
                 = Some (mkAdminRequest None userId email_ pending None
                                        (clock w) None)).
  { subst w'. cbn. by rewrite lookup_insert_eq. }
  split.
  - unfold getAdminRequestStatus. rewrite logged_id. unfold bind.
    destruct (getDoc_cases ADMIN_REQUESTS_COLLECTION userId w')
      as [(_ & ->) | (Hlost & _)]; [| contradiction].
    cbn. by rewrite Hdoc.
  - unfold getPendingAdminRequests. rewrite logged_id. unfold bind.
    match goal with |- context [getDocs ?c ?f w'] =>
      destruct (getDocs_cases c f w') as [(_ & ->) | (Hlost & _)]
    end; [| contradiction].
    eexists. split; [reflexivity |].
    apply list_elem_of_fmap.
    exists (userId, mkAdminRequest None userId email_ pending None (clock w)
                                   None).
    split; [reflexivity |].
    rewrite merge_sort_Permutation. apply list_elem_of_filter.
    split; [reflexivity |]. by apply elem_of_map_to_list.
Qed.

Lemma getAdminRequestStatus_after_createAdminRequest_witness :
  let w := world_empty in
  let w' := run (createAdminRequest "u1" "ann@church.org") w in
  let r := mkAdminRequest (Some "u1") "u1" "ann@church.org" pending None 100
                          None in
  fst (getAdminRequestStatus "u1" w') = Ok (Some r)
  /\ exists rows, fst (getPendingAdminRequests w') = Ok rows /\ r ∈ rows.
Proof.
  intros w w'.
  apply (getAdminRequestStatus_after_createAdminRequest "u1" "ann@church.org"
           w w').
  - vm_compute. reflexivity.
  - reflexivity.
Defined.

(** X7.  Approving in the users module is two writes, the request first
    and the role second, with nothing to undo the first: when the update of
    the request is served and the write of the role is lost,
    [approveAdminRequest] throws and leaves the request approved, with its
    reviewer and time, and the role documents as they were. *)
Theorem approveAdminRequest_is_not_atomic requestId userId reviewedBy w old :
  admin_requests (db w) !! userId = Some old ->
  hd false (outages w) = false ->
  hd false (tl (outages w)) = true ->
  exists e w',
    approveAdminRequest requestId userId reviewedBy w = (Throw e, w')
    /\ admin_requests (db w') !! userId
       = Some (mkAdminRequest (rq_id old) (rq_userId old) (rq_email old)
                 approved (Some reviewedBy) (rq_createdAt old)
                 (Some (clock w)))
    /\ user_roles (db w') = user_roles (db w)
    /\ calls w' = calls w ++ [(op_updateDoc, "admin_requests", userId);
                              (op_setDoc, "user_roles", userId)].
Proof.
  intros Hold Hs1 Hs2. unfold approveAdminRequest.
  rewrite logged_id, updateAdminRequest_eq.
  rewrite (updateDoc_served ADMIN_REQUESTS_COLLECTION _ _ _ old)
    by assumption.
  rewrite bool_decide_eq_true_2 by reflexivity.
  rewrite setUserRole_eq, setDoc_lost.
  - do 2 eexists. split; [reflexivity |]. cbn.
    split; [by rewrite lookup_insert_eq |]. split; [reflexivity |].
    by rewrite <- app_assoc.
  - unfold served. cbn. by rewrite Hs2.
Qed.

Lemma approveAdminRequest_is_not_atomic_witness :
  let w := mkWorld db_pending 300 [false; true] [] in
  let old := mkAdminRequest None "u1" "ann@church.org" pending None 200
                            None in
  exists e w',
    approveAdminRequest "u1" "u1" "a1" w = (Throw e, w')
    /\ admin_requests (db w') !! "u1"
       = Some (mkAdminRequest None "u1" "ann@church.org" approved
                 (Some "a1") 200 (Some 300))
    /\ user_roles (db w') = user_roles (db w)
    /\ calls w' = calls w ++ [(op_updateDoc, "admin_requests", "u1");
                              (op_setDoc, "user_roles", "u1")].
Proof.
  intros w old.
  apply (approveAdminRequest_is_not_atomic "u1" "u1" "a1" w old);
    reflexivity.
Defined.

End UsersModuleDocuments.

Section UsersModuleQueries.
Import Firestore FirestoreFacts UsersModule.

Lemma grants_admin_split (l : list (string * UserRoleDoc)) :
  filter (fun x => grants_admin x.2 = true) l
  ≡ₚ filter (fun x => bool_decide (rd_role x.2 = admin) = true) l
     ++ filter (fun x => bool_decide (rd_role x.2 = super_admin) = true) l.
Proof.
  induction l as [| [k d] l IH]; [reflexivity |].
  rewrite !filter_cons. cbn [snd].
  assert (Hgrants : grants_admin d
                    = bool_decide (rd_role d = admin)
                      || bool_decide (rd_role d = super_admin)).
  { unfold grants_admin. by destruct (rd_role d). }
  rewrite Hgrants.
  destruct (bool_decide (rd_role d = admin)) eqn:Hadmin,
           (bool_decide (rd_role d = super_admin)) eqn:Hsuper;
    cbn [orb]; repeat case_decide; try done.
  - apply bool_decide_eq_true in Hadmin, Hsuper. congruence.
  - cbn. by rewrite IH.
  - rewrite IH. apply Permutation_middle.
Qed.

Lemma getUsersByRole_served role w :
  served w ->
  fst (getUsersByRole role w)
  = Ok (snd <$> merge_sort by_id
                  (filter (fun x => bool_decide (rd_role (snd x) = role) = true)
                          (map_to_list (user_roles (db w))))).
Proof.
  intros Hs. unfold getUsersByRole. rewrite logged_id. unfold bind.
  match goal with |- context [getDocs ?c ?f w] =>
    destruct (getDocs_cases c f w) as [(_ & ->) | (Hlost & _)]
  end; [reflexivity | contradiction].
Qed.

(** X8.  [getAllAdmins] is the two role queries put together: on a served
    read it returns exactly the role documents whose role is admin or
    super_admin, and they are, up to order, those of
    [getUsersByRole('admin')] followed by those of
    [getUsersByRole('super_admin')].  Documents with role user, such as
    the ones [removeUserRole] leaves, are not among them. *)
Theorem getAllAdmins_is_the_admins_and_the_super_admins w :
  served w ->
  exists all admins supers,
    fst (getAllAdmins w) = Ok all
    /\ fst (getUsersByRole admin w) = Ok admins
    /\ fst (getUsersByRole super_admin w) = Ok supers
    /\ all ≡ₚ admins ++ supers
    /\ (forall d, d ∈ all <->
                  exists k, user_roles (db w) !! k = Some d
                            /\ (rd_role d = admin \/ rd_role d = super_admin)).
Proof.
  intros Hs. rewrite !getUsersByRole_served by exact Hs.
  destruct (getAllAdmins_cases w) as [(_ & ->) | (e & Hlost)].
  - do 3 eexists. repeat (split; [reflexivity |]). split.
    + rewrite <- fmap_app. apply fmap_Permutation.
      rewrite !merge_sort_Permutation. apply grants_admin_split.
    + intros d. rewrite list_elem_of_fmap. split.
      * intros ([k d'] & -> & Hin). rewrite merge_sort_Permutation in Hin.
        apply list_elem_of_filter in Hin as [Hgrants Hin].
        apply elem_of_map_to_list in Hin. exists k. split; [assumption |].
        by apply bool_decide_eq_true in Hgrants.
      * intros (k & Hk & Hrole). exists (k, d). split; [reflexivity |].
        rewrite merge_sort_Permutation. apply list_elem_of_filter.
        split; [by apply bool_decide_eq_true | by apply elem_of_map_to_list].
  - exfalso. revert Hlost. unfold getAllAdmins. rewrite logged_id.
    unfold bind.
    match goal with |- context [getDocs ?c ?f w] =>
      destruct (getDocs_cases c f w) as [(_ & ->) | (Hlost & _)]
    end; [discriminate | contradiction].
Qed.

Lemma getAllAdmins_is_the_admins_and_the_super_admins_witness :
  let w := world_pending in
  exists all admins supers,
    fst (getAllAdmins w) = Ok all
    /\ fst (getUsersByRole admin w) = Ok admins
    /\ fst (getUsersByRole super_admin w) = Ok supers
    /\ all ≡ₚ admins ++ supers
    /\ (forall d, d ∈ all <->
                  exists k, user_roles (db w) !! k = Some d
                            /\ (rd_role d = admin \/ rd_role d = super_admin)).
Proof.
  intros w.
  apply (getAllAdmins_is_the_admins_and_the_super_admins w). reflexivity.
Defined.

(** X9.  What [createUserProfile] writes is what [getUserProfile] reads:
    after it has returned, a served [getUserProfile] of the same user gives
    a profile with the fields of [data], whose [createdAt] and [updatedAt]
    are both the time of the call, whatever [data] said about them, and
    whose [uid] is the one in [data] when there is one and the argument
    otherwise. *)
Theorem getUserProfile_after_createUserProfile uid_ data w w' :
  createUserProfile uid_ data w = (Ok tt, w') ->
  served w' ->
  exists p,
    fst (getUserProfile uid_ w') = Ok (Some p)
    /\ uid p = Some (default uid_ (uid data))
    /\ email p = email data
    /\ displayName p = displayName data
    /\ photoURL p = photoURL data
    /\ firstName p = firstName data
    /\ lastName p = lastName data
    /\ title p = title data
    /\ phoneNumber p = phoneNumber data
    /\ createdAt p = Some (clock w)
    /\ updatedAt p = Some (clock w).
Proof.
  intros Hrun Hs. apply createUserProfile_inv in Hrun as [Husers _].
  unfold getUserProfile. rewrite logged_id.
  destruct (getDoc_cases USERS_COLLECTION uid_ w')
    as [(_ & ->) | (Hlost & _)]; [| contradiction].
  cbn. rewrite Husers, lookup_insert_eq. by eexists.
Qed.

Lemma getUserProfile_after_createUserProfile_witness :
  let w := world_pending in
  let data := mkUserProfile None (Some "bea@church.org") (Some "Bea") None
                            None None None None (Some 7) None in
  let w' := run (createUserProfile "u2" data) w in
  exists p,
    fst (getUserProfile "u2" w') = Ok (Some p)
    /\ uid p = Some (default "u2" (uid data))
    /\ email p = email data
    /\ displayName p = displayName data
    /\ photoURL p = photoURL data
    /\ firstName p = firstName data
    /\ lastName p = lastName data
    /\ title p = title data
    /\ phoneNumber p = phoneNumber data
    /\ createdAt p = Some (clock w)
    /\ updatedAt p = Some (clock w).
Proof.
  intros w data w'.
  apply (getUserProfile_after_createUserProfile "u2" data w w').
  - vm_compute. reflexivity.
  - reflexivity.
Defined.

(** X10.  [createUserProfile] is not atomic either: with no administrator
    in place, when the write of the profile is served and one of the two
    calls after it is lost, the function throws with the profile written
    and no role granted.  The first user is then a user without privileges,
    and the rule of the first user applies to whoever comes next. *)
Theorem createUserProfile_is_not_atomic uid_ data w :
  no_admins (db w) ->
  served w ->
  ~ served_thrice w ->
  exists e w',
    createUserProfile uid_ data w = (Throw e, w')
    /\ users (db w') !! uid_ = Some (new_profile uid_ data (clock w))
    /\ user_roles (db w') = user_roles (db w)
    /\ no_admins (db w').
Proof.
  intros Hnone Hs1 Hnot. rewrite createUserProfile_eq.
  rewrite setDoc_served by exact Hs1.
  match goal with |- context [getAllAdmins ?w1] =>
    destruct (getAllAdmins_cases w1) as [(Hs2 & ->) | (e & ->)]
  end.
  - cbn [sent db docs put USERS_COLLECTION user_roles].
    rewrite no_admins_none by exact Hnone. cbn [merge_sort fmap list_fmap].
    rewrite bool_decide_eq_true_2 by reflexivity.
    rewrite setUserRole_eq.
    match goal with |- context [setDoc ?c ?i ?x ?w1] =>
      destruct (setDoc_cases c i x w1) as [(Hs3 & _) | (e & ->)]
    end.
    + destruct Hnot. by repeat split.
    + do 2 eexists. split; [reflexivity |]. cbn.
      by rewrite lookup_insert_eq.
  - do 2 eexists. split; [reflexivity |]. cbn.
    by rewrite lookup_insert_eq.
Qed.

Lemma createUserProfile_is_not_atomic_witness :
  let w := mkWorld (mkDb ∅ ∅ ∅) 100 [false; false; true] [] in
  let data := mkUserProfile None (Some "pastor@church.org") None None None
                            None None None None None in
  exists e w',
    createUserProfile "a1" data w = (Throw e, w')
    /\ users (db w') !! "a1" = Some (new_profile "a1" data (clock w))
    /\ user_roles (db w') = user_roles (db w)
    /\ no_admins (db w').
Proof.
  intros w data.
  apply (createUserProfile_is_not_atomic "a1" data w).
  - intros k r Hk. vm_compute in Hk. discriminate.
  - reflexivity.
  - intros (_ & _ & Hs3). vm_compute in Hs3. discriminate.
Defined.

(** X11.  [updateUserProfile] merges: when it returns, every field that
    [data] carries has its new value, every field that [data] leaves out
    keeps the old one ([createdAt] included), [updatedAt] is the time of the
    call, and the other profiles, the roles and the requests are as
    before. *)
Theorem updateUserProfile_merges uid_ data w w' :
  updateUserProfile uid_ data w = (Ok tt, w') ->
  exists old new,
    users (db w) !! uid_ = Some old
    /\ users (db w') !! uid_ = Some new
    /\ uid new = from_option Some (uid old) (uid data)
    /\ email new = from_option Some (email old) (email data)
    /\ displayName new = from_option Some (displayName old) (displayName data)
    /\ photoURL new = from_option Some (photoURL old) (photoURL data)
    /\ firstName new = from_option Some (firstName old) (firstName data)
    /\ lastName new = from_option Some (lastName old) (lastName data)
    /\ title new = from_option Some (title old) (title data)
    /\ phoneNumber new = from_option Some (phoneNumber old) (phoneNumber data)
    /\ createdAt new = from_option Some (createdAt old) (createdAt data)
    /\ updatedAt new = Some (clock w)
    /\ (forall u, u <> uid_ -> users (db w') !! u = users (db w) !! u)
    /\ user_roles (db w') = user_roles (db w)
    /\ admin_requests (db w') = admin_requests (db w).
Proof.
  rewrite updateUserProfile_eq.
  match goal with |- context [updateDoc ?c ?i ?m ?w1] =>
    destruct (updateDoc_cases c i m w1) as [(old & _ & Hold & ->) | (e & ->)]
  end; [| discriminate].
  intros [= <-]. cbn in Hold. exists old, (merge_profile data (clock w) old).
  cbn. split; [assumption |]. split; [by rewrite lookup_insert_eq |].
  rewrite !or_old_from_option.
  repeat split; try by (intros; rewrite lookup_insert_ne).
Qed.

Lemma updateUserProfile_merges_witness :
  let w := world_pending in
  let data := mkUserProfile None None (Some "Ann") None (Some "Ann") None
                            None None None None in
  let w' := run (updateUserProfile "u1" data) w in
  exists old new,
    users (db w) !! "u1" = Some old
    /\ users (db w') !! "u1" = Some new
    /\ uid new = from_option Some (uid old) (uid data)
    /\ email new = from_option Some (email old) (email data)
    /\ displayName new = from_option Some (displayName old) (displayName data)
    /\ photoURL new = from_option Some (photoURL old) (photoURL data)
    /\ firstName new = from_option Some (firstName old) (firstName data)
    /\ lastName new = from_option Some (lastName old) (lastName data)
    /\ title new = from_option Some (title old) (title data)
    /\ phoneNumber new = from_option Some (phoneNumber old) (phoneNumber data)
    /\ createdAt new = from_option Some (createdAt old) (createdAt data)
    /\ updatedAt new = Some (clock w)
    /\ (forall u, u <> "u1" -> users (db w') !! u = users (db w) !! u)
    /\ user_roles (db w') = user_roles (db w)
    /\ admin_requests (db w') = admin_requests (db w).
Proof.
  intros w data w'. apply (updateUserProfile_merges "u1" data w w').
  vm_compute. reflexivity.
Defined.

End UsersModuleQueries.

(** ** The users module: what every run keeps *)

Section UsersModuleRuns.
Import Firestore FirestoreFacts FirestoreRuns UsersModule.

#[local] Hint Resolve keeps_ret keeps_throw keeps_serverTimestamp keeps_getDoc
  keeps_getDocs : keeps.

Lemma roles_by_user_set userId r d :
  rd_userId r = userId ->
  roles_by_user d ->
  roles_by_user (put USER_ROLES_COLLECTION
                     (<[userId := r]> (user_roles d)) d).
Proof.
  intros Hr Hd k x. cbn. destruct (decide (userId = k)) as [-> | Hne].
  - rewrite lookup_insert_eq. by intros [= <-].
  - rewrite lookup_insert_ne by assumption. apply Hd.
Qed.

Lemma is_Some_insert {D} (m : gmap string D) id x k :
  is_Some (m !! k) -> is_Some (<[id := x]> m !! k).
Proof.
  intros Hk. apply lookup_insert_is_Some.
  destruct (decide (id = k)); auto.
Qed.

Ltac every_function :=
  unfold run, createUserProfile, getUserProfile, updateUserProfile,
    getUserRole, isUserAdmin, createAdminRequest, getAdminRequestStatus,
    getPendingAdminRequests, approveAdminRequest, denyAdminRequest,
    updateAdminRequest, getAllAdmins, removeUserRole, getUsersByRole,
    createSuperAdmin, getUserRole, setUserRole.

Lemma step_roles_by_user w w' :
  step w w' -> roles_by_user (db w) -> roles_by_user (db w').
Proof.
  destruct 1; try done; every_function;
    match goal with |- _ -> roles_by_user (db (snd (?c w))) =>
      revert w; change (keeps roles_by_user c)
    end;
    keep; try assumption;
    apply roles_by_user_set; try assumption; try reflexivity.
  cbn. match goal with Hd : roles_by_user _ |- _ => by eapply Hd end.
Qed.

Lemma step_nothing_deleted d0 w w' :
  step w w' -> nothing_deleted d0 (db w) -> nothing_deleted d0 (db w').
Proof.
  destruct 1; try done; every_function;
    match goal with |- _ -> nothing_deleted _ (db (snd (?c w))) =>
      revert w; change (keeps (nothing_deleted d0) c)
    end;
    keep;
    match goal with Hd : nothing_deleted _ _ |- _ =>
      destruct Hd as (Hu & Hr & Hq)
    end;
    (split; [| split]); cbn; intros k Hk;
    try apply is_Some_insert; auto.
Qed.

(** X12.  Role documents stay filed under their user: if every role
    document is stored under the id of the user it names, then so it is
    after any number of calls of the functions of the module, served or
    not.  [setUserRole] writes the user's id as the key and as the field,
    and [removeUserRole] keeps the field. *)
Theorem role_documents_stay_filed_under_their_user w w' :
  roles_by_user (db w) -> rtc step w w' -> roles_by_user (db w').
Proof.
  intros Hw Hsteps. induction Hsteps as [| w1 w2 w3 Hstep _ IH];
    [assumption |].
  by apply IH, (step_roles_by_user w1).
Qed.

Lemma role_documents_stay_filed_under_their_user_witness :
  roles_by_user (db world_pending)
  /\ roles_by_user (db (run (removeUserRole "a1") world_pending)).
Proof.
  assert (Hfiled : roles_by_user (db world_pending)).
  { intros k r Hk.
    destruct (decide (k = "a1")) as [-> | Hne].
    - vm_compute in Hk. by injection Hk as <-.
    - unfold world_pending, db_pending in Hk. cbn in Hk.
      rewrite lookup_insert_ne in Hk by congruence.
      by rewrite lookup_empty in Hk. }
  split; [exact Hfiled |].
  apply (role_documents_stay_filed_under_their_user world_pending);
    [exact Hfiled |].
  apply rtc_once, step_removeUserRole.
Defined.

(** X13.  The module never deletes a document: along any run, every
    profile, role document and request that was in the store is still in
    it, possibly with other contents.  Rejecting a request and removing a
    role are updates. *)
Theorem no_document_is_ever_deleted w w' :
  rtc step w w' -> nothing_deleted (db w) (db w').
Proof.
  intros Hsteps.
  assert (Hrefl : nothing_deleted (db w) (db w)) by by repeat split.
  revert Hrefl. generalize (db w) at 1 3. intros d0.
  induction Hsteps as [| w1 w2 w3 Hstep _ IH]; [done |].
  intros Hw1. by apply IH, (step_nothing_deleted d0 w1).
Qed.

Lemma no_document_is_ever_deleted_witness :
  nothing_deleted (db world_pending)
    (db (run (denyAdminRequest "u1" "u1" "a1") world_pending)).
Proof.
  apply (no_document_is_ever_deleted world_pending).
  apply rtc_once, step_denyAdminRequest.
Defined.

End UsersModuleRuns.

(** ** The Admins page: how its handlers end *)

Section AdminsPageMore.
Import Supabase SupabaseFacts SupabaseInvariants.

(** X14.  The three handlers of the Admins page always settle: whatever
    the backend replies, approving, rejecting and removing return without
    throwing, show exactly one notification, and leave [processingId]
    cleared (removing oneself, which never sets it, leaves it as it
    was). *)
Theorem admins_page_handlers_settle requestId userId email w :
  (exists t w',
      handleApproveRequest requestId userId email w = (Ok tt, w')
      /\ processingId w' = None
      /\ toasts w' = toasts w ++ [t])
  /\ (exists t w',
        handleRejectRequest requestId userId email w = (Ok tt, w')
        /\ processingId w' = None
        /\ toasts w' = toasts w ++ [t])
  /\ (exists t w',
        handleRemoveAdmin requestId userId w = (Ok tt, w')
        /\ (session w <> Some userId -> processingId w' = None)
        /\ (session w = Some userId -> processingId w' = processingId w)
        /\ toasts w' = toasts w ++ [t]).
Proof.
  split; [| split].
  - destruct (handleApproveRequest_cases requestId userId email w)
      as (roleError & w1 & Hinsert & Hcases).
    destruct (from_user_roles_insert_spec userId admin
                (with_processingId (Some requestId) w))
      as (err1 & d1 & e1 & Hinsert' & _).
    pose proof (eq_trans (eq_sym Hinsert') Hinsert) as Heq.
    injection Heq as -> <-.
    destruct roleError as [e |].
    + rewrite Hcases. by eexists _, _.
    + destruct Hcases as (updateError & w2 & Hupdate & Hcases).
      match type of Hupdate with ?c ?w1 = _ =>
        destruct (from_admin_requests_update_eq_id_spec approved
                    (clock w1) (session w1) requestId w1)
          as (err2 & d2 & Hupdate' & _)
      end.
      pose proof (eq_trans (eq_sym Hupdate') Hupdate) as Heq.
      injection Heq as -> <-.
      destruct updateError as [e |]; rewrite Hcases; by eexists _, _.
  - destruct (handleRejectRequest_run requestId userId email w)
      as [(_ & _ & ->) | (e & ->)]; by eexists _, _.
  - destruct (decide (session w = Some userId)) as [Hself | Hother].
    + rewrite (handleRemoveAdmin_self w requestId userId Hself).
      by eexists _, _.
    + destruct (handleRemoveAdmin_run requestId userId w Hother)
        as [(_ & _ & ->) | (e & ->)]; by eexists _, _.
Qed.

(** X15.  Approving stops at a refused role: when the insert into
    [user_roles] comes back with an error (the call was lost, or the row
    was refused), [handleApproveRequest] sends nothing else and shows
    "Failed to approve request": the error of the reply is a plain object,
    so its own message is left to the console.  The update of the request
    is never attempted, so the store is as it was and the request stays
    pending. *)
Theorem handleApproveRequest_stops_at_a_refused_role
    requestId userId email w e w1 :
  from_user_roles_insert userId admin (with_processingId (Some requestId) w)
  = (Ok (Some e), w1) ->
  let w' := run (handleApproveRequest requestId userId email) w in
  fst (handleApproveRequest requestId userId email w) = Ok tt
  /\ toasts w' = toasts w ++ [toast_error "Failed to approve request"]
  /\ db w' = db w
  /\ calls w' = calls w ++ [insert_into_user_roles userId admin]
  /\ refreshes w' = refreshes w
  /\ processingId w' = None.
Proof.
  intros Hinsert w'. subst w'. unfold run.
  destruct (handleApproveRequest_cases requestId userId email w)
    as (roleError & w1' & Hinsert' & Hcases).
  pose proof (eq_trans (eq_sym Hinsert') Hinsert) as Heq.
  injection Heq as -> ->. rewrite Hcases.
  apply from_user_roles_insert_refused in Hinsert
    as (Hplain & Hdb & Hcalls & Htoasts & Hrefreshes & _).
  unfold failed, errMessage. rewrite Hplain. cbn.
  by rewrite Hdb, Hcalls, Htoasts, Hrefreshes.
Qed.

Lemma handleApproveRequest_stops_at_a_refused_role_witness :
  let lost := with_outages [true] world_pending in
  let held := world_requests in
  (let w' := run (handleApproveRequest "q1" "u1" "ann@church.org") lost in
   fst (handleApproveRequest "q1" "u1" "ann@church.org" lost) = Ok tt
   /\ toasts w' = toasts lost ++ [toast_error "Failed to approve request"]
   /\ db w' = db lost
   /\ calls w' = calls lost ++ [insert_into_user_roles "u1" admin]
   /\ refreshes w' = refreshes lost
   /\ processingId w' = None)
  /\ (let w' := run (handleApproveRequest "q2" "u2" "ben@church.org") held in
      fst (handleApproveRequest "q2" "u2" "ben@church.org" held) = Ok tt
      /\ toasts w' = toasts held ++ [toast_error "Failed to approve request"]
      /\ db w' = db held
      /\ calls w' = calls held ++ [insert_into_user_roles "u2" admin]
      /\ refreshes w' = refreshes held
      /\ processingId w' = None).
Proof.
  intros lost held. split.
  - apply (handleApproveRequest_stops_at_a_refused_role "q1" "u1"
             "ann@church.org" lost FetchError
             (snd (from_user_roles_insert "u1" admin
                     (with_processingId (Some "q1") lost)))).
    reflexivity.
  - apply (handleApproveRequest_stops_at_a_refused_role "q2" "u2"
             "ben@church.org" held
             (PostgrestError
                "duplicate key value violates unique constraint: user_roles_user_id_role_key")
             (snd (from_user_roles_insert "u2" admin
                     (with_processingId (Some "q2") held)))).
    vm_compute. reflexivity.
Defined.



End AdminsPageMore.

(** ** The Add Admin dialog *)

Section AddAdminFacts.
Import Supabase SupabaseFacts AddAdmin.

Lemma bind_get {S A} (k : S -> M S A) s : bind get k s = k s s.
Proof. reflexivity. Qed.

(** X17.  [handleAddAdmin] inserts a role only for a user it found and
    who has none.  With an email that is blank once trimmed it shows an
    error without looking anything up and without touching the submitting
    flag.  Otherwise it looks the profile up by the trimmed, lower-cased
    email; when no profile is found, or when the user already has an admin
    row, it shows the matching error and stops: nothing is inserted and the
    world is the one the look-ups left.  Only then is the insert sent.
    When the insert comes back with an error the store is as it was and
    the form shows "Failed to add admin", the error being a plain object
    whose message goes to the console; when it is accepted the role row is
    in the table, and the form clears the field, closes the dialog and
    reloads the list.  On every path past the first test the form is no
    longer submitting at the end. *)
Theorem handleAddAdmin_adds_known_users_only from_profiles from_user_roles d :
  (trim (newAdminEmail d) = "" ->
   handleAddAdmin from_profiles from_user_roles d
   = (Ok tt,
      mkDialog
        (with_toasts
           (toasts (world d) ++ [toast_error "Please enter an email address"])
           (world d))
        (newAdminEmail d) (isSubmitting d) (isAddDialogOpen d)))
  /\ (trim (newAdminEmail d) <> "" ->
      forall w1,
        from_profiles (toLowerCase (trim (newAdminEmail d))) (world d)
        = (Ok None, w1) ->
        handleAddAdmin from_profiles from_user_roles d
        = (Ok tt,
           told (toast_error
                   "No user found with that email. They must sign up first.")
                w1 d))
  /\ (trim (newAdminEmail d) <> "" ->
      forall profile_id w1 role_id w2,
        from_profiles (toLowerCase (trim (newAdminEmail d))) (world d)
        = (Ok (Some profile_id), w1) ->
        from_user_roles profile_id w1 = (Ok (Some role_id), w2) ->
        handleAddAdmin from_profiles from_user_roles d
        = (Ok tt, told (toast_error "User is already an admin") w2 d))
  /\ (trim (newAdminEmail d) <> "" ->
      forall profile_id w1 w2,
        from_profiles (toLowerCase (trim (newAdminEmail d))) (world d)
        = (Ok (Some profile_id), w1) ->
        from_user_roles profile_id w1 = (Ok None, w2) ->
        exists error w3,
          from_user_roles_insert profile_id admin w2 = (Ok error, w3)
          /\ match error with
             | Some _ =>
                 db w3 = db w2
                 /\ handleAddAdmin from_profiles from_user_roles d
                    = (Ok tt, told (toast_error "Failed to add admin") w3 d)
             | None =>
                 user_roles (db w3)
                 = user_roles (db w2)
                   ++ [mkUserRole (hd "" (entropy w2)) profile_id admin
                                  (clock w2)]
                 /\ handleAddAdmin from_profiles from_user_roles d
                    = (Ok tt,
                       mkDialog
                         (with_refreshes (refreshes w3 ++ [fetchAdmins])
                            (with_toasts
                               (toasts w3
                                ++ [toast_success "Admin added successfully"])
                               w3))
                         "" false false)
             end).
Proof.
  unfold handleAddAdmin, told. rewrite bind_get. unfold truthy.
  split; [| split; [| split]].
  - intros ->. by rewrite bool_decide_eq_true_2.
  - intros Hemail w1 Hprofile.
    rewrite bool_decide_eq_false_2 by exact Hemail. cbn [negb].
    unfold try_finally, try_catch, bind, page, setIsSubmitting, modify.
    cbn. by rewrite Hprofile.
  - intros Hemail profile_id w1 role_id w2 Hprofile Hexisting.
    rewrite bool_decide_eq_false_2 by exact Hemail. cbn [negb].
    unfold try_finally, try_catch, bind, page, setIsSubmitting, modify.
    cbn. rewrite Hprofile. cbn. by rewrite Hexisting.
  - intros Hemail profile_id w1 w2 Hprofile Hexisting.
    rewrite bool_decide_eq_false_2 by exact Hemail. cbn [negb].
    destruct (from_user_roles_insert_spec profile_id admin w2)
      as (error & d3 & e3 & Hinsert & Hd3).
    eexists _, _. split; [exact Hinsert |].
    unfold try_finally, try_catch, bind, page, setIsSubmitting, modify.
    cbn -[from_user_roles_insert]. rewrite Hprofile.
    cbn -[from_user_roles_insert]. rewrite Hexisting.
    cbn -[from_user_roles_insert]. rewrite Hinsert.
    destruct error as [e |].
    + apply from_user_roles_insert_refused in Hinsert as (Hplain & _).
      split; [exact Hd3 |]. cbn. unfold errMessage. by rewrite Hplain.
    + split; [by rewrite Hd3 | done].
Qed.

Lemma handleAddAdmin_adds_known_users_only_witness :
  let unknown := dialog_pending " Bea@Church.org " in
  let known := dialog_pending " Ann@Church.org " in
  let stale := mkDialog world_requests "ben@church.org" false true in
  (handleAddAdmin nothing_found nothing_found unknown
   = (Ok tt,
      told (toast_error
              "No user found with that email. They must sign up first.")
           world_pending unknown))
  /\ (exists error w3,
        from_user_roles_insert "u1" admin world_pending = (Ok error, w3)
        /\ match error with
           | Some _ =>
               db w3 = db world_pending
               /\ handleAddAdmin account_with admin_row_of known
                  = (Ok tt, told (toast_error "Failed to add admin") w3 known)
           | None =>
               user_roles (db w3)
               = user_roles (db world_pending)
                 ++ [mkUserRole "r2" "u1" admin 300]
               /\ handleAddAdmin account_with admin_row_of known
                  = (Ok tt,
                     mkDialog
                       (with_refreshes (refreshes w3 ++ [fetchAdmins])
                          (with_toasts
                             (toasts w3
                              ++ [toast_success "Admin added successfully"])
                             w3))
                       "" false false)
           end)
  /\ (fst (from_user_roles_insert "u1" admin world_pending) = Ok None)
  /\ (exists error w3,
        from_user_roles_insert "u2" admin world_requests = (Ok error, w3)
        /\ match error with
           | Some _ =>
               db w3 = db world_requests
               /\ handleAddAdmin account_with nothing_found stale
                  = (Ok tt, told (toast_error "Failed to add admin") w3 stale)
           | None =>
               user_roles (db w3)
               = user_roles (db world_requests)
                 ++ [mkUserRole "r3" "u2" admin 300]
               /\ handleAddAdmin account_with nothing_found stale
                  = (Ok tt,
                     mkDialog
                       (with_refreshes (refreshes w3 ++ [fetchAdmins])
                          (with_toasts
                             (toasts w3
                              ++ [toast_success "Admin added successfully"])
                             w3))
                       "" false false)
           end)
  /\ (exists e, fst (from_user_roles_insert "u2" admin world_requests)
                = Ok (Some e)).
Proof.
  intros unknown known stale. split; [| split; [| split; [| split]]].
  - apply (proj1 (proj2 (handleAddAdmin_adds_known_users_only
                           nothing_found nothing_found unknown))).
    + vm_compute. discriminate.
    + reflexivity.
  - apply (proj2 (proj2 (proj2 (handleAddAdmin_adds_known_users_only
                                  account_with admin_row_of known)))
             ltac:(vm_compute; discriminate) "u1" world_pending world_pending).
    + vm_compute. reflexivity.
    + vm_compute. reflexivity.
  - vm_compute. reflexivity.
  - apply (proj2 (proj2 (proj2 (handleAddAdmin_adds_known_users_only
                                  account_with nothing_found stale)))
             ltac:(vm_compute; discriminate) "u2" world_requests
             world_requests).
    + vm_compute. reflexivity.
    + reflexivity.
  - eexists. vm_compute. reflexivity.
Defined.

End AddAdminFacts.

(** ** The gallery administration page *)

Section GalleryAdminFacts.
Import Supabase SupabaseFacts GalleryAdmin.

(** *** A caller without the role *)

Lemma gallery_insert_not_admin title description w :
  is_admin w = false ->
  exists e w',
    from_gallery_albums_insert title description w = (Ok (Some e), w')
    /\ db w' = db w /\ session w' = session w.
Proof.
  unfold is_admin. intros Hadmin. unfold from_gallery_albums_insert. prim.
  all: try congruence.
  all: by eexists _, _.
Qed.

Lemma gallery_update_not_admin c f id w :
  is_admin w = false ->
  exists e w',
    from_gallery_albums_update_eq_id c f id w = (Ok e, w')
    /\ db w' = db w /\ session w' = session w.
Proof.
  unfold is_admin. intros Hadmin. unfold from_gallery_albums_update_eq_id.
  prim. all: try congruence.
  all: by eexists _, _.
Qed.

Lemma gallery_delete_not_admin id w :
  is_admin w = false ->
  exists e w',
    from_gallery_albums_delete_eq_id id w = (Ok e, w')
    /\ db w' = db w /\ session w' = session w
    /\ (served w -> e = None).
Proof.
  unfold is_admin, served. intros Hadmin.
  unfold from_gallery_albums_delete_eq_id.
  prim. all: try congruence.
  all: by eexists _, _.
Qed.

Lemma images_insert_not_admin album_id url w :
  is_admin w = false ->
  exists e w',
    from_gallery_images_insert album_id url w = (Ok (Some e), w')
    /\ db w' = db w /\ session w' = session w.
Proof.
  unfold is_admin. intros Hadmin. unfold from_gallery_images_insert. prim.
  all: try congruence.
  all: by eexists _, _.
Qed.

Lemma images_delete_not_admin id w :
  is_admin w = false ->
  exists e w',
    from_gallery_images_delete_eq_id id w = (Ok e, w')
    /\ db w' = db w /\ session w' = session w.
Proof.
  unfold is_admin. intros Hadmin. unfold from_gallery_images_delete_eq_id.
  prim. all: try congruence.
  all: by eexists _, _.
Qed.

Lemma storage_same_db c w :
  exists e w',
    storage_from_gallery c w = (Ok e, w')
    /\ db w' = db w /\ session w' = session w.
Proof. unfold storage_from_gallery. destruct c; prim; by eexists _, _. Qed.

Lemma is_admin_same w w' :
  db w' = db w -> session w' = session w -> is_admin w' = is_admin w.
Proof. unfold is_admin. by intros -> ->. Qed.

Lemma refused_ret {A} (a : A) : refused (ret a).
Proof. by intros w. Qed.

Lemma refused_throw {A} e : refused (@throw World A e).
Proof. by intros w. Qed.

Lemma refused_bind {A B} (c : M World A) (k : A -> M World B) :
  refused c -> (forall a, refused (k a)) -> refused (bind c k).
Proof.
  intros Hc Hk w Hw. unfold bind. destruct (Hc w Hw) as [Hdb Hs].
  destruct (c w) as [[a | e] w1]; cbn in *; [| by split].
  destruct (Hk a w1) as [Hdb1 Hs1].
  - by rewrite (is_admin_same w w1).
  - split; congruence.
Qed.

Lemma refused_try_catch {A} (c : M World A) (h : JsError -> M World A) :
  refused c -> (forall e, refused (h e)) -> refused (try_catch c h).
Proof.
  intros Hc Hh w Hw. unfold try_catch. destruct (Hc w Hw) as [Hdb Hs].
  destruct (c w) as [[a | e] w1]; cbn in *; [by split |].
  destruct (Hh e w1) as [Hdb1 Hs1].
  - by rewrite (is_admin_same w w1).
  - split; congruence.
Qed.

Lemma refused_throw_if e : refused (throw_if e).
Proof. destruct e; [apply refused_throw | apply refused_ret]. Qed.

Lemma refused_toast t : refused (toast t).
Proof. by intros w. Qed.

Lemma refused_start r : refused (start r).
Proof. by intros w. Qed.

Lemma refused_new_Date : refused new_Date.
Proof. by intros w. Qed.

Lemma refused_random : refused random.
Proof. by intros w. Qed.

Lemma refused_albums_insert title description :
  refused (from_gallery_albums_insert title description).
Proof.
  intros w Hw.
  by destruct (gallery_insert_not_admin title description w Hw)
    as (e & w' & -> & ? & ?).
Qed.

Lemma refused_albums_update c f id :
  refused (from_gallery_albums_update_eq_id c f id).
Proof.
  intros w Hw.
  by destruct (gallery_update_not_admin c f id w Hw) as (e & w' & -> & ? & ?).
Qed.

Lemma refused_albums_delete id : refused (from_gallery_albums_delete_eq_id id).
Proof.
  intros w Hw.
  by destruct (gallery_delete_not_admin id w Hw) as (e & w' & -> & ? & ? & _).
Qed.

Lemma refused_images_insert album_id url :
  refused (from_gallery_images_insert album_id url).
Proof.
  intros w Hw.
  by destruct (images_insert_not_admin album_id url w Hw)
    as (e & w' & -> & ? & ?).
Qed.

Lemma refused_images_delete id : refused (from_gallery_images_delete_eq_id id).
Proof.
  intros w Hw.
  by destruct (images_delete_not_admin id w Hw) as (e & w' & -> & ? & ?).
Qed.

Lemma refused_storage c : refused (storage_from_gallery c).
Proof.
  intros w _. by destruct (storage_same_db c w) as (e & w' & -> & ? & ?).
Qed.

Create HintDb refused.

#[local] Hint Resolve refused_ret refused_throw refused_throw_if refused_toast
  refused_start refused_new_Date refused_random refused_albums_insert
  refused_albums_update refused_albums_delete refused_images_insert
  refused_images_delete refused_storage : refused.

Ltac refuse :=
  repeat first
    [ solve [auto with refused]
    | apply refused_bind; [| intros ?]
    | apply refused_try_catch; [| intros ?]
    | match goal with
      | |- refused (if ?b then _ else _) => destruct b
      | |- refused (match ?x with _ => _ end) => destruct x
      end ].

Lemma refused_for_of {A} (body : A -> M World unit) items :
  (forall x, refused (body x)) -> refused (for_of body items).
Proof.
  intros Hbody. induction items as [| x rest IH]; cbn.
  - apply refused_ret.
  - apply refused_bind; [apply Hbody | intros _; exact IH].
Qed.

Lemma refused_upload_one getPublicUrl selectedAlbum file_name :
  refused (upload_one getPublicUrl selectedAlbum file_name).
Proof. unfold upload_one. refuse. Qed.

(** X22.  The gallery needs an administrator: for a caller who does not
    hold the admin role, creating, deleting and toggling an album, deleting
    an image and uploading files all leave every table as it was, whatever
    the arguments and whatever gets through.  Deleting an album that is
    served is still reported as done, since a delete that the policies
    filter out is no error. *)
Theorem the_gallery_needs_an_administrator w :
  is_admin w = false ->
  (forall title description,
      db (run (createAlbumMutation title description) w) = db w)
  /\ (forall albumId,
        db (run (deleteAlbumMutation albumId) w) = db w
        /\ (served w ->
            toasts (run (deleteAlbumMutation albumId) w)
            = toasts w
              ++ [toast_titled "Album deleted successfully" None false]))
  /\ (forall albumId isActive,
        db (run (toggleAlbumVisibility albumId isActive) w) = db w)
  /\ (forall selectedAlbum_id image,
        db (run (deleteImageMutation selectedAlbum_id image) w) = db w)
  /\ (forall getPublicUrl files selectedAlbum,
        db (run (handleFileUpload getPublicUrl files selectedAlbum) w) = db w).
Proof.
  intros Hw.
  assert (Hrefused : forall A (c : M World A),
            refused c -> db (run c w) = db w).
  { intros A c Hc. exact (proj1 (Hc w Hw)). }
  split; [| split; [| split; [| split]]].
  - intros. apply Hrefused. unfold createAlbumMutation. refuse.
  - intros albumId. split.
    + apply Hrefused. unfold deleteAlbumMutation. refuse.
    + revert Hw.
      unfold served, is_admin, run, deleteAlbumMutation,
        from_gallery_albums_delete_eq_id, try_catch, throw_if, start, toast.
      intros Hw Hs. prim; congruence.
  - intros. apply Hrefused. unfold toggleAlbumVisibility. refuse.
  - intros. apply Hrefused. unfold deleteImageMutation. refuse.
  - intros. apply Hrefused. unfold handleFileUpload. refuse.
    apply refused_for_of. intros x. apply refused_upload_one.
Qed.

Lemma the_gallery_needs_an_administrator_witness :
  let w := with_session None world_gallery in
  db (run (deleteAlbumMutation "al1") w) = db w
  /\ (served w ->
      toasts (run (deleteAlbumMutation "al1") w)
      = toasts w ++ [toast_titled "Album deleted successfully" None false]).
Proof.
  intros w.
  apply (proj1 (proj2 (the_gallery_needs_an_administrator w eq_refl))).
Defined.

End GalleryAdminFacts.

(** *** Albums and images *)

Section GalleryAdminAlbums.
Import Supabase SupabaseFacts.

Lemma has_role_with_gallery_images f d s role :
  has_role (with_gallery_images f d) s role = has_role d s role.
Proof. reflexivity. Qed.

(** What a served toggle by an administrator does to the tables. *)
Lemma toggleAlbumVisibility_served albumId isActive w :
  served w ->
  is_admin w = true ->
  gallery_albums (db (run (toggleAlbumVisibility albumId isActive) w))
  = (fun a => if bool_decide (ga_id a = albumId)
              then mkAlbum (ga_id a) (ga_title a) (ga_description a)
                     (ga_cover_image_url a) (Some isActive)
                     (ga_display_order a) (ga_created_at a) (clock w)
              else a) <$> gallery_albums (db w)
  /\ gallery_images (db (run (toggleAlbumVisibility albumId isActive) w))
     = gallery_images (db w).
Proof.
  unfold served, is_admin, run, toggleAlbumVisibility,
    from_gallery_albums_update_eq_id, try_catch, throw_if, start, toast.
  intros Hs Hadmin. prim; try congruence. by repeat split.
Qed.

(** X18.  Toggling the visibility of an album fails silently: the
    mutation has no error handler, so when its call is lost the page shows
    nothing and reloads nothing, and the world differs by the call alone.
    Served for an administrator, it sets [is_active] on the albums with
    that id and stamps them, keeps the other albums and all images, and
    says so. *)
Theorem toggleAlbumVisibility_fails_silently albumId isActive w :
  (~ served w ->
   toggleAlbumVisibility albumId isActive w
   = (Ok tt,
      sent (update_gallery_albums_is_active_eq_id isActive albumId)
           (db w) (entropy w) w))
  /\ (served w -> is_admin w = true ->
      let w' := run (toggleAlbumVisibility albumId isActive) w in
      gallery_albums (db w')
      = (fun a => if bool_decide (ga_id a = albumId)
                  then mkAlbum (ga_id a) (ga_title a) (ga_description a)
                         (ga_cover_image_url a) (Some isActive)
                         (ga_display_order a) (ga_created_at a) (clock w)
                  else a) <$> gallery_albums (db w)
      /\ gallery_images (db w') = gallery_images (db w)
      /\ toasts w'
         = toasts w ++ [toast_titled "Album visibility updated" None false]).
Proof.
  split.
  - unfold served, run, toggleAlbumVisibility,
      from_gallery_albums_update_eq_id, try_catch, throw_if, start, toast.
    intros Hlost. prim; try congruence. unfold sent. by destruct w.
  - intros Hs Hadmin w'.
    destruct (toggleAlbumVisibility_served albumId isActive w Hs Hadmin)
      as [Halbums Himages].
    split; [exact Halbums |]. split; [exact Himages |].
    subst w'. revert Hs Hadmin.
    unfold served, is_admin, run, toggleAlbumVisibility,
      from_gallery_albums_update_eq_id, try_catch, throw_if, start, toast.
    intros Hs Hadmin. prim; congruence.
Qed.

Lemma toggleAlbumVisibility_fails_silently_witness :
  let w := with_outages [true] world_gallery in
  toggleAlbumVisibility "al1" false w
  = (Ok tt,
     sent (update_gallery_albums_is_active_eq_id false "al1") (db w)
          (entropy w) w).
Proof.
  intros w.
  apply (proj1 (toggleAlbumVisibility_fails_silently "al1" false w)).
  discriminate.
Defined.

(** X19.  Deleting an image does not wait for its file: the reply of
    the storage is not looked at, so whether the removal of the file gets
    through or not, a served delete by an administrator removes the row of
    the image, keeps the other images and the albums (a cover that points
    at the image stays), and reports success.  The file is addressed by the
    last segment of the image's URL under the selected album. *)
Theorem deleteImageMutation_does_not_wait_for_the_file
    selectedAlbum_id image w :
  is_admin w = true ->
  hd false (tl (outages w)) = false ->
  split_pop "/" (gi_image_url image) <> "" ->
  let w' := run (deleteImageMutation selectedAlbum_id image) w in
  gallery_images (db w')
  = filter (fun i => gi_id i <> gi_id image) (gallery_images (db w))
  /\ gallery_albums (db w') = gallery_albums (db w)
  /\ calls w'
     = calls w
       ++ [storage_remove
             (String.append (default "undefined" selectedAlbum_id)
                (String.append "/" (split_pop "/" (gi_image_url image))));
           delete_from_gallery_images_eq_id (gi_id image)]
  /\ toasts w'
     = toasts w ++ [toast_titled "Image deleted successfully" None false].
Proof.
  unfold is_admin, run, deleteImageMutation, storage_from_gallery,
    from_gallery_images_delete_eq_id, try_catch, throw_if, start, toast,
    truthy.
  intros Hadmin Hs Hname.
  rewrite bool_decide_eq_false_2 by exact Hname. cbn [negb].
  prim; try congruence; rewrite Hs; cbn -[bool_decide has_role];
    rewrite Hadmin; cbn; rewrite <- ?app_assoc; by repeat split.
Qed.

Lemma deleteImageMutation_does_not_wait_for_the_file_witness :
  let w := with_outages [true] world_gallery in
  let image := mkGalleryImage "im1" "al1" "/al1/a.png" None (Some 0) 170 in
  let w' := run (deleteImageMutation (Some "al1") image) w in
  gallery_images (db w')
  = filter (fun i => gi_id i <> gi_id image) (gallery_images (db w))
  /\ gallery_albums (db w') = gallery_albums (db w)
  /\ calls w'
     = calls w
       ++ [storage_remove
             (String.append (default "undefined" (Some "al1"))
                (String.append "/" (split_pop "/" (gi_image_url image))));
           delete_from_gallery_images_eq_id (gi_id image)]
  /\ toasts w'
     = toasts w ++ [toast_titled "Image deleted successfully" None false].
Proof.
  intros w image w'.
  apply (deleteImageMutation_does_not_wait_for_the_file (Some "al1") image w).
  - reflexivity.
  - reflexivity.
  - vm_compute. discriminate.
Defined.

End GalleryAdminAlbums.

(** *** Uploads *)

Section GalleryAdminUploads.
Import Supabase SupabaseFacts.

(** X20.  An upload without input does nothing: with no file list, or
    with no album selected, [handleFileUpload] returns at once and the
    world is untouched.  With an empty list and an album it sends no call
    and writes nothing, and still reports that 0 images were uploaded. *)
Theorem handleFileUpload_without_files getPublicUrl w :
  (forall selectedAlbum,
      handleFileUpload getPublicUrl None selectedAlbum w = (Ok tt, w))
  /\ (forall files, handleFileUpload getPublicUrl files None w = (Ok tt, w))
  /\ (forall selectedAlbum,
        let w' := run (handleFileUpload getPublicUrl (Some [])
                         (Some selectedAlbum)) w in
        calls w' = calls w
        /\ db w' = db w
        /\ toasts w'
           = toasts w
             ++ [toast_titled "0 image(s) uploaded successfully" None false]).
Proof.
  split; [done |]. split; [by intros [files |] |].
  intros selectedAlbum. by repeat split.
Qed.

(** The loop ends at the first file whose upload throws. *)
Lemma for_of_stops {A} (body : A -> M World unit) done x rest w w1 e w2 :
  for_of body done w = (Ok tt, w1) ->
  body x w1 = (Throw e, w2) ->
  for_of body (done ++ x :: rest) w = (Throw e, w2).
Proof.
  revert w. induction done as [| y done IH]; intros w; cbn.
  - intros [= <-] Hx. unfold bind. by rewrite Hx.
  - unfold bind. destruct (body y w) as [[[] | e'] w']; [| discriminate].
    apply IH.
Qed.

(** X21.  An upload stops at the first file that fails: when the files
    before it went through and the upload of one file throws, the files
    after it are never attempted.  The world is the one that file left,
    what the earlier files stored included, plus the error notification;
    the lists are not reloaded. *)
Theorem handleFileUpload_stops_at_the_first_failure
    getPublicUrl selectedAlbum done file rest w w1 e w2 :
  for_of (upload_one getPublicUrl selectedAlbum) done w = (Ok tt, w1) ->
  upload_one getPublicUrl selectedAlbum file w1 = (Throw e, w2) ->
  handleFileUpload getPublicUrl (Some (done ++ file :: rest))
    (Some selectedAlbum) w
  = (Ok tt,
     with_toasts
       (toasts w2 ++ [toast_titled "Error uploading images"
                        (Some (errMessage e "Unknown error")) true])
       w2).
Proof.
  intros Hdone Hfile. unfold handleFileUpload, try_catch.
  unfold bind at 1.
  by rewrite (for_of_stops _ done file rest w w1 e w2 Hdone Hfile).
Qed.

Lemma handleFileUpload_stops_at_the_first_failure_witness :
  let w := with_outages [false; false; false; true] world_gallery in
  let album := mkAlbum "al1" "Easter" None None (Some true) (Some 0) 150
                       150 in
  let w1 := snd (upload_one id album "a.png" w) in
  let w2 := snd (upload_one id album "b.png" w1) in
  handleFileUpload id (Some (["a.png"] ++ "b.png" :: ["c.png"]))
    (Some album) w
  = (Ok tt,
     with_toasts
       (toasts w2 ++ [toast_titled "Error uploading images"
                        (Some (errMessage (StorageError "Failed to fetch")
                                          "Unknown error")) true])
       w2)
  /\ length (gallery_images (db w2)) = 4%nat
  /\ calls w2
     = [storage_upload "al1/300-x1.png";
        insert_into_gallery_images "al1" "al1/300-x1.png";
        update_gallery_albums_cover_eq_id "al1/300-x1.png" "al1";
        storage_upload "al1/300-.png"].
Proof.
  intros w album w1 w2. split; [| split; vm_compute; reflexivity].
  apply (handleFileUpload_stops_at_the_first_failure id album ["a.png"]
           "b.png" ["c.png"] w w1 (StorageError "Failed to fetch") w2);
    vm_compute; reflexivity.
Defined.

(** X23.  A served upload of one file by an administrator stores one
    image: the file goes to the path made of the album's id, the time, a
    random part and the extension of the file's name, and one row with the
    album's id and the public URL of that path is added to
    [gallery_images].  When the page's copy of the album has a cover, the
    albums are untouched and two calls were sent; when it has none and the
    third call is served too, the URL becomes the cover of the album.  The
    success is reported either way, the reply of the cover update not being
    looked at. *)
Theorem handleFileUpload_adds_the_image getPublicUrl selectedAlbum file w :
  is_admin w = true ->
  hd false (outages w) = false ->
  hd false (tl (outages w)) = false ->
  Exists (fun a => ga_id a = ga_id selectedAlbum) (gallery_albums (db w)) ->
  ~ Exists (fun i => gi_id i = hd "" (tl (entropy w)))
           (gallery_images (db w)) ->
  let filePath :=
    String.append (ga_id selectedAlbum)
      (String.append "/"
         (String.append (pretty (clock w))
            (String.append "-"
               (String.append (hd "" (entropy w))
                  (String.append "." (split_pop "." file)))))) in
  let w' := run (handleFileUpload getPublicUrl (Some [file])
                   (Some selectedAlbum)) w in
  gallery_images (db w')
  = gallery_images (db w)
    ++ [mkGalleryImage (hd "" (tl (entropy w))) (ga_id selectedAlbum)
          (getPublicUrl filePath) None (Some 0) (clock w)]
  /\ toasts w'
     = toasts w
       ++ [toast_titled "1 image(s) uploaded successfully" None false]
  /\ (truthy (ga_cover_image_url selectedAlbum) = true ->
      gallery_albums (db w') = gallery_albums (db w)
      /\ calls w'
         = calls w ++ [storage_upload filePath;
                       insert_into_gallery_images (ga_id selectedAlbum)
                         (getPublicUrl filePath)])
  /\ (truthy (ga_cover_image_url selectedAlbum) = false ->
      hd false (tl (tl (outages w))) = false ->
      gallery_albums (db w')
      = (fun a => if bool_decide (ga_id a = ga_id selectedAlbum)
                  then mkAlbum (ga_id a) (ga_title a) (ga_description a)
                         (Some (getPublicUrl filePath)) (ga_is_active a)
                         (ga_display_order a) (ga_created_at a) (clock w)
                  else a) <$> gallery_albums (db w)).
Proof.
  unfold run, handleFileUpload, upload_one, for_of,
    storage_from_gallery, from_gallery_images_insert,
    from_gallery_albums_update_eq_id, try_catch, throw_if, start, toast,
    new_Date, is_admin.
  intros Hadmin Hs1 Hs2 Halbum Hfresh.
  unfold bind, send, random, get, ret, modify, throw.
  cbn -[bool_decide hd tl has_role truthy pretty]. rewrite Hs1.
  cbn -[bool_decide hd tl has_role truthy pretty]. rewrite Hadmin.
  cbn -[bool_decide hd tl has_role truthy pretty]. rewrite Hs2.
  cbn -[bool_decide hd tl has_role truthy pretty]. rewrite Hadmin.
  cbn -[bool_decide hd tl has_role truthy pretty].
  rewrite bool_decide_eq_false_2 by exact Hfresh.
  rewrite bool_decide_eq_true_2 by exact Halbum.
  cbn -[bool_decide hd tl has_role truthy pretty].
  destruct (truthy (ga_cover_image_url selectedAlbum)) eqn:Hcover;
    cbn -[bool_decide hd tl has_role truthy pretty].
  - split; [done |]. split; [done |]. split; [| done].
    intros _. split; [done |]. by rewrite <- !app_assoc.
  - split; [| split; [| split; [done |]]].
    + by destruct (hd false (tl (tl (outages w))));
        cbn -[bool_decide has_role];
        rewrite ?has_role_with_gallery_images, ?Hadmin.
    + by destruct (hd false (tl (tl (outages w))));
        cbn -[bool_decide has_role];
        rewrite ?has_role_with_gallery_images, ?Hadmin.
    + intros _ Hs3. rewrite Hs3. cbn -[bool_decide has_role].
      by rewrite has_role_with_gallery_images, Hadmin.
Qed.

Lemma handleFileUpload_adds_the_image_witness :
  let w := world_gallery in
  let album := mkAlbum "al1" "Easter" None None (Some true) (Some 0) 150
                       150 in
  let w' := run (handleFileUpload id (Some ["photo.JPG"]) (Some album)) w in
  gallery_images (db w')
  = gallery_images (db w)
    ++ [mkGalleryImage "x2" "al1" "al1/300-x1.JPG" None (Some 0) 300].
Proof.
  intros w album w'.
  apply (handleFileUpload_adds_the_image id album "photo.JPG" w).
  - reflexivity.
  - reflexivity.
  - reflexivity.
  - apply Exists_cons_hd. reflexivity.
  - intros Hsome. vm_compute in Hsome.
    repeat (apply Exists_cons in Hsome as [[=] | Hsome]).
    by apply Exists_nil in Hsome.
Defined.

End GalleryAdminUploads.

(** ** The public gallery page *)

Section PublicGalleryFacts.
Import Supabase SupabaseFacts PublicGallery.

#[local] Instance albums_newest_first_total : Total albums_newest_first.
Proof. intros a b. unfold albums_newest_first. lia. Qed.

#[local] Instance by_display_order_total : Total by_display_order.
Proof.
  intros i j. unfold by_display_order.
  destruct (gi_display_order i), (gi_display_order j); lia || tauto.
Qed.

Lemma albums_queryFn_inv w rows w' :
  albums_queryFn w = (Ok rows, w') ->
  rows = merge_sort albums_newest_first
           (filter (album_visible w) (gallery_albums (db w)))
  /\ db w' = db w.
Proof.
  unfold albums_queryFn, from_gallery_albums_select_order_created_at, fetch,
    bind, get, ret, throw_if, throw.
  cbn -[merge_sort filter].
  destruct (hd false (outages w)); cbn -[merge_sort filter]; [discriminate |].
  by intros [= <- <-].
Qed.

Lemma albumImages_queryFn_inv album w rows w' :
  albumImages_queryFn (Some album) w = (Ok rows, w') ->
  rows = merge_sort by_display_order
           (filter (fun i => image_visible w i
                             /\ gi_album_id i = ga_id album)
                   (gallery_images (db w)))
  /\ db w' = db w.
Proof.
  unfold albumImages_queryFn,
    from_gallery_images_select_eq_album_id_order_display_order, fetch,
    bind, get, ret, throw_if, throw.
  cbn -[merge_sort filter].
  destruct (hd false (outages w)); cbn -[merge_sort filter]; [discriminate |].
  by intros [= <- <-].
Qed.

(** The rows a caller without the role gets. *)
Lemma shown_to_a_visitor w :
  is_admin w = false ->
  (forall rows w',
      albums_queryFn w = (Ok rows, w') ->
      forall a, a ∈ rows <->
                a ∈ gallery_albums (db w) /\ ga_is_active a = Some true)
  /\ (forall album rows w',
        albumImages_queryFn (Some album) w = (Ok rows, w') ->
        forall i, i ∈ rows <->
                  i ∈ gallery_images (db w)
                  /\ gi_album_id i = ga_id album
                  /\ exists a, a ∈ gallery_albums (db w)
                               /\ ga_id a = ga_id album
                               /\ ga_is_active a = Some true).
Proof.
  intros Hvisitor. split.
  - intros rows w' Hrun a. apply albums_queryFn_inv in Hrun as [-> _].
    rewrite merge_sort_Permutation, list_elem_of_filter.
    unfold album_visible. rewrite Hvisitor. intuition congruence.
  - intros album rows w' Hrun i.
    apply albumImages_queryFn_inv in Hrun as [-> _].
    rewrite merge_sort_Permutation, list_elem_of_filter.
    unfold image_visible. rewrite Hvisitor, Exists_exists. split.
    + intros [[[(a & Ha & Hid & Hactive) | [=]] Halbum] Hi].
      repeat split; try assumption. exists a. repeat split; congruence.
    + intros (Hi & Halbum & a & Ha & Hid & Hactive).
      repeat split; try assumption. left. exists a. repeat split; congruence.
Qed.



(** X25.  A hidden album is not shown: once an administrator's toggle to
    hidden has been served for an album, a caller without the role,
    whoever is signed in, gets no album with that id from the album query
    and no image at all from the image query of that album. *)
Theorem a_hidden_album_is_not_shown albumId w s :
  served w ->
  is_admin w = true ->
  let visitor :=
    with_session s (run (toggleAlbumVisibility albumId false) w) in
  is_admin visitor = false ->
  (forall rows w',
      albums_queryFn visitor = (Ok rows, w') ->
      forall a, a ∈ rows -> ga_id a <> albumId)
  /\ (forall album rows w',
        ga_id album = albumId ->
        albumImages_queryFn (Some album) visitor = (Ok rows, w') ->
        rows = []).
Proof.
  intros Hs Hadmin visitor Hvisitor.
  destruct (toggleAlbumVisibility_served albumId false w Hs Hadmin)
    as [Halbums _].
  assert (Hhidden : forall a,
            a ∈ gallery_albums (db visitor) -> ga_id a = albumId ->
            ga_is_active a = Some true -> False).
  { intros a Ha Hid Hactive. unfold visitor in Ha. cbn in Ha.
    rewrite Halbums in Ha. apply list_elem_of_fmap in Ha as (b & -> & _).
    case_bool_decide; cbn in *; [discriminate | congruence]. }
  destruct (shown_to_a_visitor visitor Hvisitor) as [Halb Himg].
  split.
  - intros rows w' Hrun a Ha Hid.
    apply (Halb rows w' Hrun) in Ha as [Ha Hactive]. by eapply Hhidden.
  - intros album rows w' Hid Hrun.
    destruct rows as [| i rows]; [reflexivity |]. exfalso.
    destruct (proj1 (Himg album (i :: rows) w' Hrun i))
      as (_ & _ & a & Ha & Haid & Hactive); [apply list_elem_of_here |].
    eapply Hhidden; [exact Ha | congruence | exact Hactive].
Qed.

Lemma a_hidden_album_is_not_shown_witness :
  let visitor :=
    with_session None (run (toggleAlbumVisibility "al1" false)
                           world_gallery) in
  let album := mkAlbum "al1" "Easter" None None (Some true) (Some 0) 150
                       150 in
  fst (albumImages_queryFn (Some album) visitor) = Ok []
  /\ forall rows w',
       albumImages_queryFn (Some album) visitor = (Ok rows, w') -> rows = [].
Proof.
  intros visitor album. split; [vm_compute; reflexivity |].
  intros rows w'.
  apply (proj2 (a_hidden_album_is_not_shown "al1" world_gallery None
                  eq_refl eq_refl eq_refl) album rows w').
  reflexivity.
Defined.

End PublicGalleryFacts.

(** ** The lightbox, pressed many times *)

Section LightboxRounds.
Import GalleryPage.

(** X26.  The lightbox goes round: from an index in range, pressing next
    [k] times lands on the index plus [k] modulo the number of images, and
    pressing prev [k] times on the index minus [k] modulo that number.  So
    as many presses as there are images come back to the same image, every
    image is reached, and prev undoes next. *)
Theorem navigateLightbox_goes_round images i (k : nat) :
  0 <= i < Z.of_nat (length images) ->
  Nat.iter k (fun index => navigateLightbox next index (Some images)) (Some i)
  = Some ((i + Z.of_nat k) mod Z.of_nat (length images))
  /\ Nat.iter k (fun index => navigateLightbox prev index (Some images))
       (Some i)
     = Some ((i - Z.of_nat k) mod Z.of_nat (length images))
  /\ navigateLightbox prev (navigateLightbox next (Some i) (Some images))
       (Some images) = Some i
  /\ navigateLightbox next (navigateLightbox prev (Some i) (Some images))
       (Some images) = Some i.
Proof.
  intros Hi. set (n := Z.of_nat (length images)) in *.
  assert (Hrounds :
    Nat.iter k (fun index => navigateLightbox next index (Some images))
      (Some i) = Some ((i + Z.of_nat k) mod n)
    /\ Nat.iter k (fun index => navigateLightbox prev index (Some images))
         (Some i) = Some ((i - Z.of_nat k) mod n)).
  { induction k as [| k [IHnext IHprev]].
    - cbn. rewrite Z.add_0_r, Z.sub_0_r, Z.mod_small by lia. by split.
    - rewrite !Nat.iter_succ, IHnext, IHprev. unfold navigateLightbox.
      fold n. split; f_equal.
      + pose proof (Z.mod_pos_bound (i + Z.of_nat k) n ltac:(lia)) as Hb.
        replace (i + Z.of_nat (S k)) with (i + Z.of_nat k + 1) by lia.
        rewrite <- (Zplus_mod_idemp_l (i + Z.of_nat k)).
        destruct (Z.ltb_spec ((i + Z.of_nat k) mod n) (n - 1)).
        * by rewrite (Z.mod_small (_ + 1)) by lia.
        * replace ((i + Z.of_nat k) mod n + 1) with n by lia.
          by rewrite Z.mod_same by lia.
      + pose proof (Z.mod_pos_bound (i - Z.of_nat k) n ltac:(lia)) as Hb.
        replace (i - Z.of_nat (S k)) with (i - Z.of_nat k - 1) by lia.
        rewrite <- (Zminus_mod_idemp_l (i - Z.of_nat k)).
        destruct (Z.ltb_spec 0 ((i - Z.of_nat k) mod n)).
        * by rewrite (Z.mod_small (_ - 1)) by lia.
        * replace ((i - Z.of_nat k) mod n - 1) with (-1) by lia.
          replace (-1) with (n - 1 + (-1) * n) by lia.
          by rewrite Z.mod_add, Z.mod_small by lia. }
  destruct Hrounds as [Hnext Hprev].
  split; [exact Hnext |]. split; [exact Hprev |].
  unfold navigateLightbox. fold n. split; f_equal.
  - destruct (Z.ltb_spec i (n - 1));
      [destruct (Z.ltb_spec 0 (i + 1)) | destruct (Z.ltb_spec 0 0)]; lia.
  - destruct (Z.ltb_spec 0 i).
    + destruct (Z.ltb_spec (i - 1) (n - 1)); lia.
    + destruct (Z.ltb_spec (n - 1) (n - 1)); lia.
Qed.

Lemma navigateLightbox_goes_round_witness :
  let images := [mkImage "im1" "/al1/a.png" None;
                 mkImage "im2" "/al1/b.png" None;
                 mkImage "im3" "/al1/c.png" None] in
  Nat.iter 3 (fun index => navigateLightbox next index (Some images))
    (Some 1)
  = Some ((1 + Z.of_nat 3) mod Z.of_nat (length images)).
Proof.
  intros images.
  apply (navigateLightbox_goes_round images 1 3). simpl. lia.
Defined.

End LightboxRounds.

(** ** The sign-in and sign-up forms *)

Section AuthPageFacts.
Import Supabase AuthPage.

(** X27.  What the sign-up form accepts: the validation reports no issue
    exactly when the trimmed email passes the email check, the length of
    the password (in UTF-16 code units, as the runtime counts) is at least
    6 and the confirmation equals the password.  The separate rule that the
    confirmation is not empty then holds by itself. *)
Theorem signUpSchema_accepts is_email email_ password_ confirmPassword_ :
  signUpSchema_issues is_email email_ password_ confirmPassword_ = [] <->
  is_email (trim email_) = true
  /\ (6 <= js_length password_)%nat
  /\ password_ = confirmPassword_.
Proof.
  unfold signUpSchema_issues, authSchema_issues.
  destruct (is_email (trim email_));
    destruct (Nat.leb_spec 6 (js_length password_));
    destruct (Nat.leb_spec 1 (js_length confirmPassword_));
    case_bool_decide; cbn; split; try done; try (intros (? & ? & ?); done).
  all: try (intros (_ & ? & ?); lia).
  all: subst; lia.
Qed.

(** What the handler does once the form is valid and [signIn] has
    answered. *)
Lemma handleSignIn_answered
    is_email signIn rememberMe email_ password_ p error p1 :
  authSchema_issues is_email email_ password_ = [] ->
  signIn (trim email_) password_ (submitting p) = (Ok error, p1) ->
  handleSignIn is_email signIn rememberMe email_ password_ p
  = match error with
    | Some e =>
        toast (toast_error
                 (if includes (message e) "Invalid login credentials"
                  then "Invalid email or password" else message e))
          (mkPage (errors p1) false (localStorage p1) (sessionStorage p1)
                  (toasts p1) (navigations p1))
    | None =>
        (Ok tt,
         mkPage (errors p1) false
           (if rememberMe
            then <["session_persistent" := "true"]> (localStorage p1)
            else delete "session_persistent" (localStorage p1))
           (if rememberMe
            then delete "session_active" (sessionStorage p1)
            else <["session_active" := "true"]> (sessionStorage p1))
           (toasts p1 ++ [toast_success "Welcome back!"])
           (navigations p1 ++ ["/admin"]))
    end.
Proof.
  intros Hvalid HsignIn. unfold handleSignIn. rewrite Hvalid.
  unfold bind, setErrors, setIsLoading, modify.
  change (mkPage _ true _ _ _ _) with (submitting p). rewrite HsignIn.
  destruct error as [e |].
  - by destruct (includes (message e) "Invalid login credentials").
  - by destruct rememberMe.
Qed.

(** X28.  [handleSignIn] checks the form first and navigates only after
    a sign-in that succeeded.  With an invalid form [signIn] is not called:
    the only effect is the field errors, the email one when the trimmed
    email fails the check and the password one when the length of the
    password, in UTF-16 code units, is less than 6.  With a valid form and a reply of [signIn] without
    error, the page goes to /admin, says welcome, and leaves exactly one
    session marker: [session_persistent] in the local storage when
    remember-me is on, [session_active] in the session storage when it is
    off, the other one removed.  With an error in the reply there is no
    navigation, the storages are as [signIn] left them, and the error is
    shown.  After a reply the form is no longer loading. *)
Theorem handleSignIn_signs_in_before_it_navigates
    is_email signIn rememberMe email_ password_ p :
  (authSchema_issues is_email email_ password_ <> [] ->
   handleSignIn is_email signIn rememberMe email_ password_ p
   = (Ok tt,
      mkPage
        (mkAuthErrors
           (if is_email (trim email_) then None
            else Some "Please enter a valid email address")
           (if (6 <=? js_length password_)%nat then None
            else Some "Password must be at least 6 characters")
           None)
        (isLoading p) (localStorage p) (sessionStorage p) (toasts p)
        (navigations p)))
  /\ (authSchema_issues is_email email_ password_ = [] ->
      forall error p1,
        signIn (trim email_) password_ (submitting p) = (Ok error, p1) ->
        exists p',
          handleSignIn is_email signIn rememberMe email_ password_ p
          = (Ok tt, p')
          /\ isLoading p' = false
          /\ match error with
             | None =>
                 navigations p' = navigations p1 ++ ["/admin"]
                 /\ toasts p' = toasts p1 ++ [toast_success "Welcome back!"]
                 /\ (if rememberMe
                     then localStorage p' !! "session_persistent"
                          = Some "true"
                          /\ sessionStorage p' !! "session_active" = None
                     else localStorage p' !! "session_persistent" = None
                          /\ sessionStorage p' !! "session_active"
                             = Some "true")
             | Some e =>
                 navigations p' = navigations p1
                 /\ localStorage p' = localStorage p1
                 /\ sessionStorage p' = sessionStorage p1
                 /\ toasts p'
                    = toasts p1
                      ++ [toast_error
                            (if includes (message e)
                                  "Invalid login credentials"
                             then "Invalid email or password"
                             else message e)]
             end).
Proof.
  split.
  - unfold handleSignIn, authSchema_issues.
    destruct (is_email (trim email_)), (6 <=? js_length password_)%nat;
      cbn; done.
  - intros Hvalid error p1 HsignIn.
    rewrite (handleSignIn_answered _ _ _ _ _ _ _ _ Hvalid HsignIn).
    destruct error as [e |].
    + eexists. split; [reflexivity |]. by repeat split.
    + destruct rememberMe; eexists; (split; [reflexivity |]); cbn;
        repeat split;
        first [ apply lookup_insert_eq | apply lookup_delete_eq ].
Qed.

Lemma handleSignIn_signs_in_before_it_navigates_witness :
  let is_email := fun text => includes text "@" in
  let signIn := signIn_one "ann@church.org" "secret1" in
  (handleSignIn is_email signIn false "bad" "abc€" page_empty
   = (Ok tt,
      mkPage
        (mkAuthErrors (Some "Please enter a valid email address")
           (Some "Password must be at least 6 characters") None)
        false ∅ ∅ [] []))
  /\ (exists p',
        handleSignIn is_email signIn false " ann@church.org" "secret1"
          page_empty
        = (Ok tt, p')
        /\ isLoading p' = false
        /\ navigations p' = ["/admin"]
        /\ toasts p' = [toast_success "Welcome back!"]
        /\ localStorage p' !! "session_persistent" = None
        /\ sessionStorage p' !! "session_active" = Some "true")
  /\ (exists p',
        handleSignIn is_email signIn true "ann@church.org" "secret2"
          page_empty
        = (Ok tt, p')
        /\ isLoading p' = false
        /\ navigations p' = []
        /\ localStorage p' = ∅
        /\ sessionStorage p' = ∅
        /\ toasts p' = [toast_error "Invalid email or password"]).
Proof.
  intros is_email signIn. split; [| split].
  - apply (proj1 (handleSignIn_signs_in_before_it_navigates is_email signIn
                    false "bad" "abc€" page_empty)).
    vm_compute. discriminate.
  - apply (proj2 (handleSignIn_signs_in_before_it_navigates is_email signIn
                    false " ann@church.org" "secret1" page_empty)
             eq_refl None (submitting page_empty)).
    reflexivity.
  - apply (proj2 (handleSignIn_signs_in_before_it_navigates is_email signIn
                    true "ann@church.org" "secret2" page_empty)
             eq_refl
             (Some (mkError true "Invalid login credentials"))
             (submitting page_empty)).
    reflexivity.
Defined.

End AuthPageFacts.

(** ** Times of the day *)

Section ScheduleFacts.
Import Supabase Schedule.

Lemma split_no_colon s :
  no_colon s = true -> split ":" s = [s].
Proof.
  induction s as [| c s IH]; [done |]. cbn [no_colon split].
  destruct (Ascii.eqb c ":"); [done |]. intros Hs. by rewrite IH.
Qed.

Lemma split_app_colon s t :
  no_colon s = true ->
  split ":" (String.append s (String ":" t)) = s :: split ":" t.
Proof.
  induction s as [| c s IH]; [done |].
  change (String c s +:+ ?u) with (String c (s +:+ u)). cbn [no_colon split].
  destruct (Ascii.eqb c ":"); [done |]. intros Hs. by rewrite IH.
Qed.

Lemma append_empty s : String.append s "" = s.
Proof.
  induction s as [| c s IH]; [done |].
  change (String c s +:+ "") with (String c (s +:+ "")). congruence.
Qed.

(** The hours of a day, one by one. *)
Lemma hour_cases h :
  0 <= h < 24 -> Exists (fun k => h = k) (Z.of_nat <$> seq 0 24).
Proof.
  intros Hh. apply Exists_exists. exists h. split; [| reflexivity].
  apply list_elem_of_fmap. exists (Z.to_nat h). split; [lia |].
  apply list_elem_of_In, in_seq. lia.
Qed.

Lemma parseInt_two_digits h :
  0 <= h < 24 -> parseInt (two_digits h) = Some h.
Proof.
  intros Hh. pose proof (hour_cases h Hh) as Hcases. cbn in Hcases.
  repeat (apply Exists_cons in Hcases as [-> | Hcases]; [reflexivity |]).
  by apply Exists_nil in Hcases.
Qed.

Lemma no_colon_two_digits h : 0 <= h < 24 -> no_colon (two_digits h) = true.
Proof.
  intros Hh. pose proof (hour_cases h Hh) as Hcases. cbn in Hcases.
  repeat (apply Exists_cons in Hcases as [-> | Hcases]; [reflexivity |]).
  by apply Exists_nil in Hcases.
Qed.

Lemma formatTime_of h minutes seconds :
  0 <= h < 24 ->
  no_colon minutes = true ->
  formatTime
    (String.append (two_digits h)
       (String.append ":"
          (String.append minutes
             (from_option (String.append ":") "" seconds))))
  = String.append (pretty (if h mod 12 =? 0 then 12 else h mod 12))
      (String.append ":"
         (String.append minutes
            (String.append " " (if h <? 12 then "AM" else "PM")))).
Proof.
  intros Hh Hminutes.
  assert (Hsplit : exists rest,
            split ":"
              (String.append (two_digits h)
                 (String.append ":"
                    (String.append minutes
                       (from_option (String.append ":") "" seconds))))
            = two_digits h :: minutes :: rest).
  { change (String.append ":" ?t) with (String ":" t).
    rewrite split_app_colon by by apply no_colon_two_digits.
    destruct seconds as [ss |]; cbn [from_option].
    - change (String.append ":" ss) with (String ":" ss).
      rewrite split_app_colon by assumption. by eexists.
    - rewrite append_empty, split_no_colon by assumption. by eexists. }
  destruct Hsplit as [rest Hsplit]. unfold formatTime. rewrite Hsplit.
  change ((?x :: ?l) !! 0%nat) with (Some x).
  change ((?x :: ?y :: ?l) !! 1%nat) with (Some y).
  cbn [default from_option id]. rewrite parseInt_two_digits by exact Hh.
  rewrite Z.rem_mod_nonneg by lia.
  do 4 f_equal.
  destruct (Z.leb_spec 12 h), (Z.ltb_spec h 12); lia || reflexivity.
Qed.

(** X29.  [formatTime] is the twelve-hour clock: for a time of the day
    written with a two-digit hour from 00 to 23, a colon, the minutes and
    possibly a colon and seconds, it gives the hour modulo 12, with 12 in
    place of 0, then the minutes as written, then AM before noon and PM
    from noon on; the seconds are dropped.  So 00:15 reads 12:15 AM and
    12:00 reads 12:00 PM.  A range with an end is the two times with a dash
    between them; a range without an end, or with an empty one, is the
    start alone. *)
Theorem formatTime_is_the_twelve_hour_clock
    h minutes seconds h' minutes' seconds' :
  0 <= h < 24 ->
  no_colon minutes = true ->
  0 <= h' < 24 ->
  no_colon minutes' = true ->
  let written (h : Z) (minutes : string) (seconds : option string) :=
    String.append (two_digits h)
      (String.append ":"
         (String.append minutes
            (from_option (String.append ":") "" seconds))) in
  let shown (h : Z) (minutes : string) :=
    String.append (pretty (if h mod 12 =? 0 then 12 else h mod 12))
      (String.append ":"
         (String.append minutes
            (String.append " " (if h <? 12 then "AM" else "PM")))) in
  formatTime (written h minutes seconds) = shown h minutes
  /\ formatTimeRange (written h minutes seconds) None = shown h minutes
  /\ formatTimeRange (written h minutes seconds) (Some "") = shown h minutes
  /\ formatTimeRange (written h minutes seconds)
       (Some (written h' minutes' seconds'))
     = String.append (shown h minutes)
         (String.append " - " (shown h' minutes')).
Proof.
  intros Hh Hminutes Hh' Hminutes' written shown.
  pose proof (formatTime_of h minutes seconds Hh Hminutes) as Hshown.
  pose proof (formatTime_of h' minutes' seconds' Hh' Hminutes') as Hshown'.
  fold (written h minutes seconds) (shown h minutes) in Hshown.
  fold (written h' minutes' seconds') (shown h' minutes') in Hshown'.
  split; [exact Hshown |]. split; [| split].
  - unfold formatTimeRange. cbn [truthy]. exact Hshown.
  - unfold formatTimeRange, truthy.
    rewrite bool_decide_eq_true_2 by reflexivity. exact Hshown.
  - unfold formatTimeRange, truthy.
    rewrite bool_decide_eq_false_2.
    + cbn [negb default from_option id]. by rewrite Hshown, Hshown'.
    + unfold written. pose proof (hour_cases h' Hh') as Hcases.
      cbn in Hcases.
      repeat (apply Exists_cons in Hcases as [-> | Hcases];
              [discriminate |]).
      by apply Exists_nil in Hcases.
Qed.

Lemma formatTime_is_the_twelve_hour_clock_witness :
  formatTime "00:15:00" = "12:15 AM"
  /\ formatTimeRange "00:15:00" None = "12:15 AM"
  /\ formatTimeRange "00:15:00" (Some "") = "12:15 AM"
  /\ formatTimeRange "00:15:00" (Some "13:30") = "12:15 AM - 1:30 PM".
Proof.
  apply (formatTime_is_the_twelve_hour_clock 0 "15" (Some "00") 13 "30" None).
  - lia.
  - reflexivity.
  - lia.
  - reflexivity.
Defined.

End ScheduleFacts.

(** ** The profile page *)

Section ProfilePageFacts.
Import Supabase ProfilePage.

Lemma trimStart_unfold s :
  trimStart s
  = match white_space_bytes s, s with
    | 1%nat, String _ s1 => trimStart s1
    | 2%nat, String _ (String _ s2) => trimStart s2
    | 3%nat, String _ (String _ (String _ s3)) => trimStart s3
    | _, _ => s
    end.
Proof. by destruct s. Qed.

(** [trimStart] either leaves the text alone or goes on with a shorter
    one. *)
Lemma trimStart_cases s :
  trimStart s = s
  \/ exists s', (String.length s' < String.length s)%nat
                /\ trimStart s = trimStart s'.
Proof.
  rewrite (trimStart_unfold s).
  destruct (white_space_bytes s) as [| [| [| [| k]]]]; [by left | | | |].
  - destruct s as [| c1 s1]; [by left |].
    right. exists s1. split; [cbn; lia | done].
  - destruct s as [| c1 [| c2 s2]]; [by left | by left |].
    right. exists s2. split; [cbn; lia | done].
  - destruct s as [| c1 [| c2 [| c3 s3]]]; [by left | by left | by left |].
    right. exists s3. split; [cbn; lia | done].
  - by left.
Qed.

Lemma trimStart_idempotent s : trimStart (trimStart s) = trimStart s.
Proof.
  remember (String.length s) as n eqn:Hn.
  revert s Hn. induction (lt_wf n) as [n _ IH]. intros s ->.
  destruct (trimStart_cases s) as [Hsame | (s' & Hshorter & Hnext)].
  - by rewrite !Hsame.
  - rewrite Hnext. by apply (IH (String.length s')).
Qed.

Lemma trimEnd_empty s : trimEnd s = "" <-> trimStart s = "".
Proof.
  destruct s as [| c s]; [done |]. cbn [trimEnd].
  by case_bool_decide.
Qed.

(** A text is blank when its white space at the start is all of it. *)
Lemma trim_empty s : trim s = "" <-> trimStart s = "".
Proof.
  unfold trim. rewrite trimEnd_empty, trimStart_idempotent. done.
Qed.

Lemma only_spaces_true s :
  only_spaces s = true <-> s <> "" /\ trim s = "".
Proof.
  unfold only_spaces. rewrite trim_empty, andb_true_iff, negb_true_iff.
  rewrite bool_decide_eq_false, bool_decide_eq_true. done.
Qed.

(** The first test of [validatePassword] never changes the outcome. *)
Lemma validatePassword_eq password :
  validatePassword password
  = if only_spaces password then Some "Password cannot be only spaces"
    else if (js_length password <? 6)%nat
         then Some "Password must be at least 6 characters"
         else None.
Proof.
  unfold validatePassword.
  destruct (only_spaces password) eqn:Honly.
  - apply only_spaces_true in Honly as [_ ->].
    by rewrite bool_decide_eq_true_2.
  - by destruct (_ || _).
Qed.

(** X30.  What [validatePassword] accepts: a new password passes exactly
    when its length, counted as the runtime does, is at least 6 and
    trimming it leaves something.  It is refused as being only spaces
    exactly when it is not empty and trimming it leaves nothing, however
    long it is; an empty password is refused as too short.  White space is
    that of the runtime, the no-break space and the other Unicode spaces
    included. *)
Theorem validatePassword_accepts password :
  (validatePassword password = None <->
   (6 <= js_length password)%nat /\ trim password <> "")
  /\ (validatePassword password = Some "Password cannot be only spaces" <->
      password <> "" /\ trim password = "")
  /\ (validatePassword password
      = Some "Password must be at least 6 characters" <->
      (js_length password < 6)%nat
      /\ (password = "" \/ trim password <> "")).
Proof.
  rewrite validatePassword_eq.
  pose proof (only_spaces_true password) as Honly.
  destruct (only_spaces password) eqn:Hspaces.
  - destruct (proj1 Honly eq_refl) as [Hsome Hblank].
    split; [| split].
    + split; [done | by intros [_ ?]].
    + by split.
    + split; [done |]. by intros [_ [? | ?]].
  - assert (Hnot : password = "" \/ trim password <> "").
    { destruct (decide (password = "")) as [-> | Hsome]; [by left |].
      right. intros Hblank.
      assert (false = true) as [=] by by apply Honly. }
    destruct (Nat.ltb_spec (js_length password) 6) as [Hshort | Hlong].
    + split; [| split].
      * split; [done | lia].
      * split; [done |]. intros [Hsome Hblank]. by destruct Hnot.
      * by split.
    + split; [| split].
      * split; [| done]. intros _. split; [assumption |].
        destruct Hnot as [-> | ?]; [cbn in Hlong; lia | assumption].
      * split; [done |]. intros [Hsome Hblank]. by destruct Hnot.
      * split; [done | lia].
Qed.

End ProfilePageFacts.
